(** * Policy-as-code backend: rule synthesis, storage and evaluation

    A shallow embedding of the TypeScript services of the backend
    (validator, iterative pipeline, rules storage, rules executor and
    demo-data lookup) together with the properties their specification
    states about them.

    Conventions of the embedding:
    - JavaScript strings are [string]; the built-in string methods are
      given on the ASCII range (case mapping of [a-z]/[A-Z], the six
      ASCII white-space characters).
      Outside that range JavaScript maps the case of further letters
      and trims further white space; a property that depends on it is
      stated for strings of ASCII characters ([ascii_only]).
    - External services (the language model, the sandbox service, the
      Python child process, the disk, the clock) are functions over an
      abstract state [Ext]; every call is recorded in a log.
    - Asynchronous functions become state-passing functions returning
      either a value or a thrown error message. *)

From Stdlib Require Import String Ascii ZArith Lia Bool List.
From Stdlib Require Import SpecFloat.
From stdpp Require Import base option list gmap strings pretty.

Local Open Scope string_scope.
Local Open Scope list_scope.

(* ===================================================================== *)
(** * JavaScript string built-ins (ASCII range)                          *)
(* ===================================================================== *)

Module JS.

Definition is_upper (c : ascii) : bool :=
  let n := nat_of_ascii c in (65 <=? n)%nat && (n <=? 90)%nat.

Definition is_lower (c : ascii) : bool :=
  let n := nat_of_ascii c in (97 <=? n)%nat && (n <=? 122)%nat.

Definition lower_char (c : ascii) : ascii :=
  if is_upper c then ascii_of_nat (nat_of_ascii c + 32) else c.

Definition upper_char (c : ascii) : ascii :=
  if is_lower c then ascii_of_nat (nat_of_ascii c - 32) else c.

Fixpoint map_chars (f : ascii -> ascii) (s : string) : string :=
  match s with
  | EmptyString => EmptyString
  | String c s' => String (f c) (map_chars f s')
  end.

(** [String.prototype.toLowerCase] / [toUpperCase]. *)
Definition toLowerCase (s : string) : string := map_chars lower_char s.
Definition toUpperCase (s : string) : string := map_chars upper_char s.

(** White space recognised by [trim] and by the regular expression
    class [\s]: tab, line feed, vertical tab, form feed, carriage
    return, space. *)
Definition is_space (c : ascii) : bool := Ascii.is_space c.

Fixpoint trimStart (s : string) : string :=
  match s with
  | EmptyString => EmptyString
  | String c s' => if is_space c then trimStart s' else s
  end.

Definition trimEnd (s : string) : string :=
  String.rev (trimStart (String.rev s)).

(** [String.prototype.trim]. *)
Definition trim (s : string) : string := trimEnd (trimStart s).

(** [needle] occurs at the very start of [s]. *)
Fixpoint startsWith (s needle : string) {struct needle} : bool :=
  match needle, s with
  | EmptyString, _ => true
  | String _ _, EmptyString => false
  | String a n', String b s' => if ascii_dec a b then startsWith s' n' else false
  end.

(** [String.prototype.includes]. *)
Fixpoint includes (s needle : string) : bool :=
  startsWith s needle ||
  match s with
  | EmptyString => false
  | String _ s' => includes s' needle
  end.

(** [s.indexOf(needle)] counted from the start of [s]; [None] is -1. *)
Fixpoint indexOf (s needle : string) : option nat :=
  if startsWith s needle then Some 0
  else match s with
       | EmptyString => None
       | String _ s' => S <$> indexOf s' needle
       end.

Fixpoint drop (n : nat) (s : string) : string :=
  match n, s with
  | O, _ => s
  | S _, EmptyString => EmptyString
  | S n', String _ s' => drop n' s'
  end.

Fixpoint take (n : nat) (s : string) : string :=
  match n, s with
  | O, _ => EmptyString
  | S _, EmptyString => EmptyString
  | S n', String c s' => String c (take n' s')
  end.

(** [s.replace(/\s+/g, rep)]: each maximal run of white space becomes
    one copy of [rep]. *)
Fixpoint replaceSpaces (rep : string) (in_run : bool) (s : string) : string :=
  match s with
  | EmptyString => EmptyString
  | String c s' =>
      if is_space c
      then (if in_run then replaceSpaces rep true s'
            else rep ++ replaceSpaces rep true s')
      else String c (replaceSpaces rep false s')
  end.

(** Truthiness of a string: only the empty string is falsy. *)
Definition truthy (s : string) : bool :=
  match s with EmptyString => false | _ => true end.

(** Truthiness of an optional string ([undefined] is falsy). *)
Definition truthy_opt (o : option string) : bool :=
  match o with Some s => truthy s | None => false end.

(** [a || b] on optional strings. *)
Definition or_opt (a b : option string) : option string :=
  if truthy_opt a then a else b.

(** [a || b] where the right operand is a string literal. *)
Definition or_lit (a : option string) (b : string) : string :=
  match a with
  | Some s => if truthy s then s else b
  | None => b
  end.

(** [a ?? b] where the right operand is a string literal. *)
Definition nullish (a : option string) (b : string) : string :=
  match a with Some s => s | None => b end.

(** [String.prototype.padStart(n, "0")]. *)
Definition padStart0 (n : nat) (s : string) : string :=
  String.concat "" (repeat "0" (n - String.length s)) ++ s.

End JS.

(* ===================================================================== *)
(** * JavaScript values and the data model of [types/index.ts]           *)
(* ===================================================================== *)

Set Warnings "-register-all".

(** A value produced by [JSON.parse]. Numbers are IEEE-754 doubles. *)
Inductive JSValue : Type :=
| JNull
| JBool (b : bool)
| JNum (f : spec_float)
| JStr (s : string)
| JArr (items : list JSValue)
| JObj (props : list (string * JSValue)).

(** An integer literal of the source as a double. *)
Definition num (z : Z) : spec_float := binary_normalize 53 1024 z 0 false.

Fixpoint assoc {A : Type} (k : string) (kv : list (string * A)) : option A :=
  match kv with
  | [] => None
  | (k', v) :: rest => if String.eqb k k' then Some v else assoc k rest
  end.

(** [v.k] for a value [v] that is neither [null] nor [undefined];
    [None] stands for [undefined]. Only objects carry the properties
    read by this code base. *)
Definition get_prop (v : JSValue) (k : string) : option JSValue :=
  match v with
  | JObj props => assoc k props
  | _ => None
  end.

(** [typeof x === "boolean"], returning the boolean. *)
Definition as_boolean (o : option JSValue) : option bool :=
  match o with
  | Some (JBool b) => Some b
  | _ => None
  end.

(** Truthiness of a value; [None] is [undefined]. *)
Definition js_truthy (o : option JSValue) : bool :=
  match o with
  | None | Some JNull => false
  | Some (JBool b) => b
  | Some (JNum f) =>
      match f with
      | S754_zero _ | S754_nan => false
      | _ => true
      end
  | Some (JStr s) => JS.truthy s
  | Some (JArr _) | Some (JObj _) => true
  end.

Record ValidationAttempt := {
  attempt_number : nat;
  passed : bool;
  error : option string;
  test_output : option string;
  feedback_to_llm : option string;
  timestamp : string;
}.

Record Rule := {
  rule_id : string;
  rule_name : string;
  description : string;
  policy_reference : string;
  python_code : string;
  applies_to_roles : list string;
  active : bool;
  generation_attempt : nat;
  validation_history : list ValidationAttempt;
}.

Record RulesData := {
  firm_name : string;
  policy_version : string;
  last_updated : string;
  generated_by_llm : bool;
  total_iterations : nat;
  rules : list Rule;
}.

Record PreviousAttemptContext := {
  pa_code : string;
  pa_error : string;
  pa_test_results : string;
}.

Record GenerationContext := {
  ctx_policy_text : string;
  ctx_firm_name : string;
  previous_attempt : option PreviousAttemptContext;
}.

(** [Employee] and [Security] are open records: the typed fields the
    engine reads, and the remaining properties as they came in. *)
Record Employee := {
  emp_id : string;
  role : string;
  emp_props : list (string * JSValue);
}.

Record Security := {
  ticker : string;
  sec_props : list (string * JSValue);
}.

(** [reasons] is declared [string[]]; at run time the engine pushes the
    rule's [reason] property unchecked, so the elements are values. *)
Record ComplianceResult := {
  allowed : bool;
  reasons : list JSValue;
  policy_refs : list string;
  rules_checked : list string;
}.

Record ValidationResult := {
  vr_passed : bool;
  syntax_error : option string;
  runtime_error : option string;
  test_failure : option string;
  security_issue : option string;
  vr_error : option string;
  vr_test_output : option string;
}.

(** A [ValidationResult] literal with only [passed] set. *)
Definition vr_only (p : bool) : ValidationResult :=
  {| vr_passed := p; syntax_error := None; runtime_error := None;
     test_failure := None; security_issue := None; vr_error := None;
     vr_test_output := None |}.

(** [demo_data_simple.json]: the employee entries carry an [id] (read
    with [?.] by the lookup, so possibly missing) and arbitrary other
    properties. *)
Record DemoEmployee := {
  id : option string;
  demo_props : list (string * JSValue);
}.

Record DemoData := {
  demo_employees : option (list DemoEmployee);
  demo_rest : list (string * JSValue);
}.

(** What the code reads off a [new Date()]. *)
Record DateReading := {
  toISOString : string;
  getFullYear : Z;
  getMonth : nat;
}.

(* ===================================================================== *)
(** * Effects: external calls, their log, thrown errors                  *)
(* ===================================================================== *)

(** The payload written to the Python child's standard input. *)
Record RunnerPayload := {
  rp_code : string;
  rp_employee : Employee;
  rp_security : Security;
  rp_date : string;
}.

(** One entry per call that leaves the process. *)
Inductive Event : Type :=
| EvSandboxCreate
| EvCodeRun (script : string) (timeout_s : nat)
| EvSandboxDelete
| EvValidate (r : Rule)
| EvGenerate (ctx : GenerationContext)
| EvRegenerate (ctx : GenerationContext)
| EvMkdir (path : string)
| EvWrite (path content : string)
| EvRename (from to : string)
| EvExists (path : string)
| EvRead (path : string)
| EvRunPython (payload : RunnerPayload) (timeout_ms : N)
| EvClock.

(** Outcome of an awaited computation. A thrown value is represented by
    the text a handler extracts from it
    ([error instanceof Error ? error.message : String(error)]).
    [OutOfFuel] marks a loop cut off by the embedding; the termination
    theorems show it never arises. *)
Inductive Res (A : Type) : Type :=
| Ok (a : A)
| Throw (msg : string)
| OutOfFuel.
Arguments Ok {A} a.
Arguments Throw {A} msg.
Arguments OutOfFuel {A}.

(** How an awaited call to an external service settles. *)
Inductive Outcome (A : Type) : Type :=
| Resolves (a : A)
| Rejects (msg : string).
Arguments Resolves {A} a.
Arguments Rejects {A} msg.

Definition settle {A} (o : Outcome A) : Res A :=
  match o with
  | Resolves a => Ok a
  | Rejects msg => Throw msg
  end.

Section Effects.
Context {Ext : Type}.

(** Process state: the outside world, the call log, the in-memory
    cache of one [RulesStorage] instance, and the module-level
    [cachedData] and [loadPromise] of the demo-data service. Between
    two awaited calls [loadPromise] is either [null] or a promise that
    has rejected, kept with its error. *)
Record World := {
  ext : Ext;
  log : list Event;
  cache : gmap string RulesData;
  cachedData : option DemoData;
  loadPromise : option string;
}.

Definition M (A : Type) : Type := World -> Res A * World.

Definition ret {A} (a : A) : M A := fun w => (Ok a, w).

Definition throw {A} (msg : string) : M A := fun w => (Throw msg, w).

Definition bind {A B} (m : M A) (k : A -> M B) : M B :=
  fun w =>
    match m w with
    | (Ok a, w') => k a w'
    | (Throw msg, w') => (Throw msg, w')
    | (OutOfFuel, w') => (OutOfFuel, w')
    end.

(** [try { m } catch (error) { h(message) }]. *)
Definition try_catch {A} (m : M A) (h : string -> M A) : M A :=
  fun w =>
    match m w with
    | (Throw msg, w') => h msg w'
    | other => other
    end.

(** The world after an external call: new outside state, one more log
    entry, the process memory untouched. *)
Definition after_call (w : World) (e' : Ext) (ev : Event) : World :=
  {| ext := e'; log := log w ++ [ev]; cache := cache w;
     cachedData := cachedData w; loadPromise := loadPromise w |}.

(** An awaited call to an external service, recorded in the log. *)
Definition call {A} (ev : Event) (f : Ext -> Outcome A * Ext) : M A :=
  fun w =>
    let '(r, e') := f (ext w) in
    (settle r, after_call w e' ev).

(** [new Date()]: a clock reading; it cannot throw. *)
Definition clock (f : Ext -> DateReading * Ext) : M DateReading :=
  fun w =>
    let '(d, e') := f (ext w) in
    (Ok d, after_call w e' EvClock).

Definition cache_set (k : string) (v : RulesData) : M unit :=
  fun w =>
    (Ok tt, {| ext := ext w; log := log w; cache := <[k := v]> (cache w);
               cachedData := cachedData w; loadPromise := loadPromise w |}).

Definition cache_get (k : string) : M (option RulesData) :=
  fun w => (Ok (cache w !! k), w).

Definition get_cachedData : M (option DemoData) :=
  fun w => (Ok (cachedData w), w).

Definition set_cachedData (d : DemoData) : M unit :=
  fun w =>
    (Ok tt, {| ext := ext w; log := log w; cache := cache w;
               cachedData := Some d; loadPromise := loadPromise w |}).

Definition get_loadPromise : M (option string) :=
  fun w => (Ok (loadPromise w), w).

Definition set_loadPromise (p : option string) : M unit :=
  fun w =>
    (Ok tt, {| ext := ext w; log := log w; cache := cache w;
               cachedData := cachedData w; loadPromise := p |}).

End Effects.
Arguments World : clear implicits.
Arguments M : clear implicits.

Notation "'let*' x ':=' m 'in' k" := (bind m (fun x => k))
  (at level 10, x name, m at level 100, k at level 200, only parsing).
Notation "'run' m 'then' k" := (bind m (fun _ => k))
  (at level 10, m at level 100, k at level 200, only parsing).

(* ===================================================================== *)
(** * DaytonaValidator: static screen and sandbox validation             *)
(* ===================================================================== *)

Record SecurityCheck := {
  safe : bool;
  reason : option string;
}.

Definition DANGEROUS_SNIPPETS : list string :=
  [ "import os";
    "import subprocess";
    "from subprocess";
    "open(";
    "exec(";
    "eval(";
    "__import__";
    "os.system";
    "sys.stdout";
    "sys.stderr" ].

(** The [for (const snippet of ...)] loop of [checkSecurity]. *)
Fixpoint checkSecurity_loop (lowerCode : string) (snippets : list string)
  : SecurityCheck :=
  match snippets with
  | [] => {| safe := true; reason := None |}
  | snippet :: rest =>
      let needle := JS.toLowerCase snippet in
      if JS.includes lowerCode needle
      then {| safe := false;
              reason := Some ("Code contains insecure pattern: " +:+ snippet) |}
      else checkSecurity_loop lowerCode rest
  end.

Definition checkSecurity (code : string) : SecurityCheck :=
  let lowerCode := JS.toLowerCase code in
  checkSecurity_loop lowerCode DANGEROUS_SNIPPETS.

(** What [sandbox.process.codeRun] resolves to. *)
Record ExecResult := {
  exitCode : Z;
  artifacts_stdout : option string;
  result : option string;
}.

Record Sandbox := { sandbox_id : option string }.

(** [result.artifacts?.stdout ?? result.result ?? ""]. *)
Definition stdout_of (r : ExecResult) : string :=
  match artifacts_stdout r with
  | Some s => s
  | None => JS.nullish (result r) ""
  end.

(** [content.indexOf(needle, from)] for [from] within the string. *)
Definition indexOf_from (content needle : string) (from : nat) : option nat :=
  (fun i => from + i) <$> JS.indexOf (JS.drop from content) needle.

(** [content.slice(a, b)] for [a <= b]. *)
Definition slice (content : string) (a b : nat) : string :=
  JS.take (b - a) (JS.drop a content).

Definition extractBetween (content start end_ : string) : option string :=
  match JS.indexOf content start with
  | None => None
  | Some startIndex =>
      match indexOf_from content end_ (startIndex + String.length start) with
      | None => None
      | Some endIndex =>
          Some (JS.trim (slice content (startIndex + String.length start) endIndex))
      end
  end.

(** The message of the [TypeError] raised by reading a property of
    [null] (text of JavaScriptCore, the engine of the Bun runtime). *)
Definition TypeError_null (expr : string) : string :=
  "null is not an object (evaluating '" +:+ expr +:+ "')".

(** The fixture object built by [runTests]. *)
Definition strs (l : list string) : JSValue := JArr (JStr <$> l).

Definition coverage (t company rating : string) (target : Z) : JSValue :=
  JObj [("ticker", JStr t); ("company", JStr company); ("rating", JStr rating);
        ("price_target", JNum (num target))].

Definition tests_payload (rule : Rule) (trade_date : string) : JSValue :=
  JObj [
    ("code", JStr (python_code rule));
    ("employee", JObj [
       ("id", JStr "validator-emp");
       ("role", JStr "Equity Research Analyst - Technology");
       ("division", JStr "Research");
       ("department", JStr "Research");
       ("sector", JStr "Technology");
       ("tier", JNum (num 2));
       ("firm", JStr (policy_reference rule));
       ("restricted_tickers", strs ["AAPL"; "TSLA"; "MSFT"; "GOOGL"]);
       ("can_trade", strs ["SPY"; "VTI"; "BND"]);
       ("coverage_stocks", JArr [
          coverage "AAPL" "Apple Inc" "Buy" 250;
          coverage "MSFT" "Microsoft" "Buy" 475;
          coverage "GOOGL" "Alphabet" "Hold" 185;
          coverage "TSLA" "Tesla" "Watch" 200 ]);
       ("active_deals", JArr [
          JObj [("ticker", JStr "CVAI"); ("deal_type", JStr "IPO");
                ("reason", JStr "Lead banker on IPO deal")] ]);
       ("can_trade_reason", JStr "Sample validator data");
       ("covered_tickers", strs ["AAPL"; "MSFT"; "GOOGL"; "TSLA"]) ]);
    ("security", JObj [
       ("ticker", JStr "TSLA");
       ("earnings_date", JStr "2025-11-20");
       ("next_earnings_date", JStr "2025-11-20");
       ("last_earnings_date", JStr "2025-08-15");
       ("market_cap", JNum (num 1000000000));
       ("is_covered", JBool true);
       ("requires_preapproval", JBool false) ]);
    ("trade_date", JStr trade_date) ].

Module Validator.
Section WithSandbox.
Context {Ext : Type}.

(** The sandbox service client. *)
Variable client_create : Ext -> Outcome Sandbox * Ext.
Variable client_delete : Sandbox -> Ext -> Outcome unit * Ext.
Variable codeRun : Sandbox -> string -> nat -> Ext -> Outcome ExecResult * Ext.
(** [DAYTONA_PRESERVE_SANDBOXES] read at module load. *)
Variable preserveSandbox : bool.
(** Text of the two Python programs, given the embedded payload. *)
Variable syntaxScript : string -> string.
Variable testsScript : JSValue -> string.
(** [JSON.parse] (error message or value) and [JSON.stringify]. *)
Variable JSON_parse : string -> string + JSValue.
Variable JSON_stringify : JSValue -> string.
(** [new Date()]. *)
Variable Date_new : Ext -> DateReading * Ext.

Local Abbreviation M := (M Ext).

Definition checkSyntax (sandbox : Sandbox) (pythonCode : string)
  : M (bool * option string) :=
  let script := syntaxScript pythonCode in
  let* result := call (EvCodeRun script 60) (codeRun sandbox script 60) in
  let stdout := stdout_of result in
  let isValid := JS.includes stdout "SYNTAX_VALID" in
  ret (isValid,
       if isValid then None
       else Some (JS.or_lit (Some (JS.trim stdout)) "Unknown syntax error")).

Definition runTests (sandbox : Sandbox) (rule : Rule) : M ValidationResult :=
  let* now := clock Date_new in
  let payload := tests_payload rule (slice (toISOString now) 0 10) in
  let script := testsScript payload in
  let* execResult := call (EvCodeRun script 120) (codeRun sandbox script 120) in
  let stdout := stdout_of execResult in
  if negb (exitCode execResult =? 0)%Z then
    let runtimeError := JS.or_lit (Some stdout) "Runtime error while executing rule" in
    ret {| vr_passed := false; syntax_error := None;
           runtime_error := Some (JS.trim runtimeError);
           test_failure := None; security_issue := None; vr_error := None;
           vr_test_output := None |}
  else
    let output := extractBetween stdout "__RULE_OUTPUT__" "__RULE_OUTPUT_END__" in
    if negb (JS.truthy_opt output) then
      ret {| vr_passed := false; syntax_error := None; runtime_error := None;
             test_failure := Some "Rule execution did not return structured output";
             security_issue := None; vr_error := None; vr_test_output := None |}
    else
      let parse_failed (msg : string) : ValidationResult :=
        {| vr_passed := false; syntax_error := None;
           runtime_error := Some ("Failed to parse rule output: " +:+ msg);
           test_failure := None; security_issue := None; vr_error := None;
           vr_test_output := None |} in
      match JSON_parse (JS.nullish output "") with
      | inl msg => ret (parse_failed msg)
      | inr JNull => ret (parse_failed (TypeError_null "parsed.allowed"))
      | inr parsed =>
          match as_boolean (get_prop parsed "allowed") with
          | None =>
              ret {| vr_passed := false; syntax_error := None; runtime_error := None;
                     test_failure := Some "Rule output missing boolean 'allowed'";
                     security_issue := None; vr_error := None;
                     vr_test_output := None |}
          | Some _ =>
              ret {| vr_passed := true; syntax_error := None; runtime_error := None;
                     test_failure := None; security_issue := None; vr_error := None;
                     vr_test_output := Some (JSON_stringify parsed) |}
          end
      end.

(** The [finally] block: delete the sandbox unless preservation is
    requested; a failing delete is logged and swallowed. *)
Definition cleanup (sandbox : Sandbox) : M unit :=
  if preserveSandbox then ret tt
  else try_catch (call EvSandboxDelete (client_delete sandbox))
                 (fun _ => ret tt).

Definition validateRule (rule : Rule) : M ValidationResult :=
  let security := checkSecurity (python_code rule) in
  if negb (safe security) then
    ret {| vr_passed := false; syntax_error := None; runtime_error := None;
           test_failure := None; security_issue := reason security;
           vr_error := None; vr_test_output := None |}
  else
    let on_error (msg : string) : M ValidationResult :=
      ret {| vr_passed := false; syntax_error := None; runtime_error := None;
             test_failure := None; security_issue := None;
             vr_error := Some msg; vr_test_output := None |} in
    fun w =>
      match call EvSandboxCreate client_create w with
      | (Ok sandbox, w1) =>
          (let* outcome :=
             try_catch
               (let* syntaxResult := checkSyntax sandbox (python_code rule) in
                if negb (fst syntaxResult) then
                  ret {| vr_passed := false; syntax_error := snd syntaxResult;
                         runtime_error := None; test_failure := None;
                         security_issue := None; vr_error := None;
                         vr_test_output := None |}
                else
                  let* runtimeResult := runTests sandbox rule in
                  if negb (vr_passed runtimeResult) then ret runtimeResult
                  else
                    ret {| vr_passed := true; syntax_error := None;
                           runtime_error := None; test_failure := None;
                           security_issue := None; vr_error := None;
                           vr_test_output := vr_test_output runtimeResult |})
               on_error in
           run cleanup sandbox then
           ret outcome) w1
      | (Throw msg, w1) => on_error msg w1
      | (OutOfFuel, w1) => (OutOfFuel, w1)
      end.

(** Number of sandboxes provisioned according to a log. *)
Definition sandboxes_created (l : list Event) : nat :=
  length (List.filter (fun ev => match ev with EvSandboxCreate => true | _ => false end) l).

End WithSandbox.
End Validator.

(* ===================================================================== *)
(** * RulesStorage: one JSON document per firm, with a cache             *)
(* ===================================================================== *)

Definition normalizeFirmName (firmName : string) : string :=
  JS.replaceSpaces "_" false (JS.toLowerCase (JS.trim firmName)).

Module Storage.
Section WithDisk.
Context {Ext : Type}.

(** [node:fs], [node:path] and the [Bun] file API. *)
Variable mkdirSync : string -> Ext -> Outcome unit * Ext.
(** Whether a thrown error carries [code === "EEXIST"]. *)
Variable is_EEXIST : string -> bool.
Variable path_join : string -> string -> string.
Variable dirname : string -> string.
Variable Bun_write : string -> string -> Ext -> Outcome unit * Ext.
Variable file_exists : string -> Ext -> Outcome bool * Ext.
Variable file_text : string -> Ext -> Outcome string * Ext.
(** [JSON.stringify(data, null, 2)] and [JSON.parse(...) as RulesData]. *)
Variable JSON_stringify_data : RulesData -> string.
Variable JSON_parse_data : string -> string + RulesData.
Variable Date_new : Ext -> DateReading * Ext.
(** Constructor argument. *)
Variable rulesDir : string.

Local Abbreviation M := (M Ext).

Definition ensureDir (path : string) : M unit :=
  try_catch (call (EvMkdir path) (mkdirSync path))
            (fun error => if negb (is_EEXIST error) then throw error else ret tt).

Definition getFilePath (firmName : string) : string :=
  let fileName := normalizeFirmName firmName +:+ "_rules.json" in
  path_join rulesDir fileName.

Definition saveRules (firmName : string) (rules : list Rule) (totalIterations : nat)
  : M RulesData :=
  let* d1 := clock Date_new in
  let now := toISOString d1 in
  let* d2 := clock Date_new in
  let* d3 := clock Date_new in
  let policyVersion :=
    pretty (getFullYear d2) +:+ "-" +:+ JS.padStart0 2 (pretty (getMonth d3 + 1)) in
  let data :=
    {| firm_name := firmName;
       policy_version := policyVersion;
       last_updated := now;
       generated_by_llm := true;
       total_iterations := totalIterations;
       rules := rules |} in
  let filePath := getFilePath firmName in
  run ensureDir (dirname filePath) then
  run call (EvWrite filePath (JSON_stringify_data data))
           (Bun_write filePath (JSON_stringify_data data)) then
  run cache_set firmName data then
  ret data.

Definition loadRules (firmName : string) : M (option RulesData) :=
  let* cached := cache_get firmName in
  match cached with
  | Some data => ret (Some data)
  | None =>
      let path := getFilePath firmName in
      let* present := call (EvExists path) (file_exists path) in
      if negb present then ret None
      else
        let* contents := call (EvRead path) (file_text path) in
        match JSON_parse_data contents with
        | inl msg => throw msg
        | inr parsed =>
            run cache_set firmName parsed then
            ret (Some parsed)
        end
  end.

End WithDisk.
End Storage.

(* ===================================================================== *)
(** * IterativePipeline: generate, validate, refine, persist             *)
(* ===================================================================== *)

Record ValidationLoopResult := {
  validated : bool;
  rule : Rule;
  iterations : nat;
}.

Definition push_feedback (label : string) (field : option string)
  (feedback : list string) : list string :=
  if JS.truthy_opt field then feedback ++ [label +:+ JS.nullish field ""]
  else feedback.

Definition createFeedbackForLLM (validation : ValidationResult) : string :=
  let feedback := [] in
  let feedback := push_feedback "Fix syntax issues: " (syntax_error validation) feedback in
  let feedback := push_feedback "Runtime failure: " (runtime_error validation) feedback in
  let feedback := push_feedback "Logical/test failure: " (test_failure validation) feedback in
  let feedback := push_feedback "Security violation: " (security_issue validation) feedback in
  let feedback :=
    if JS.truthy_opt (vr_error validation) && (length feedback =? 0)%nat
    then feedback ++ ["General validation error: " +:+ JS.nullish (vr_error validation) ""]
    else feedback in
  JS.or_lit (Some (String.concat " " feedback))
            "Validation failed for unspecified reasons. Re-check rule robustness.".

(** [error || syntax_error || runtime_error || test_failure || security_issue]. *)
Definition consolidated_error (v : ValidationResult) : option string :=
  JS.or_opt (vr_error v)
    (JS.or_opt (syntax_error v)
       (JS.or_opt (runtime_error v)
          (JS.or_opt (test_failure v) (security_issue v)))).

(** [{ ...initialRule, validation_history: [] }]. *)
Definition with_empty_history (r : Rule) : Rule :=
  {| rule_id := rule_id r; rule_name := rule_name r; description := description r;
     policy_reference := policy_reference r; python_code := python_code r;
     applies_to_roles := applies_to_roles r; active := active r;
     generation_attempt := generation_attempt r; validation_history := [] |}.

(** [currentRule.generation_attempt = attempt]. *)
Definition set_generation_attempt (attempt : nat) (r : Rule) : Rule :=
  {| rule_id := rule_id r; rule_name := rule_name r; description := description r;
     policy_reference := policy_reference r; python_code := python_code r;
     applies_to_roles := applies_to_roles r; active := active r;
     generation_attempt := attempt; validation_history := validation_history r |}.

(** [currentRule.validation_history.push(historyEntry)]. *)
Definition push_history (entry : ValidationAttempt) (r : Rule) : Rule :=
  {| rule_id := rule_id r; rule_name := rule_name r; description := description r;
     policy_reference := policy_reference r; python_code := python_code r;
     applies_to_roles := applies_to_roles r; active := active r;
     generation_attempt := generation_attempt r;
     validation_history := validation_history r ++ [entry] |}.

(** [{ ...nextRule, rule_id: initialRule.rule_id,
       validation_history: currentRule.validation_history,
       generation_attempt: attempt }]. *)
Definition carry_forward (nextRule initialRule currentRule : Rule) (attempt : nat) : Rule :=
  {| rule_id := rule_id initialRule; rule_name := rule_name nextRule;
     description := description nextRule;
     policy_reference := policy_reference nextRule;
     python_code := python_code nextRule;
     applies_to_roles := applies_to_roles nextRule; active := active nextRule;
     generation_attempt := attempt;
     validation_history := validation_history currentRule |}.

(** [options?.maxIterationsPerRule ?? 5] of the constructor. *)
Definition constructor_maxIterationsPerRule (options : option (option nat)) : nat :=
  match options with
  | Some (Some n) => n
  | _ => 5
  end.

Module Pipeline.
Section WithServices.
Context {Ext : Type}.

(** The injected generator and validator. *)
Variable generateRules : GenerationContext -> Ext -> Outcome (list Rule) * Ext.
Variable regenerateRule : GenerationContext -> Ext -> Outcome (list Rule) * Ext.
Variable validateRule : Rule -> Ext -> Outcome ValidationResult * Ext.
(** [options?.maxIterationsPerRule ?? 5], a count of attempts. *)
Variable maxIterationsPerRule : nat.
Variable Date_new : Ext -> DateReading * Ext.
(** The injected storage. *)
Variable saveRules : string -> list Rule -> nat -> M Ext RulesData.

Local Abbreviation M := (M Ext).

(** The [while (attempt < this.maxIterationsPerRule)] loop; [fuel]
    bounds the number of iterations the embedding unrolls. *)
Fixpoint refine_loop (fuel : nat) (initialRule : Rule) (policyText firmName : string)
  (attempt : nat) (currentRule : Rule) : M ValidationLoopResult :=
  match fuel with
  | O => fun w => (OutOfFuel, w)
  | S fuel' =>
      if (attempt <? maxIterationsPerRule)%nat then
        let attempt := attempt + 1 in
        let currentRule := set_generation_attempt attempt currentRule in
        let* validationResult :=
          call (EvValidate currentRule) (validateRule currentRule) in
        let feedback :=
          if vr_passed validationResult then None
          else Some (createFeedbackForLLM validationResult) in
        let* stamp := clock Date_new in
        let historyEntry :=
          {| attempt_number := attempt;
             passed := vr_passed validationResult;
             error := consolidated_error validationResult;
             test_output := vr_test_output validationResult;
             feedback_to_llm := feedback;
             timestamp := toISOString stamp |} in
        let currentRule := push_history historyEntry currentRule in
        if vr_passed validationResult then
          ret {| validated := true; rule := currentRule; iterations := attempt |}
        else if (maxIterationsPerRule <=? attempt)%nat then
          ret {| validated := false; rule := currentRule; iterations := attempt |}
        else
          let context :=
            {| ctx_policy_text := policyText;
               ctx_firm_name := firmName;
               previous_attempt := Some
                 {| pa_code := python_code currentRule;
                    pa_error := JS.or_lit (consolidated_error validationResult)
                                          "Unknown validation error";
                    pa_test_results := JS.nullish (vr_test_output validationResult)
                                                  "No test output" |} |} in
          let* regenerated := call (EvRegenerate context) (regenerateRule context) in
          match regenerated with
          | [] =>
              ret {| validated := false; rule := currentRule; iterations := attempt |}
          | nextRule :: _ =>
              let currentRule := carry_forward nextRule initialRule currentRule attempt in
              refine_loop fuel' initialRule policyText firmName attempt currentRule
          end
      else
        ret {| validated := false; rule := currentRule; iterations := attempt |}
  end.

Definition validateAndRefineRule (initialRule : Rule) (policyText firmName : string)
  : M ValidationLoopResult :=
  let currentRule := with_empty_history initialRule in
  let attempt := 0 in
  refine_loop (S maxIterationsPerRule) initialRule policyText firmName attempt currentRule.

(** The [for (const rule of initialRules)] loop of [processPolicy]. *)
Fixpoint process_rules (initialRules : list Rule) (policyText firmName : string)
  (validatedRules : list Rule) (totalIterations : nat) : M (list Rule * nat) :=
  match initialRules with
  | [] => ret (validatedRules, totalIterations)
  | r :: rest =>
      let* result := validateAndRefineRule r policyText firmName in
      let totalIterations := totalIterations + iterations result in
      let validatedRules :=
        if validated result then validatedRules ++ [rule result] else validatedRules in
      process_rules rest policyText firmName validatedRules totalIterations
  end.

Definition processPolicy (policyText firmName : string) : M RulesData :=
  let context :=
    {| ctx_policy_text := policyText; ctx_firm_name := firmName;
       previous_attempt := None |} in
  let* initialRules := call (EvGenerate context) (generateRules context) in
  let* acc := process_rules initialRules policyText firmName [] 0 in
  saveRules firmName (fst acc) (snd acc).

(** Validator calls recorded in a log. *)
Definition validator_calls (l : list Event) : nat :=
  length (List.filter (fun ev => match ev with EvValidate _ => true | _ => false end) l).

End WithServices.
End Pipeline.

(* ===================================================================== *)
(** * RulesExecutor: applying the stored rules to one trade              *)
(* ===================================================================== *)

(** [response.rules_checked.push(name)]. *)
Definition push_checked (name : string) (r : ComplianceResult) : ComplianceResult :=
  {| allowed := allowed r; reasons := reasons r; policy_refs := policy_refs r;
     rules_checked := rules_checked r ++ [name] |}.

(** [response.allowed = false]. *)
Definition deny (r : ComplianceResult) : ComplianceResult :=
  {| allowed := false; reasons := reasons r; policy_refs := policy_refs r;
     rules_checked := rules_checked r |}.

(** [response.reasons.push(x)]. *)
Definition push_reason (x : JSValue) (r : ComplianceResult) : ComplianceResult :=
  {| allowed := allowed r; reasons := reasons r ++ [x]; policy_refs := policy_refs r;
     rules_checked := rules_checked r |}.

(** [response.policy_refs.push(ref)]. *)
Definition push_policy_ref (ref : string) (r : ComplianceResult) : ComplianceResult :=
  {| allowed := allowed r; reasons := reasons r; policy_refs := policy_refs r ++ [ref];
     rules_checked := rules_checked r |}.

Definition empty_response : ComplianceResult :=
  {| allowed := true; reasons := []; policy_refs := []; rules_checked := [] |}.

(** [roles.includes(role)] on an array of strings. *)
Definition roles_include (roles : list string) (r : string) : bool :=
  existsb (String.eqb r) roles.

(** The synthetic reason of the [catch] branch. *)
Definition failure_reason (name detail : string) : string :=
  "Rule " +:+ name +:+ " execution failed: " +:+ detail.

(** The filter of [checkCompliance]: the rule is active and its role
    list is empty or names the employee's role. *)
Definition applies (employee : Employee) (rule : Rule) : bool :=
  active rule &&
  (match applies_to_roles rule with [] => true | _ => false end
   || roles_include (applies_to_roles rule) (role employee)).

Module Executor.
Section WithRunner.
Context {Ext : Type}.

(** [runPythonCode(PYTHON_RUNNER, payload, { timeoutMs })]: the standard
    output of the child, or the rejection. *)
Variable runPythonCode : RunnerPayload -> N -> Ext -> Outcome string * Ext.
Variable JSON_parse : string -> string + JSValue.
(** The injected storage. *)
Variable loadRules : string -> M Ext (option RulesData).

Local Abbreviation M := (M Ext).

Definition executeRule (rule : Rule) (employee : Employee) (security : Security)
  (tradeDate : string) : M JSValue :=
  let payload :=
    {| rp_code := python_code rule; rp_employee := employee;
       rp_security := security; rp_date := tradeDate |} in
  let* stdout := call (EvRunPython payload 10000%N) (runPythonCode payload 10000%N) in
  match JSON_parse (JS.trim stdout) with
  | inl _ => throw "Python bridge returned invalid JSON"
  | inr JNull => throw (TypeError_null "result.allowed")
  | inr parsed =>
      match as_boolean (get_prop parsed "allowed") with
      | None => throw "Rule result missing boolean 'allowed'"
      | Some _ => ret parsed
      end
  end.

(** Body of the [for (const rule of stored.rules)] loop. *)
Definition check_rule (employee : Employee) (security : Security) (tradeDate : string)
  (response : ComplianceResult) (rule : Rule) : M ComplianceResult :=
  if negb (active rule) then ret response
  else if (0 <? length (applies_to_roles rule))%nat
          && negb (roles_include (applies_to_roles rule) (role employee))
  then ret response
  else
    let response := push_checked (rule_name rule) response in
    try_catch
      (let* execution := executeRule rule employee security tradeDate in
       if negb (js_truthy (get_prop execution "allowed")) then
         let response := deny response in
         let response :=
           if js_truthy (get_prop execution "reason")
           then match get_prop execution "reason" with
                | Some x => push_reason x response
                | None => response
                end
           else response in
         ret (push_policy_ref (policy_reference rule) response)
       else ret response)
      (fun message =>
         let response := deny response in
         let response :=
           push_reason (JStr (failure_reason (rule_name rule) message)) response in
         ret (push_policy_ref (policy_reference rule) response)).

Fixpoint check_rules (employee : Employee) (security : Security) (tradeDate : string)
  (rules : list Rule) (response : ComplianceResult) : M ComplianceResult :=
  match rules with
  | [] => ret response
  | rule :: rest =>
      let* response := check_rule employee security tradeDate response rule in
      check_rules employee security tradeDate rest response
  end.

Definition checkCompliance (firmName : string) (employee : Employee)
  (security : Security) (tradeDate : string) : M ComplianceResult :=
  let* stored := loadRules firmName in
  match stored with
  | None => ret empty_response
  | Some stored =>
      check_rules employee security tradeDate (rules stored) empty_response
  end.

(** The result of [executeRule] for each rule the loop invokes, in
    order, each taken in the world the previous invocations left. *)
Fixpoint outcomes (employee : Employee) (security : Security) (tradeDate : string)
  (rules : list Rule) (w : World Ext) : list (Rule * Res JSValue) * World Ext :=
  match rules with
  | [] => ([], w)
  | rule :: rest =>
      if applies employee rule then
        let '(o, w1) := executeRule rule employee security tradeDate w in
        let '(os, w2) := outcomes employee security tradeDate rest w1 in
        ((rule, o) :: os, w2)
      else outcomes employee security tradeDate rest w
  end.

End WithRunner.
End Executor.

(** An invoked rule denied: it returned a result whose [allowed] is false. *)
Definition denied (o : Res JSValue) : Prop :=
  exists execution, o = Ok execution /\ js_truthy (get_prop execution "allowed") = false.

(** An invoked rule raised: its execution failed with [detail]. *)
Definition raised (o : Res JSValue) (detail : string) : Prop := o = Throw detail.

(** Payloads handed to the Python child according to a log, in order. *)
Definition rules_run (l : list Event) : list RunnerPayload :=
  flat_map (fun ev => match ev with
                      | EvRunPython payload _ => [payload]
                      | _ => []
                      end) l.

(** The payload [executeRule] builds for a rule. *)
Definition payload_for (employee : Employee) (security : Security) (tradeDate : string)
  (rule : Rule) : RunnerPayload :=
  {| rp_code := python_code rule; rp_employee := employee;
     rp_security := security; rp_date := tradeDate |}.

(* ===================================================================== *)
(** * Demo data: employee lookup                                         *)
(* ===================================================================== *)

Module DemoDataService.
Section WithFile.
Context {Ext : Type}.

(** [Bun.file(DATA_PATH)] and the parse of its text. *)
Variable DATA_PATH : string.
Variable file_exists : string -> Ext -> Outcome bool * Ext.
Variable file_text : string -> Ext -> Outcome string * Ext.
Variable JSON_parse_demo : string -> string + DemoData.

Local Abbreviation M := (M Ext).

(** The body of the promise [loadDemoData] creates. *)
Definition read_demo_file : M DemoData :=
  let* present := call (EvExists DATA_PATH) (file_exists DATA_PATH) in
  if negb present then
    throw ("demo_data_simple.json not found at " +:+ DATA_PATH)
  else
    let* raw := call (EvRead DATA_PATH) (file_text DATA_PATH) in
    match JSON_parse_demo raw with
    | inl msg => throw msg
    | inr parsed =>
        run set_cachedData parsed then
        run set_loadPromise None then
        ret parsed
    end.

Definition loadDemoData : M DemoData :=
  let* cached := get_cachedData in
  match cached with
  | Some data => ret data
  | None =>
      let* pending := get_loadPromise in
      match pending with
      | Some rejection => throw rejection
      | None =>
          try_catch read_demo_file
            (fun rejection =>
               run set_loadPromise (Some rejection) then
               throw rejection)
      end
  end.

(** [(emp) => emp.id?.toUpperCase() === normalized]. *)
Definition id_matches (normalized : string) (emp : DemoEmployee) : bool :=
  match id emp with
  | Some i => String.eqb (JS.toUpperCase i) normalized
  | None => false
  end.

Definition getEmployeeById (employeeId : string) : M (option DemoEmployee) :=
  if negb (JS.truthy employeeId) then ret None
  else
    let* data := loadDemoData in
    let normalized := JS.toUpperCase (JS.trim employeeId) in
    let employee :=
      match demo_employees data with
      | Some employees => List.find (id_matches normalized) employees
      | None => None
      end in
    ret employee.

End WithFile.
End DemoDataService.

(* ===================================================================== *)
(** * The two Python harnesses around the rule callable                  *)
(* ===================================================================== *)

(** Python values as the harness scripts see them. *)
Inductive PyValue : Type :=
| PyNone
| PyBool (b : bool)
| PyNum (f : spec_float)
| PyStr (s : string)
| PyDatetime (year month day : nat)
| PyList (items : list PyValue)
| PyDict (entries : list (string * PyValue)).

(** [json.loads] of the text [JSON.stringify] wrote for a value. *)
Fixpoint json_loads (v : JSValue) : PyValue :=
  match v with
  | JNull => PyNone
  | JBool b => PyBool b
  | JNum f => PyNum f
  | JStr s => PyStr s
  | JArr items => PyList (List.map json_loads items)
  | JObj props =>
      PyDict (List.map (fun p => match p with (k, x) => (k, json_loads x) end) props)
  end.

Definition digit (c : ascii) : option nat := Ascii.is_nat c.

Definition digits2 (a b : ascii) : option nat :=
  match digit a, digit b with
  | Some x, Some y => Some (10 * x + y)
  | _, _ => None
  end.

Definition digits4 (a b c d : ascii) : option nat :=
  match digits2 a b, digits2 c d with
  | Some x, Some y => Some (100 * x + y)
  | _, _ => None
  end.

Definition is_leap (y : nat) : bool :=
  ((y mod 4 =? 0) && negb (y mod 100 =? 0) || (y mod 400 =? 0))%nat.

Definition days_in_month (y m : nat) : nat :=
  match m with
  | 2 => if is_leap y then 29 else 28
  | 4 | 6 | 9 | 11 => 30
  | _ => 31
  end.

(** [datetime.fromisoformat] on the calendar-date form [YYYY-MM-DD]:
    midnight of that day, or [None] for the [ValueError] of an invalid
    date. Strings of any other shape are left to [other]. *)
Definition fromisoformat (other : string -> option PyValue) (s : string)
  : option PyValue :=
  match s with
  | String y1 (String y2 (String y3 (String y4 (String "-"
      (String m1 (String m2 (String "-" (String d1 (String d2 EmptyString))))))))) =>
      match digits4 y1 y2 y3 y4, digits2 m1 m2, digits2 d1 d2 with
      | Some y, Some m, Some d =>
          if ((1 <=? y) && (1 <=? m) && (m <=? 12) && (1 <=? d)
              && (d <=? days_in_month y m))%nat
          then Some (PyDatetime y m d)
          else None
      | _, _, _ => other s
      end
  | _ => other s
  end.

Section Harness.
Variable other : string -> option PyValue.

(** The helper [_parse_date] of the validator's test program. *)
Definition _parse_date (value : PyValue) : PyValue :=
  match value with
  | PyStr s =>
      match fromisoformat other s with
      | Some parsed => parsed
      | None => value
      end
  | _ => value
  end.

(** [if key in security: security[key] = _parse_date(security[key])]. *)
Fixpoint parse_key (key : string) (security : list (string * PyValue))
  : list (string * PyValue) :=
  match security with
  | [] => []
  | (k, v) :: rest =>
      if String.eqb key k then (k, _parse_date v) :: rest
      else (k, v) :: parse_key key rest
  end.

Definition date_keys : list string :=
  ["earnings_date"; "next_earnings_date"; "last_earnings_date"].

(** The arguments [(employee, security, trade_date)] with which the
    validator's test program calls [rule_fn]; [None] when the program
    raises before the call. *)
Definition validator_call_args (payload : JSValue)
  : option (PyValue * PyValue * PyValue) :=
  match json_loads payload with
  | PyDict entries =>
      match assoc "employee" entries, assoc "security" entries,
            assoc "trade_date" entries with
      | Some employee, Some (PyDict security), Some trade_date =>
          let security := fold_left (fun sec key => parse_key key sec) date_keys security in
          Some (employee, PyDict security, trade_date)
      | _, _, _ => None
      end
  | _ => None
  end.

End Harness.

Definition employee_json (e : Employee) : JSValue :=
  JObj (("id", JStr (emp_id e)) :: ("role", JStr (role e)) :: emp_props e).

Definition security_json (s : Security) : JSValue :=
  JObj (("ticker", JStr (ticker s)) :: sec_props s).

(** The object [executeRule] passes as input to [runPythonCode]. *)
Definition runner_input (p : RunnerPayload) : JSValue :=
  JObj [("code", JStr (rp_code p));
        ("employee", employee_json (rp_employee p));
        ("security", security_json (rp_security p));
        ("date", JStr (rp_date p))].

(** The arguments with which [PYTHON_RUNNER] calls [rule_fn]. *)
Definition runner_call_args (payload : JSValue)
  : option (PyValue * PyValue * PyValue) :=
  match json_loads payload with
  | PyDict entries =>
      match assoc "employee" entries, assoc "security" entries,
            assoc "date" entries with
      | Some employee, Some security, Some date => Some (employee, security, date)
      | _, _, _ => None
      end
  | _ => None
  end.

(** The value bound to [key] in a Python dict. *)
Definition py_get (d : PyValue) (key : string) : option PyValue :=
  match d with
  | PyDict entries => assoc key entries
  | _ => None
  end.

(* ===================================================================== *)
(** * Vocabulary of the properties                                       *)
(* ===================================================================== *)

(** [needle] occurs somewhere in [s]. *)
Definition occurs_in (needle s : string) : Prop :=
  exists pre post, s = pre +:+ needle +:+ post.

(** The last history entry exists and has [passed = true]. *)
Definition last_passed (r : Rule) : Prop :=
  passed <$> last (validation_history r) = Some true.

(** History entries are numbered 1, 2, ... in order. *)
Definition history_numbered (r : Rule) : Prop :=
  attempt_number <$> validation_history r = seq 1 (length (validation_history r)).

Definition well_recorded (r : Rule) : Prop :=
  last_passed r
  /\ length (validation_history r) = generation_attempt r
  /\ history_numbered r.

(** Events that change files. *)
Definition disk_changes (l : list Event) : list Event :=
  List.filter (fun ev => match ev with
                         | EvWrite _ _ | EvRename _ _ => true
                         | _ => false
                         end) l.

(** What one invoked rule does to the response. *)
Definition apply_outcome (response : ComplianceResult) (ro : Rule * Res JSValue)
  : ComplianceResult :=
  let '(r, o) := ro in
  let response := push_checked (rule_name r) response in
  match o with
  | Ok execution =>
      if negb (js_truthy (get_prop execution "allowed")) then
        let response := deny response in
        let response :=
          if js_truthy (get_prop execution "reason")
          then match get_prop execution "reason" with
               | Some x => push_reason x response
               | None => response
               end
          else response in
        push_policy_ref (policy_reference r) response
      else response
  | Throw message =>
      push_policy_ref (policy_reference r)
        (push_reason (JStr (failure_reason (rule_name r) message)) (deny response))
  | OutOfFuel => response
  end.

(** Whether an outcome blocks the trade: a result with a false [allowed],
    or a failure. *)
Definition blocks (o : Res JSValue) : bool :=
  match o with
  | Ok execution => negb (js_truthy (get_prop execution "allowed"))
  | Throw _ => true
  | OutOfFuel => false
  end.

(** The reasons an outcome contributes. *)
Definition reasons_of (ro : Rule * Res JSValue) : list JSValue :=
  match snd ro with
  | Ok execution =>
      if negb (js_truthy (get_prop execution "allowed")) then
        if js_truthy (get_prop execution "reason")
        then match get_prop execution "reason" with Some x => [x] | None => [] end
        else []
      else []
  | Throw message => [JStr (failure_reason (rule_name (fst ro)) message)]
  | OutOfFuel => []
  end.

(* ===================================================================== *)
(** * A simulated environment for concrete runs                          *)
(* ===================================================================== *)

Module Sim.

(** The outside world of the simulation: a call counter and a disk that
    writes files in place and accepts [space_left] more bytes. *)
Record Env := {
  ticks : nat;
  files : gmap string string;
  space_left : nat;
}.

Definition tick (e : Env) : Env :=
  {| ticks := S (ticks e); files := files e; space_left := space_left e |}.

Definition Date_new (e : Env) : DateReading * Env :=
  ({| toISOString := "2025-11-19T10:00:00.000Z"; getFullYear := 2025; getMonth := 10 |},
   tick e).

(** A validator that accepts code defining a function and reports a
    syntax error otherwise. *)
Definition validateRule (r : Rule) (e : Env) : Outcome ValidationResult * Env :=
  if JS.includes (python_code r) "def " then
    (Resolves {| vr_passed := true; syntax_error := None; runtime_error := None;
                 test_failure := None; security_issue := None; vr_error := None;
                 vr_test_output := Some "{'allowed': False}" |}, tick e)
  else
    (Resolves {| vr_passed := false;
                 syntax_error := Some "SYNTAX_ERROR: invalid syntax";
                 runtime_error := None; test_failure := None;
                 security_issue := None; vr_error := None;
                 vr_test_output := None |}, tick e).

Definition deny_rule : Rule :=
  {| rule_id := "restricted_list"; rule_name := "Restricted list";
     description := "Blocks every trade";
     policy_reference := "Section 1";
     python_code := "def rule(employee, security, trade_date): return {'allowed': False}";
     applies_to_roles := []; active := true; generation_attempt := 1;
     validation_history := [] |}.

Definition broken_rule : Rule :=
  {| rule_id := "earnings_window"; rule_name := "Earnings window";
     description := "Blocks trades near earnings";
     policy_reference := "Section 2";
     python_code := "rule = lambda employee, security, trade_date:";
     applies_to_roles := []; active := true; generation_attempt := 1;
     validation_history := [] |}.

Definition failing_rule : Rule :=
  {| rule_id := "crashes"; rule_name := "Crashing rule";
     description := "Raises on every input";
     policy_reference := "Section 3";
     python_code := "def rule(employee, security, trade_date): raise ValueError('boom')";
     applies_to_roles := []; active := true; generation_attempt := 1;
     validation_history := [] |}.

Definition banker_rule : Rule :=
  {| rule_id := "bankers_only"; rule_name := "Deal team";
     description := "Applies to bankers";
     policy_reference := "Section 4";
     python_code := "def rule(employee, security, trade_date): return {'allowed': True}";
     applies_to_roles := ["VP - Healthcare Investment Banking"]; active := true;
     generation_attempt := 1; validation_history := [] |}.

Definition evil_rule : Rule :=
  {| rule_id := "evil"; rule_name := "Evil";
     description := "Reads the environment";
     policy_reference := "Section 5";
     python_code := "import OS; def rule(e, s, d): return {'allowed': True}";
     applies_to_roles := []; active := true; generation_attempt := 1;
     validation_history := [] |}.

Definition generateRules (ctx : GenerationContext) (e : Env)
  : Outcome (list Rule) * Env :=
  (Resolves [broken_rule; deny_rule], tick e).

Definition regenerateRule (ctx : GenerationContext) (e : Env)
  : Outcome (list Rule) * Env :=
  (Resolves [deny_rule], tick e).

Definition rulesDir : string := "rules/dynamic".

Definition mkdirSync (path : string) (e : Env) : Outcome unit * Env :=
  (Resolves tt, tick e).

Definition is_EEXIST (error : string) : bool := JS.includes error "EEXIST".

Definition path_join (a b : string) : string := a +:+ "/" +:+ b.

(** Every path of the simulated runs is a file directly in [rulesDir]. *)
Definition dirname (path : string) : string := rulesDir.

(** A write in place: the file takes the new bytes as they arrive, and
    the call rejects once the device is full. *)
Definition Bun_write (path content : string) (e : Env) : Outcome unit * Env :=
  if (String.length content <=? space_left e)%nat then
    (Resolves tt,
     {| ticks := S (ticks e); files := <[path := content]> (files e);
        space_left := space_left e - String.length content |})
  else
    (Rejects "ENOSPC: no space left on device, write",
     {| ticks := S (ticks e);
        files := <[path := JS.take (space_left e) content]> (files e);
        space_left := 0 |}).

Definition file_exists (path : string) (e : Env) : Outcome bool * Env :=
  (Resolves (match files e !! path with Some _ => true | None => false end), tick e).

Definition file_text (path : string) (e : Env) : Outcome string * Env :=
  match files e !! path with
  | Some content => (Resolves content, tick e)
  | None => (Rejects ("ENOENT: no such file or directory, open " +:+ path), tick e)
  end.

(** A stand-in rendering of a bundle. *)
Definition JSON_stringify_data (d : RulesData) : string :=
  "{ firm_name: " +:+ firm_name d +:+ ", policy_version: " +:+ policy_version d
  +:+ ", last_updated: " +:+ last_updated d
  +:+ ", total_iterations: " +:+ pretty (total_iterations d)
  +:+ ", rules: " +:+ String.concat ", " (rule_id <$> rules d) +:+ " }".

Definition JSON_parse_data (text : string) : string + RulesData :=
  inl "JSON Parse error: Unexpected identifier".

Definition quote : string := String (ascii_of_nat 34) "".

Definition deny_stdout : string := "{" +:+ quote +:+ "allowed" +:+ quote +:+ ": false}".
Definition allow_stdout : string := "{" +:+ quote +:+ "allowed" +:+ quote +:+ ": true}".

(** The child process: a rule that raises exits with code 1, a rule
    returning a false [allowed] prints it, any other prints a pass. *)
Definition runPythonCode (payload : RunnerPayload) (timeoutMs : N) (e : Env)
  : Outcome string * Env :=
  if JS.includes (rp_code payload) "raise" then
    (Rejects "Python exited with code 1: ValueError: boom", tick e)
  else if JS.includes (rp_code payload) "'allowed': False" then
    (Resolves (deny_stdout +:+ String (ascii_of_nat 10) ""), tick e)
  else
    (Resolves (allow_stdout +:+ String (ascii_of_nat 10) ""), tick e).

(** [JSON.parse] on the two documents the simulated child prints. *)
Definition JSON_parse (text : string) : string + JSValue :=
  if String.eqb text deny_stdout then inr (JObj [("allowed", JBool false)])
  else if String.eqb text allow_stdout then inr (JObj [("allowed", JBool true)])
  else inl "JSON Parse error: Unexpected identifier".

Definition DATA_PATH : string := "demo_data_simple.json".

Definition demo_data : DemoData :=
  {| demo_employees := Some
       [ {| id := Some "EMP001"; demo_props := [("role", JStr "Compliance Officer")] |};
         {| id := Some "Emp002";
            demo_props := [("role", JStr "Equity Research Analyst - Technology")] |} ];
     demo_rest := [] |}.

Definition JSON_parse_demo (text : string) : string + DemoData :=
  if String.eqb text "DEMO" then inr demo_data
  else inl "JSON Parse error: Unexpected identifier".

Definition analyst : Employee :=
  {| emp_id := "EMP002"; role := "Equity Research Analyst - Technology";
     emp_props := [("tier", JNum (num 2))] |}.

Definition apple : Security :=
  {| ticker := "AAPL"; sec_props := [("requested_action", JStr "buy")] |}.

Definition disk (space : nat) (fs : gmap string string) : Env :=
  {| ticks := 0; files := fs; space_left := space |}.

(** A fresh process on an empty, roomy disk. *)
Definition w0 : World Env :=
  {| ext := disk 4096 ∅; log := []; cache := ∅; cachedData := None; loadPromise := None |}.

(** A process whose storage has the bundle of firm Meridian cached. *)
Definition bundle (rs : list Rule) : RulesData :=
  {| firm_name := "Meridian"; policy_version := "2025-11";
     last_updated := "2025-11-19T10:00:00.000Z"; generated_by_llm := true;
     total_iterations := 1; rules := rs |}.

Definition w_cached (rs : list Rule) : World Env :=
  {| ext := disk 4096 ∅; log := []; cache := {["Meridian" := bundle rs]};
     cachedData := None; loadPromise := None |}.

(** A process on a disk that holds an earlier document of firm Acme and
    has room for eight more bytes. *)
Definition w_full : World Env :=
  {| ext := disk 8 {["rules/dynamic/acme_rules.json" := "{ firm_name: Acme, rules:  }"]};
     log := []; cache := ∅; cachedData := None; loadPromise := None |}.

(** A process whose disk holds the demo data file. *)
Definition w_demo : World Env :=
  {| ext := disk 4096 {[DATA_PATH := "DEMO"]}; log := []; cache := ∅;
     cachedData := None; loadPromise := None |}.

Definition saveRules := Storage.saveRules mkdirSync is_EEXIST path_join dirname Bun_write
                          JSON_stringify_data Date_new rulesDir.

Definition loadRules := Storage.loadRules path_join file_exists file_text
                          JSON_parse_data rulesDir.

Definition processPolicy :=
  Pipeline.processPolicy generateRules regenerateRule validateRule 5 Date_new saveRules.

Definition checkCompliance := Executor.checkCompliance runPythonCode JSON_parse loadRules.

Definition getEmployeeById :=
  DemoDataService.getEmployeeById DATA_PATH file_exists file_text JSON_parse_demo.

Definition loadDemoData :=
  DemoDataService.loadDemoData DATA_PATH file_exists file_text JSON_parse_demo.

(** A sandbox service whose sandboxes run the two validator programs on
    well-formed code. *)
Definition client_create (e : Env) : Outcome Sandbox * Env :=
  (Resolves {| sandbox_id := Some "sandbox-1" |}, tick e).

Definition client_delete (sb : Sandbox) (e : Env) : Outcome unit * Env :=
  (Resolves tt, tick e).

Definition syntaxScript (code : string) : string := "syntax-check " +:+ code.

Definition testsScript (payload : JSValue) : string := "functional-run".

Definition newline : string := String (ascii_of_nat 10) "".

Definition codeRun (sb : Sandbox) (script : string) (timeout : nat) (e : Env)
  : Outcome ExecResult * Env :=
  if JS.startsWith script "syntax-check " then
    (Resolves {| exitCode := 0; artifacts_stdout := Some ("SYNTAX_VALID" +:+ newline);
                 result := None |}, tick e)
  else
    (Resolves {| exitCode := 0;
                 artifacts_stdout :=
                   Some ("__RULE_OUTPUT__" +:+ newline +:+ deny_stdout +:+ newline
                         +:+ "__RULE_OUTPUT_END__" +:+ newline);
                 result := None |}, tick e).

Definition JSON_stringify (v : JSValue) : string :=
  match as_boolean (get_prop v "allowed") with
  | Some false => deny_stdout
  | _ => allow_stdout
  end.

Definition daytona_validateRule :=
  Validator.validateRule client_create client_delete codeRun false
    syntaxScript testsScript JSON_parse JSON_stringify Date_new.

End Sim.

(* ===================================================================== *)
(** * Further vocabulary                                                 *)
(* ===================================================================== *)

(** Number of log entries of a kind. *)
Definition count_ev (p : Event -> bool) (l : list Event) : nat := length (List.filter p l).
Definition is_create (ev : Event) : bool := match ev with EvSandboxCreate => true | _ => false end.
Definition is_delete (ev : Event) : bool := match ev with EvSandboxDelete => true | _ => false end.
Definition present_fields (l : list (option string)) : nat :=
  length (List.filter (fun o => match o with Some _ => true | None => false end) l).
Definition error_fields (v : ValidationResult) : list (option string) :=
  [syntax_error v; runtime_error v; test_failure v; security_issue v; vr_error v].

(** A result of exactly one kind: passed with its test output and no
    error field, or failed with exactly one error field and no output. *)
Definition one_kind (v : ValidationResult) : Prop :=
  if vr_passed v
  then present_fields (error_fields v) = 0 /\ vr_test_output v <> None
  else present_fields (error_fields v) = 1 /\ vr_test_output v = None.


(** A history entry of a failed attempt: not passed, with non-empty
    feedback for the generator. *)
Definition failed_entry (e : ValidationAttempt) : Prop :=
  passed e = false /\ exists f, feedback_to_llm e = Some f /\ f <> "".

(** A history entry of the accepted attempt: passed, without feedback. *)
Definition passed_entry (e : ValidationAttempt) : Prop :=
  passed e = true /\ feedback_to_llm e = None.

Definition is_validate (ev : Event) : bool :=
  match ev with EvValidate _ => true | _ => false end.

(** Every character of a string satisfies a test. *)
Fixpoint all_chars (p : ascii -> bool) (s : string) : bool :=
  match s with
  | EmptyString => true
  | String c s' => p c && all_chars p s'
  end.

(** The string does not start with white space. *)
Definition no_leading_space (s : string) : bool :=
  match s with
  | EmptyString => true
  | String c _ => negb (JS.is_space c)
  end.

(** Strings of ASCII characters. On these the string built-ins of module
    [JS] are the JavaScript ones: outside the ASCII range JavaScript maps
    the case of further letters and trims further white space. *)
Definition ascii_char (c : ascii) : bool := (nat_of_ascii c <? 128)%nat.
Definition ascii_only (s : string) : bool := all_chars ascii_char s.

(** A request field that, if present, is an ASCII string. *)
Definition ascii_field (field : option string) : bool :=
  match field with
  | Some s => ascii_only s
  | None => true
  end.

(** Every employee id of the demo data is an ASCII string. *)
Definition ascii_ids (data : DemoData) : Prop :=
  match demo_employees data with
  | Some employees =>
      Forall (fun emp => match id emp with
                         | Some i => ascii_only i = true
                         | None => True
                         end) employees
  | None => True
  end.


(** A request field that is missing or holds white space only, and the
    trimmed text of a field. *)
Definition blank (field : option string) : bool :=
  negb (JS.truthy_opt (JS.trim <$> field)).
Definition trimmed (field : option string) : string :=
  JS.nullish (JS.trim <$> field) "".

(* ===================================================================== *)
(** * DemoDataService, the remaining exports                             *)
(* ===================================================================== *)

(** What [getFirmRestrictions] returns. *)
Record FirmRestrictions := {
  firm_restricted_list : JSValue;
  quick_reference : option JSValue;
}.

Module DemoDataCache.
Section WithFile.
Context {Ext : Type}.

Variable DATA_PATH : string.
Variable file_exists : string -> Ext -> Outcome bool * Ext.
Variable file_text : string -> Ext -> Outcome string * Ext.
Variable JSON_parse_demo : string -> string + DemoData.

Local Abbreviation M := (M Ext).
Local Abbreviation loadDemoData :=
  (DemoDataService.loadDemoData DATA_PATH file_exists file_text JSON_parse_demo).

Definition getDemoData : M DemoData := loadDemoData.

(** [data.firm_restricted_list ?? []] and [data.quick_reference]. *)
Definition getFirmRestrictions : M FirmRestrictions :=
  let* data := loadDemoData in
  ret {| firm_restricted_list :=
           match assoc "firm_restricted_list" (demo_rest data) with
           | None | Some JNull => JArr []
           | Some list => list
           end;
         quick_reference := assoc "quick_reference" (demo_rest data) |}.

Definition clearDemoDataCache : M unit :=
  fun w =>
    (Ok tt, {| ext := ext w; log := log w; cache := cache w;
               cachedData := None; loadPromise := None |}).

End WithFile.
End DemoDataCache.

(* ===================================================================== *)
(** * utils/python-bridge.ts                                             *)
(* ===================================================================== *)

(** An [Error] object: its message and the [code] property node sets on
    system errors. *)
Record JsError := {
  err_code : option string;
  err_message : string;
}.

Definition new_Error (message : string) : JsError :=
  {| err_code := None; err_message := message |}.

(** A promise as its holder finds it. *)
Inductive Promise (A : Type) : Type :=
| Pending
| Fulfilled (value : A)
| Rejected (error : JsError).
Arguments Pending {A}.
Arguments Fulfilled {A} value.
Arguments Rejected {A} error.

(** What reaches the handlers [executeWithPythonBin] installs, in the
    order it happens: output chunks, the [error] and [close] events of
    the child, and the timer. A [spawn] that throws at once rejects the
    promise like an [error] event that comes first. *)
Inductive ChildEvent : Type :=
| StdoutData (chunk : string)
| StderrData (chunk : string)
| ErrorEvent (error : JsError)
| CloseEvent (code : option Z)
| TimerFires.

Module PythonBridge.

(** The variables of one [executeWithPythonBin] call. [timeoutHandle]
    tells whether a timer is set and has neither fired nor been
    cleared. *)
Record Child := {
  stdout : string;
  stderr : string;
  timeoutHandle : bool;
  promise : Promise string;
}.

(** A promise settles once: [resolve] and [reject] on a settled promise
    do nothing. *)
Definition resolve (value : string) (c : Child) : Child :=
  match promise c with
  | Pending =>
      {| stdout := stdout c; stderr := stderr c; timeoutHandle := timeoutHandle c;
         promise := Fulfilled value |}
  | _ => c
  end.

Definition reject (error : JsError) (c : Child) : Child :=
  match promise c with
  | Pending =>
      {| stdout := stdout c; stderr := stderr c; timeoutHandle := timeoutHandle c;
         promise := Rejected error |}
  | _ => c
  end.

Definition clearTimeout (c : Child) : Child :=
  {| stdout := stdout c; stderr := stderr c; timeoutHandle := false;
     promise := promise c |}.

(** [`${code}`] of the exit code, [null] when a signal ended the child. *)
Definition show_code (code : option Z) : string :=
  match code with
  | Some z => pretty z
  | None => "null"
  end.

Definition timed_out (timeoutMs : N) : JsError :=
  new_Error ("Python process timed out after " +:+ pretty timeoutMs +:+ "ms").

Definition exited (code : option Z) (c : Child) : JsError :=
  new_Error ("Python exited with code " +:+ show_code code +:+ ": "
             +:+ (if JS.truthy (stderr c) then stderr c else stdout c)).

(** The handlers. *)
Definition on_event (timeoutMs : N) (c : Child) (ev : ChildEvent) : Child :=
  match ev with
  | StdoutData chunk =>
      {| stdout := stdout c +:+ chunk; stderr := stderr c;
         timeoutHandle := timeoutHandle c; promise := promise c |}
  | StderrData chunk =>
      {| stdout := stdout c; stderr := stderr c +:+ chunk;
         timeoutHandle := timeoutHandle c; promise := promise c |}
  | ErrorEvent error => reject error (clearTimeout c)
  | CloseEvent code =>
      let c := clearTimeout c in
      match code with
      | Some 0%Z => resolve (stdout c) c
      | _ => reject (exited code c) c
      end
  | TimerFires =>
      if timeoutHandle c
      then reject (timed_out timeoutMs) (clearTimeout c)
      else c
  end.

(** [if (options.timeoutMs)]: a timer is set for a defined, non-zero
    timeout. *)
Definition spawned (timeoutMs : option N) : Child :=
  {| stdout := ""; stderr := "";
     timeoutHandle := match timeoutMs with
                      | Some n => negb (n =? 0)%N
                      | None => false
                      end;
     promise := Pending |}.

Definition settle_child (timeoutMs : option N) (events : list ChildEvent) : Promise string :=
  promise (fold_left (on_event (default 0%N timeoutMs)) events (spawned timeoutMs)).

(** [Array.from(new Set(items))]: the first occurrences, in order. *)
Definition Set_from (items : list string) : list string :=
  fold_left
    (fun seen x => if existsb (String.eqb x) seen then seen else seen ++ [x])
    items [].

(** [codeProp === "ENOENT" || message.includes("Executable not found")]. *)
Definition isNotFound (err : JsError) : bool :=
  match err_code err with
  | Some code => String.eqb code "ENOENT"
  | None => false
  end
  || JS.includes (err_message err) "Executable not found".

Section WithSpawn.
Context {Ext Input : Type}.

(** [process.env.PYTHON_BIN]. *)
Variable PYTHON_BIN : option string.
(** [spawn(pythonBin, ["-c", code])] with the text written to its
    standard input, if any: the events of the child's life. *)
Variable spawn : string -> string -> option string -> Ext -> list ChildEvent * Ext.
Variable JSON_stringify : Input -> string.

Definition executeWithPythonBin (pythonBin code : string) (input : option Input)
  (timeoutMs : option N) (e : Ext) : Promise string * Ext :=
  let '(events, e') := spawn pythonBin code (JSON_stringify <$> input) e in
  (settle_child timeoutMs events, e').

Definition candidates : list string :=
  Set_from [default "python" PYTHON_BIN; "python3"].

Definition not_found_anywhere : JsError :=
  new_Error ("Python executable not found. Tried: "
             +:+ String.concat ", " candidates
             +:+ ". Set PYTHON_BIN in your environment.").

(** The loop over the candidates. Beside the promise it returns the
    binaries it started with what each of their promises became. *)
Fixpoint try_candidates (bins : list string) (code : string) (input : option Input)
  (timeoutMs : option N) (e : Ext)
  : Promise string * list (string * Promise string) * Ext :=
  match bins with
  | [] => (Rejected not_found_anywhere, [], e)
  | pythonBin :: rest =>
      let '(p, e1) := executeWithPythonBin pythonBin code input timeoutMs e in
      match p with
      | Rejected err =>
          if isNotFound err then
            let '(q, started, e2) := try_candidates rest code input timeoutMs e1 in
            (q, (pythonBin, p) :: started, e2)
          else (Rejected err, [(pythonBin, p)], e1)
      | _ => (p, [(pythonBin, p)], e1)
      end
  end.

Definition runPythonCode (code : string) (input : option Input)
  (timeoutMs : option N) (e : Ext)
  : Promise string * list (string * Promise string) * Ext :=
  try_candidates candidates code input timeoutMs e.

End WithSpawn.
End PythonBridge.

(** An event that only adds output. *)
Definition is_output (ev : ChildEvent) : bool :=
  match ev with
  | StdoutData _ | StderrData _ => true
  | _ => false
  end.

(** The output the chunks of a trace add up to. *)
Fixpoint stdout_chunks (events : list ChildEvent) : string :=
  match events with
  | [] => ""
  | StdoutData chunk :: rest => chunk +:+ stdout_chunks rest
  | _ :: rest => stdout_chunks rest
  end.

Fixpoint stderr_chunks (events : list ChildEvent) : string :=
  match events with
  | [] => ""
  | StderrData chunk :: rest => chunk +:+ stderr_chunks rest
  | _ :: rest => stderr_chunks rest
  end.

(** What the first settling event [ev] makes of the promise, after the
    output chunks [before]. *)
Definition settlement (timeoutMs : N) (before : list ChildEvent) (ev : ChildEvent)
  : Promise string :=
  match ev with
  | ErrorEvent error => Rejected error
  | CloseEvent (Some 0%Z) => Fulfilled (stdout_chunks before)
  | CloseEvent code =>
      Rejected (new_Error ("Python exited with code " +:+ PythonBridge.show_code code
                           +:+ ": "
                           +:+ (if JS.truthy (stderr_chunks before) then stderr_chunks before
                                else stdout_chunks before)))
  | TimerFires => Rejected (PythonBridge.timed_out timeoutMs)
  | _ => Pending
  end.

Definition is_rejection_not_found (p : Promise string) : bool :=
  match p with
  | Rejected err => PythonBridge.isNotFound err
  | _ => false
  end.

(** A simulated machine for the bridge: [python] is a wrapper script
    that fails while reporting a missing helper, [python3] runs the
    code. The state counts the children started. *)
Module BridgeSim.

Definition spawn (pythonBin code : string) (stdin : option string) (started : nat)
  : list ChildEvent * nat :=
  if String.eqb pythonBin "python" then
    ([StderrData "wrapper: Executable not found: pyenv-helper"; CloseEvent (Some 127%Z)],
     S started)
  else
    ([StdoutData "{'allowed': "; StdoutData "False}"; CloseEvent (Some 0%Z);
      StdoutData "late"],
     S started).

Definition JSON_stringify (input : string) : string := input.

End BridgeSim.

(* ===================================================================== *)
(** * The model API behind the generator and the query parser            *)
(* ===================================================================== *)

(** One block of [message.content]. *)
Record ContentBlock := {
  block_type : string;
  block_text : option string;
}.

Inductive OutputSchema : Type :=
| RULE_GENERATION_SCHEMA
| QUERY_SCHEMA.

(** The arguments of [client.beta.messages.create] that vary. *)
Record MessageRequest := {
  req_model : string;
  req_max_tokens : nat;
  req_temperature : option nat;
  req_prompt : string;
  req_schema : OutputSchema;
}.

(** [blocks.find((block) => block.type === "text")]. *)
Definition find_text_block (blocks : list ContentBlock) : option ContentBlock :=
  List.find (fun block => String.eqb (block_type block) "text") blocks.

Definition double_quote : string := String (ascii_of_nat 34) "".
Definition line_feed : string := String (ascii_of_nat 10) "".

(** A line ["key": "value"] of an indented JSON object. *)
Definition json_line (key value : string) : string :=
  "  " +:+ double_quote +:+ key +:+ double_quote +:+ ": "
  +:+ double_quote +:+ value +:+ double_quote.

(** [JSON.stringify(object, null, 2)] of an object of the given lines. *)
Definition json_object (lines : list string) : string :=
  "{" +:+ line_feed +:+ String.concat ("," +:+ line_feed) lines +:+ line_feed +:+ "}".

(** [lines.join("\n")]. *)
Definition join_lines (lines : list string) : string := String.concat line_feed lines.

(* ===================================================================== *)
(** * services/llm-generator.ts                                          *)
(* ===================================================================== *)

(** A candidate of the structured output. The schema makes its fields
    strings; whether they are present and non-empty is what the code
    checks. *)
Record StructuredRule := {
  sr_rule_id : option string;
  sr_rule_name : option string;
  sr_description : option string;
  sr_policy_reference : option string;
  sr_applies_to_roles : option (list string);
  sr_python_code : option string;
}.

(** [role && role.trim().length]. *)
Definition role_kept (role : string) : bool :=
  JS.truthy role && negb (String.length (JS.trim role) =? 0)%nat.

Definition convertStructuredRule (candidate : StructuredRule) : option Rule :=
  let baseFieldsPresent :=
    JS.truthy_opt (sr_rule_id candidate)
    && JS.truthy_opt (sr_rule_name candidate)
    && JS.truthy_opt (sr_description candidate)
    && JS.truthy_opt (sr_policy_reference candidate)
    && JS.truthy_opt (sr_python_code candidate) in
  if negb baseFieldsPresent then None
  else
    let appliesToRoles :=
      match sr_applies_to_roles candidate with
      | Some roles => List.filter role_kept roles
      | None => []
      end in
    Some {| rule_id := JS.nullish (sr_rule_id candidate) "";
            rule_name := JS.nullish (sr_rule_name candidate) "";
            description := JS.nullish (sr_description candidate) "";
            policy_reference := JS.nullish (sr_policy_reference candidate) "";
            python_code := JS.nullish (sr_python_code candidate) "";
            applies_to_roles := appliesToRoles;
            active := true;
            generation_attempt := 1;
            validation_history := [] |}.

Definition employee_schema_json : string :=
  json_object
    [ json_line "id" "string";
      json_line "role"
        "string, e.g. 'Equity Research Analyst - Technology', 'VP - Healthcare Investment Banking'";
      json_line "tier" "number (1-4, where 1 is most restricted)";
      json_line "department" "string";
      json_line "sector" "string";
      json_line "restricted_tickers" "string[] - ALWAYS block these tickers";
      json_line "can_trade" "string[] - allowed tickers for tier-based exceptions";
      json_line "coverage_stocks"
        "Array<{ticker, company, rating, price_target}> - for analysts";
      json_line "active_deals"
        "Array<{ticker, deal_type, reason}> - for bankers with live deals" ].

Definition security_example_json : string :=
  json_object
    [ json_line "ticker" "TSLA";
      json_line "earnings_date" "2025-11-20 (ISO)";
      json_line "last_earnings_date" "2025-08-15";
      json_line "next_earnings_date" "2025-11-20";
      "  " +:+ double_quote +:+ "market_cap" +:+ double_quote +:+ ": 1000000000" ].

Definition buildInitialPrompt (context : GenerationContext) : string :=
  join_lines
    [ "You are an expert compliance engineer. Convert the provided policy text into executable Python compliance rules.";
      "";
      "Employee object schema (JSON):";
      employee_schema_json;
      "";
      "Security object example:";
      security_example_json;
      "";
      "Rules must:";
      "- Always check employee.restricted_tickers first.";
      "- For analysts, block trades in coverage_stocks unless explicit pre-approval is recorded in employee data.";
      "- Respect employee tiers (tier 1 is most restricted).";
      "- Return a dict with boolean 'allowed', and optional 'reason' / 'policy_ref'.";
      "- Use only Python stdlib.";
      "";
      "Firm: " +:+ ctx_firm_name context;
      "Policy text:";
      ctx_policy_text context ].

Definition buildRegenerationPrompt (context : GenerationContext)
  (previous : PreviousAttemptContext) : string :=
  join_lines
    [ "You are refining an existing compliance rule based on validator feedback.";
      "Original policy text and firm context remain the same.";
      "Revise the rule while keeping the same intent.";
      "";
      "Employee data reminders:";
      "- employee.restricted_tickers: string[] — block immediately if ticker is here.";
      "- employee.coverage_stocks: array<{ticker,...}> — analysts must not trade these without pre-approval data in employee object.";
      "- employee.tier: number — tier 1 is most restricted.";
      "";
      "Previous attempt code:";
      "```python";
      JS.trim (pa_code previous);
      "```";
      "";
      "Validator error details:";
      pa_error previous;
      "";
      "Test results / runtime output:";
      pa_test_results previous;
      "";
      "Return ONLY structured rules that match the provided schema. Do not include commentary.";
      "";
      "Firm: " +:+ ctx_firm_name context;
      "Policy text:";
      ctx_policy_text context ].

Module LLMGenerator.
Section WithClient.
Context {Ext : Type}.

(** [this.model] and the client. *)
Variable model : string.
Variable messages_create :
  MessageRequest -> Ext -> Outcome (option (list ContentBlock)) * Ext.
(** [JSON.parse] of the text block: the syntax error, or the parsed
    value, [None] for [null], with its [rules] if it has any. *)
Variable JSON_parse_rules : string -> string + option (option (list StructuredRule)).

Definition request (prompt : string) : MessageRequest :=
  {| req_model := model; req_max_tokens := 4000; req_temperature := Some 0;
     req_prompt := prompt; req_schema := RULE_GENERATION_SCHEMA |}.

(** What follows the awaited model call in [requestStructuredRules]. *)
Definition read_rules (content : option (list ContentBlock)) : Outcome (list Rule) :=
  let blocks := default [] content in
  let text :=
    match find_text_block blocks with
    | Some textBlock => block_text textBlock
    | None => None
    end in
  match text with
  | None => Rejects "LLM did not return structured rule output."
  | Some text =>
      if negb (JS.truthy (JS.trim text))
      then Rejects "LLM did not return structured rule output."
      else
        match JSON_parse_rules text with
        | inl message => Rejects ("Failed to parse structured rule output: " +:+ message)
        | inr None => Rejects (TypeError_null "parsed.rules")
        | inr (Some rules) =>
            let structuredRules := default [] rules in
            Resolves (omap convertStructuredRule structuredRules)
        end
  end.

Definition requestStructuredRules (prompt : string) (e : Ext)
  : Outcome (list Rule) * Ext :=
  match messages_create (request prompt) e with
  | (Resolves content, e') => (read_rules content, e')
  | (Rejects message, e') => (Rejects message, e')
  end.

Definition generateRules (context : GenerationContext) : Ext -> Outcome (list Rule) * Ext :=
  requestStructuredRules (buildInitialPrompt context).

Definition regenerateRule (context : GenerationContext) (e : Ext)
  : Outcome (list Rule) * Ext :=
  match previous_attempt context with
  | None => (Rejects "previous_attempt is required when regenerating a rule", e)
  | Some previous => requestStructuredRules (buildRegenerationPrompt context previous) e
  end.

End WithClient.
End LLMGenerator.

(** A draft as the generator hands it to the pipeline. *)
Definition fresh_draft (r : Rule) : Prop :=
  rule_id r <> "" /\ rule_name r <> "" /\ description r <> ""
  /\ policy_reference r <> "" /\ python_code r <> ""
  /\ active r = true /\ generation_attempt r = 1 /\ validation_history r = []
  /\ Forall (fun role => JS.trim role <> "") (applies_to_roles r).

(* ===================================================================== *)
(** * services/query-parser.ts                                           *)
(* ===================================================================== *)

Record ParsedComplianceQuery := {
  pq_ticker : string;
  pq_trade_date : option string;
  pq_action : option string;
}.

(** The parsed output before it is checked. *)
Record RawQuery := {
  raw_ticker : option string;
  raw_trade_date : option string;
  raw_action : option string;
}.

Record QueryContext := {
  qc_firmName : option string;
  qc_employeeId : option string;
}.

(** The message of the [TypeError] raised by reading a property of
    [undefined]. *)
Definition TypeError_undefined (expr : string) : string :=
  "undefined is not an object (evaluating '" +:+ expr +:+ "')".

Definition query_prompt (query : string) (context : option QueryContext) : string :=
  join_lines
    [ "You are a compliance assistant that extracts structured details from employee trading questions.";
      "Return JSON that matches the provided schema.";
      "Rules:";
      "- Always output an uppercase ticker symbol.";
      "- If you cannot determine the ticker, set ticker to " +:+ double_quote
        +:+ "UNKNOWN" +:+ double_quote +:+ ".";
      "- trade_date should be ISO 8601 (YYYY-MM-DD) if the user mentions a specific date.";
      "- action is optional and should be one of buy, sell, or trade when implied.";
      "";
      match context ≫= qc_firmName with
      | Some firmName =>
          if JS.truthy firmName then "Firm: " +:+ firmName else "Firm: (not specified)"
      | None => "Firm: (not specified)"
      end;
      match context ≫= qc_employeeId with
      | Some employeeId =>
          if JS.truthy employeeId then "Employee ID: " +:+ employeeId
          else "Employee ID: (not specified)"
      | None => "Employee ID: (not specified)"
      end;
      "";
      "User query:";
      JS.trim query ].

Module QueryParser.
Section WithClient.
Context {Ext : Type}.

Variable model : string.
Variable messages_create :
  MessageRequest -> Ext -> Outcome (option (list ContentBlock)) * Ext.
Variable JSON_parse_query : string -> string + option RawQuery.

Definition request (prompt : string) : MessageRequest :=
  {| req_model := model; req_max_tokens := 512; req_temperature := None;
     req_prompt := prompt; req_schema := QUERY_SCHEMA |}.

(** What follows the awaited model call in [parseQuery]. *)
Definition read_query (content : option (list ContentBlock))
  : Outcome ParsedComplianceQuery :=
  match content with
  | None => Rejects (TypeError_undefined "response.content.find")
  | Some blocks =>
      let text :=
        match find_text_block blocks with
        | Some outputBlock => block_text outputBlock
        | None => None
        end in
      if negb (JS.truthy_opt text)
      then Rejects "Query parser did not return structured output."
      else
        match JSON_parse_query (JS.nullish text "") with
        | inl message => Rejects ("Failed to parse structured output: " +:+ message)
        | inr None => Rejects (TypeError_null "parsed.ticker")
        | inr (Some parsed) =>
            let ticker := (fun t => JS.trim (JS.toUpperCase t)) <$> raw_ticker parsed in
            if negb (JS.truthy_opt ticker) || String.eqb (JS.nullish ticker "") "UNKNOWN"
            then Rejects "Could not determine the ticker from the query."
            else Resolves {| pq_ticker := JS.nullish ticker "";
                             pq_trade_date := raw_trade_date parsed;
                             pq_action := raw_action parsed |}
        end
  end.

(** [query] is [None] when the caller passes [undefined]. *)
Definition parseQuery (query : option string) (context : option QueryContext) (e : Ext)
  : Outcome ParsedComplianceQuery * Ext :=
  match query with
  | None => (Rejects "Query text is required.", e)
  | Some query =>
      if negb (JS.truthy (JS.trim query)) then (Rejects "Query text is required.", e)
      else
        match messages_create (request (query_prompt query context)) e with
        | (Resolves content, e') => (read_query content, e')
        | (Rejects message, e') => (Rejects message, e')
        end
  end.

End WithClient.
End QueryParser.

(** What the pipeline may ask of the generator inside the refinement
    loop: a regeneration for the policy and firm at hand, with a
    previous attempt whose error text is not empty. *)
Definition regeneration_request (policyText firmName : string) (ev : Event) : Prop :=
  match ev with
  | EvRegenerate ctx =>
      ctx_policy_text ctx = policyText
      /\ ctx_firm_name ctx = firmName
      /\ exists previous,
           previous_attempt ctx = Some previous /\ pa_error previous <> ""
  | EvGenerate _ => False
  | _ => True
  end.

(* ===================================================================== *)
(** * The HTTP handlers                                                  *)
(* ===================================================================== *)

(** A response of [Response.json(body, { status })]; the status is 200
    when none is given. *)
Record Response (Body : Type) := {
  status : nat;
  body : Body;
}.
Arguments status {Body} _.
Arguments body {Body} _.

(** An awaited promise that is no call to one of the logged services. *)
Definition await {Ext A : Type} (f : Ext -> Outcome A * Ext) : M Ext A :=
  fun w =>
    let '(r, e') := f (ext w) in
    (settle r, {| ext := e'; log := log w; cache := cache w;
                  cachedData := cachedData w; loadPromise := loadPromise w |}).

(** [try { return Ok(await m) } catch (error) { return Err(message) }]. *)
Definition attempt {Ext A : Type} (m : M Ext A) : M Ext (string + A) :=
  try_catch (let* a := m in ret (inr a)) (fun message => ret (inl message)).

(** ** api/policy-ingest.ts *)

(** The request body as far as the handler reads it; the fields are
    strings when present. *)
Record PolicyIngestRequest := {
  pi_firm_name : option string;
  pi_policy_text : option string;
}.

Record RuleSummary := {
  sum_rule_name : string;
  sum_description : string;
  sum_attempts : nat;
  sum_validated : bool;
}.

Inductive IngestBody : Type :=
| IngestError (message : string) (details : option string)
| IngestSuccess (firm_name : string) (rules_deployed total_iterations : nat)
    (rules : list RuleSummary).

(** [rule.validation_history.at(-1)?.passed ?? false] and the rest of
    the summary of one rule. *)
Definition summarize (rule : Rule) : RuleSummary :=
  {| sum_rule_name := rule_name rule;
     sum_description := description rule;
     sum_attempts := generation_attempt rule;
     sum_validated := default false (passed <$> last (validation_history rule)) |}.

Module PolicyIngest.
Section WithPipeline.
Context {Ext : Type}.

(** [pipeline.processPolicy]. *)
Variable processPolicy : string -> string -> M Ext RulesData.

(** [request_json] is what [await request.json()] gives: the parsed
    body, [None] for [null], or the rejection. *)
Definition POST (request_json : Ext -> Outcome (option PolicyIngestRequest) * Ext)
  : M Ext (Response IngestBody) :=
  try_catch
    (let* parsed := await request_json in
     match parsed with
     | None => throw (TypeError_null "body.firm_name")
     | Some body =>
         let firmName := JS.trim <$> pi_firm_name body in
         let policyText := JS.trim <$> pi_policy_text body in
         if negb (JS.truthy_opt firmName) || negb (JS.truthy_opt policyText) then
           ret {| status := 400;
                  body := IngestError "firm_name and policy_text are required." None |}
         else
           let firmName := JS.nullish firmName "" in
           let policyText := JS.nullish policyText "" in
           let* rulesData := processPolicy policyText firmName in
           ret {| status := 200;
                  body := IngestSuccess firmName (length (rules rulesData))
                            (total_iterations rulesData)
                            (summarize <$> rules rulesData) |}
     end)
    (fun message =>
       ret {| status := 500;
              body := IngestError "Failed to ingest policy." (Some message) |}).

End WithPipeline.
End PolicyIngest.

(** ** api/compliance-check.ts *)

Record ComplianceCheckRequest := {
  cc_firm_name : option string;
  cc_employee_id : option string;
  cc_query : option string;
  cc_trade_date : option string;
}.

Inductive CheckBody : Type :=
| CheckError (code message : string) (details : option string)
| CheckSuccess (firm_name employee_id ticker : string) (action : option string)
    (trade_date : string) (compliance : ComplianceResult).

(** The answer of the outer [catch] of the compliance endpoint. *)
Definition unexpected_error (message : string) : Response CheckBody :=
  {| status := 500;
     body := CheckError "UNEXPECTED_ERROR" "Failed to perform compliance check."
               (Some message) |}.

(** [{ ...object, key: value }] on the properties of an object: the
    value replaces an earlier one in place, or the property is added at
    the end. *)
Fixpoint set_prop (key : string) (value : JSValue) (props : list (string * JSValue))
  : list (string * JSValue) :=
  match props with
  | [] => [(key, value)]
  | (k, v) :: rest =>
      if String.eqb k key then (key, value) :: rest
      else (k, v) :: set_prop key value rest
  end.

Definition drop_prop (key : string) (props : list (string * JSValue))
  : list (string * JSValue) :=
  List.filter (fun kv => negb (String.eqb (fst kv) key)) props.

(** A property set to [undefined] is as good as absent. *)
Definition put_prop (key : string) (value : option JSValue)
  (props : list (string * JSValue)) : list (string * JSValue) :=
  match value with
  | Some v => set_prop key v props
  | None => drop_prop key props
  end.

(** [typeof record.key === "string" ? record.key : undefined]. *)
Definition string_prop (key : string) (props : list (string * JSValue)) : option string :=
  match assoc key props with
  | Some (JStr s) => Some s
  | _ => None
  end.

(** [Array.isArray(record.key) ? record.key : undefined]. *)
Definition array_prop (key : string) (props : list (string * JSValue)) : option JSValue :=
  match assoc key props with
  | Some (JArr items) => Some (JArr items)
  | _ => None
  end.

(** The [employee] the handler evaluates. The record was found by its
    [id], so that is present. *)
Definition employee_of (employeeRecord : DemoEmployee) (firmName : string)
  (restrictions : FirmRestrictions) : Employee :=
  let props := demo_props employeeRecord in
  let division :=
    match string_prop "division" props with
    | Some division => division
    | None =>
        match string_prop "department" props with
        | Some department => department
        | None => "General"
        end
    end in
  {| emp_id := JS.nullish (id employeeRecord) "";
     role := JS.nullish (string_prop "role" props) "Employee";
     emp_props :=
       put_prop "quick_reference" (quick_reference restrictions)
         (put_prop "firm_restrictions" (Some (firm_restricted_list restrictions))
            (put_prop "covered_tickers" (array_prop "restricted_tickers" props)
               (put_prop "firm" (Some (JStr firmName))
                  (put_prop "division" (Some (JStr division))
                     (drop_prop "role" props))))) |}.

Definition parsed_query_object (parsedQuery : ParsedComplianceQuery) : JSValue :=
  JObj (put_prop "action" (JStr <$> pq_action parsedQuery)
          (put_prop "trade_date" (JStr <$> pq_trade_date parsedQuery)
             [("ticker", JStr (pq_ticker parsedQuery))])).

Definition security_of (parsedQuery : ParsedComplianceQuery) : Security :=
  {| ticker := pq_ticker parsedQuery;
     sec_props :=
       put_prop "parsed_query" (Some (parsed_query_object parsedQuery))
         (put_prop "requested_action" (JStr <$> pq_action parsedQuery) []) |}.

Module ComplianceCheck.
Section WithServices.
Context {Ext : Type}.

(** [parser.parseQuery], the demo data service and [executor.checkCompliance]. *)
Variable parseQuery :
  option string -> option QueryContext -> Ext -> Outcome ParsedComplianceQuery * Ext.
Variable getEmployeeById : string -> M Ext (option DemoEmployee).
Variable getFirmRestrictions : M Ext FirmRestrictions.
Variable checkCompliance :
  string -> Employee -> Security -> string -> M Ext ComplianceResult.
Variable Date_new : Ext -> DateReading * Ext.

(** [body.trade_date ?? parsedQuery.trade_date ??
     new Date().toISOString().slice(0, 10)]. *)
Definition trade_date_of (body : ComplianceCheckRequest)
  (parsedQuery : ParsedComplianceQuery) : M Ext string :=
  match cc_trade_date body with
  | Some date => ret date
  | None =>
      match pq_trade_date parsedQuery with
      | Some date => ret date
      | None =>
          let* now := clock Date_new in
          ret (JS.take 10 (toISOString now))
      end
  end.

Definition POST (request_json : Ext -> Outcome (option ComplianceCheckRequest) * Ext)
  : M Ext (Response CheckBody) :=
  try_catch
    (let* parsed := await request_json in
     match parsed with
     | None => throw (TypeError_null "body.firm_name")
     | Some body =>
         let firmName := JS.trim <$> cc_firm_name body in
         let employeeId := JS.trim <$> cc_employee_id body in
         let query := JS.trim <$> cc_query body in
         if negb (JS.truthy_opt firmName) || negb (JS.truthy_opt employeeId)
            || negb (JS.truthy_opt query) then
           ret {| status := 400;
                  body := CheckError "INVALID_REQUEST"
                            "firm_name, employee_id, and query are required." None |}
         else
           let firmName := JS.nullish firmName "" in
           let employeeId := JS.nullish employeeId "" in
           let* parsedQuery :=
             attempt (await (parseQuery query
                               (Some {| qc_firmName := Some firmName;
                                        qc_employeeId := Some employeeId |}))) in
           match parsedQuery with
           | inl message =>
               ret {| status := 400;
                      body := CheckError "PARSE_ERROR"
                                "Unable to interpret the natural language query."
                                (Some message) |}
           | inr parsedQuery =>
               let* employeeRecord := getEmployeeById employeeId in
               match employeeRecord with
               | None =>
                   ret {| status := 404;
                          body := CheckError "EMPLOYEE_NOT_FOUND"
                                    ("Employee " +:+ employeeId
                                     +:+ " was not found in demo_data_simple.json.")
                                    None |}
               | Some employeeRecord =>
                   let* restrictions := getFirmRestrictions in
                   let employee := employee_of employeeRecord firmName restrictions in
                   let security := security_of parsedQuery in
                   let* tradeDate := trade_date_of body parsedQuery in
                   let* result := checkCompliance firmName employee security tradeDate in
                   ret {| status := 200;
                          body := CheckSuccess firmName employeeId (pq_ticker parsedQuery)
                                    (pq_action parsedQuery) tradeDate result |}
               end
           end
     end)
    (fun message =>
       ret {| status := 500;
              body := CheckError "UNEXPECTED_ERROR" "Failed to perform compliance check."
                        (Some message) |}).

End WithServices.
End ComplianceCheck.

(* ===================================================================== *)
(** * utils/cors.ts                                                     *)
(* ===================================================================== *)

(** What an origin function may return. *)
Inductive OriginAnswer : Type :=
| AnswerString (origin : string)
| AnswerNull
| AnswerBoolean (b : bool).

(** [CorsOptions.origin]. *)
Inductive OriginConfig : Type :=
| OriginString (origin : string)
| OriginList (origins : list string)
| OriginFunction (decide : option string -> OriginAnswer).

Record CorsOptions := {
  cors_origin : option OriginConfig;
  cors_methods : option (list string);
  cors_allowedHeaders : option (list string);
  cors_exposedHeaders : option (list string);
  cors_credentials : option bool;
  cors_maxAge : option N;
}.

(** A request as the CORS helpers read it: its method and its [origin]
    header. *)
Record CorsRequest := {
  req_method : string;
  req_origin : option string;
}.

Definition default_methods : list string :=
  ["GET"; "POST"; "PUT"; "DELETE"; "OPTIONS"; "PATCH"].
Definition default_allowedHeaders : list string := ["Content-Type"; "Authorization"].
Definition default_maxAge : N := 86400.

Definition resolveOrigin (requestOrigin : option string) (config : CorsOptions)
  : option string :=
  match default (OriginString "*") (cors_origin config) with
  | OriginString originConfig => Some originConfig
  | OriginFunction decide =>
      match decide requestOrigin with
      | AnswerBoolean true =>
          Some (match requestOrigin with
                | Some origin => if JS.truthy origin then origin else "*"
                | None => "*"
                end)
      | AnswerBoolean false => None
      | AnswerString result => Some result
      | AnswerNull => None
      end
  | OriginList originConfig =>
      match requestOrigin with
      | Some origin =>
          if JS.truthy origin && existsb (String.eqb origin) originConfig
          then Some origin else None
      | None => None
      end
  end.

(** The [headers.set(name, value)] calls of [createCorsHeaders], in
    order. *)
Definition cors_sets (request : CorsRequest) (options : CorsOptions)
  : list (string * string) :=
  let resolvedOrigin := resolveOrigin (req_origin request) options in
  (if JS.truthy_opt resolvedOrigin
   then [("Access-Control-Allow-Origin", JS.nullish resolvedOrigin "")] else [])
  ++ [("Access-Control-Allow-Methods",
       String.concat ", " (default default_methods (cors_methods options)))]
  ++ [("Access-Control-Allow-Headers",
       String.concat ", " (default default_allowedHeaders (cors_allowedHeaders options)))]
  ++ (match cors_exposedHeaders options with
      | Some exposed =>
          if (0 <? length exposed)%nat
          then [("Access-Control-Expose-Headers", String.concat ", " exposed)] else []
      | None => []
      end)
  ++ (if default false (cors_credentials options)
      then [("Access-Control-Allow-Credentials", "true")] else [])
  ++ [("Access-Control-Max-Age", pretty (default default_maxAge (cors_maxAge options)))].

Module Cors.
Section WithHeaders.
Context {Ext Headers Body : Type}.

(** The platform's [Headers]: the empty one, [set], and the pairs
    [forEach] visits. *)
Variable new_Headers : Headers.
Variable headers_set : string -> string -> Headers -> Headers.
Variable headers_forEach : Headers -> list (string * string).

Record HttpResponse := {
  resp_status : nat;
  resp_headers : Headers;
  resp_body : option Body;
}.

Definition set_all (sets : list (string * string)) (headers : Headers) : Headers :=
  fold_left (fun h kv => headers_set (fst kv) (snd kv) h) sets headers.

Definition createCorsHeaders (request : CorsRequest) (options : CorsOptions) : Headers :=
  set_all (cors_sets request options) new_Headers.

Definition handleCorsPreflight (request : CorsRequest) (options : CorsOptions)
  : option HttpResponse :=
  if negb (String.eqb (req_method request) "OPTIONS") then None
  else Some {| resp_status := 204;
               resp_headers := createCorsHeaders request options;
               resp_body := None |}.

Definition addCorsHeaders (response : HttpResponse) (request : CorsRequest)
  (options : CorsOptions) : HttpResponse :=
  let corsHeaders := createCorsHeaders request options in
  {| resp_status := resp_status response;
     resp_headers := set_all (headers_forEach corsHeaders) (resp_headers response);
     resp_body := resp_body response |}.

Definition withCors (handler : CorsRequest -> Ext -> Outcome HttpResponse * Ext)
  (options : CorsOptions) (request : CorsRequest) (e : Ext)
  : Outcome HttpResponse * Ext :=
  match handleCorsPreflight request options with
  | Some preflightResponse => (Resolves preflightResponse, e)
  | None =>
      match handler request e with
      | (Resolves response, e') => (Resolves (addCorsHeaders response request options), e')
      | (Rejects message, e') => (Rejects message, e')
      end
  end.

End WithHeaders.
End Cors.

(* ===================================================================== *)
(** * view-rules.ts: which files are shown                               *)
(* ===================================================================== *)





(* ===================================================================== *)
(** * Further simulated worlds                                           *)
(* ===================================================================== *)

(** Demo data in which one employee has the empty id. *)
Module BlankIdSim.

Definition contractor : DemoEmployee :=
  {| id := Some ""; demo_props := [("role", JStr "Contractor")] |}.

Definition demo_data : DemoData :=
  {| demo_employees := Some [contractor]; demo_rest := [] |}.

Definition JSON_parse_demo (text : string) : string + DemoData :=
  if String.eqb text "BLANK" then inr demo_data
  else inl "JSON Parse error: Unexpected identifier".

Definition w_blank : World Sim.Env :=
  {| ext := Sim.disk 4096 {[Sim.DATA_PATH := "BLANK"]}; log := []; cache := ∅;
     cachedData := None; loadPromise := None |}.

Definition getEmployeeById :=
  DemoDataService.getEmployeeById Sim.DATA_PATH Sim.file_exists Sim.file_text
    JSON_parse_demo.

End BlankIdSim.

(** A storage whose parser reads back the two documents the simulated
    runs write for firm Acme. *)
Module StoreSim.

Definition first_bundle : RulesData :=
  {| firm_name := "Acme"; policy_version := "2025-11";
     last_updated := "2025-11-19T10:00:00.000Z"; generated_by_llm := true;
     total_iterations := 1; rules := [Sim.deny_rule] |}.

Definition second_bundle : RulesData :=
  {| firm_name := "Acme"; policy_version := "2025-11";
     last_updated := "2025-11-19T10:00:00.000Z"; generated_by_llm := true;
     total_iterations := 2; rules := [Sim.banker_rule] |}.

Definition JSON_parse_data (text : string) : string + RulesData :=
  if String.eqb text (Sim.JSON_stringify_data first_bundle) then inr first_bundle
  else if String.eqb text (Sim.JSON_stringify_data second_bundle) then inr second_bundle
  else inl "JSON Parse error: Unexpected identifier".

Definition loadRules :=
  Storage.loadRules Sim.path_join Sim.file_exists Sim.file_text JSON_parse_data
    Sim.rulesDir.

End StoreSim.

(* ===================================================================== *)
(** * Simulated model API and requests                                   *)
(* ===================================================================== *)

Module ApiSim.

(** A model that answers every rule request with the document [RULES]
    and every query with the document [QUERY]. *)
Definition messages_create (request : MessageRequest) (e : Sim.Env)
  : Outcome (option (list ContentBlock)) * Sim.Env :=
  (Resolves (Some [ {| block_type := "thinking"; block_text := None |};
                    {| block_type := "text";
                       block_text := Some (match req_schema request with
                                           | RULE_GENERATION_SCHEMA => "RULES"
                                           | QUERY_SCHEMA => "QUERY"
                                           end) |} ]),
   Sim.tick e).

(** Two candidates: a complete one with a blank role, and one without
    code. *)
Definition candidates : list StructuredRule :=
  [ {| sr_rule_id := Some "restricted_list"; sr_rule_name := Some "Restricted list";
       sr_description := Some "Blocks every trade";
       sr_policy_reference := Some "Section 1";
       sr_applies_to_roles := Some ["  "; "Compliance Officer"];
       sr_python_code :=
         Some "def rule(employee, security, trade_date): return {'allowed': False}" |};
    {| sr_rule_id := Some "earnings_window"; sr_rule_name := Some "Earnings window";
       sr_description := Some "Blocks trades near earnings";
       sr_policy_reference := Some "Section 2";
       sr_applies_to_roles := None;
       sr_python_code := Some "" |} ].

Definition JSON_parse_rules (text : string)
  : string + option (option (list StructuredRule)) :=
  if String.eqb text "RULES" then inr (Some (Some candidates))
  else inl "JSON Parse error: Unexpected identifier".

Definition JSON_parse_query (text : string) : string + option RawQuery :=
  if String.eqb text "QUERY"
  then inr (Some {| raw_ticker := Some " aapl "; raw_trade_date := None;
                    raw_action := Some "buy" |})
  else inl "JSON Parse error: Unexpected identifier".

Definition model : string := "claude-sonnet-4-5".

Definition generateRules :=
  LLMGenerator.generateRules model messages_create JSON_parse_rules.

Definition parseQuery := QueryParser.parseQuery model messages_create JSON_parse_query.

(** A request of employee [emp002] of firm Meridian with a trade date
    of its own. *)
Definition request_json (e : Sim.Env) : Outcome (option ComplianceCheckRequest) * Sim.Env :=
  (Resolves (Some {| cc_firm_name := Some " Meridian "; cc_employee_id := Some "emp002";
                     cc_query := Some "Can I buy Apple stock?";
                     cc_trade_date := Some "2025-11-21" |}),
   Sim.tick e).

(** A process with the demo data on disk and the rules of Meridian in
    the storage cache. *)
Definition w_ready : World Sim.Env :=
  {| ext := Sim.disk 4096 {[Sim.DATA_PATH := "DEMO"]}; log := [];
     cache := {["Meridian" := Sim.bundle [Sim.deny_rule; Sim.banker_rule]]};
     cachedData := None; loadPromise := None |}.

Definition POST :=
  ComplianceCheck.POST parseQuery Sim.getEmployeeById
    (DemoDataCache.getFirmRestrictions Sim.DATA_PATH Sim.file_exists Sim.file_text
       Sim.JSON_parse_demo)
    Sim.checkCompliance Sim.Date_new.

Definition allow_list : CorsOptions :=
  {| cors_origin := Some (OriginList ["https://app.example"; "https://admin.example"]);
     cors_methods := None; cors_allowedHeaders := None; cors_exposedHeaders := None;
     cors_credentials := Some true; cors_maxAge := None |}.

End ApiSim.

(* ===================================================================== *)
(** * Properties                                                         *)
(* ===================================================================== *)

(** ** Strings *)

Lemma app_cons (a : ascii) (s t : string) : String a s +:+ t = String a (s +:+ t).
Proof. reflexivity. Qed.

Lemma app_empty (s : string) : "" +:+ s = s.
Proof. reflexivity. Qed.

Lemma startsWith_iff (s needle : string) :
  JS.startsWith s needle = true <-> exists post, s = needle +:+ post.
Proof.
  revert s; induction needle as [|a n IH]; intros s; simpl.
  - split; [intros _; exists s; reflexivity | reflexivity].
  - destruct s as [|b s'].
    + split; [discriminate | intros [post H]; discriminate].
    + destruct (ascii_dec a b) as [->|Hne].
      * rewrite IH. split; intros [post H]; exists post.
        -- rewrite app_cons. now rewrite H.
        -- rewrite app_cons in H. now injection H.
      * split; [discriminate | intros [post H]; rewrite app_cons in H; congruence].
Qed.

Lemma includes_iff (s needle : string) :
  JS.includes s needle = true <-> occurs_in needle s.
Proof.
  unfold occurs_in. induction s as [|c s' IH]; simpl.
  - rewrite orb_false_r, startsWith_iff. split.
    + intros [post H]; exists "", post. exact H.
    + intros ([|p pre] & post & H); [exists post; exact H | discriminate].
  - rewrite orb_true_iff, startsWith_iff, IH. split.
    + intros [[post H] | (pre & post & H)].
      * exists "", post. exact H.
      * exists (String c pre), post. rewrite app_cons. now rewrite H.
    + intros ([|p pre] & post & H).
      * left; exists post; exact H.
      * right; exists pre, post. rewrite app_cons in H. now injection H.
Qed.

Example includes_examples :
  JS.includes "x = eval(y)" "eval(" = true /\ JS.includes "evaluate" "eval(" = false
  /\ JS.includes "" "" = true.
Proof. repeat split. Qed.

Example trim_upper_examples :
  JS.trim "  emp002 " = "emp002" /\ JS.toUpperCase "emp-002 x" = "EMP-002 X".
Proof. split; reflexivity. Qed.

Example normalizeFirmName_examples :
  normalizeFirmName "ACME Corp" = "acme_corp"
  /\ normalizeFirmName "acme   corp" = "acme_corp".
Proof. split; reflexivity. Qed.

Example extractBetween_example :
  extractBetween "log __RULE_OUTPUT__ {} __RULE_OUTPUT_END__ tail"
                 "__RULE_OUTPUT__" "__RULE_OUTPUT_END__" = Some "{}".
Proof. reflexivity. Qed.

(** ** Static screen *)

Lemma checkSecurity_loop_safe (lowerCode : string) (snippets : list string) :
  safe (checkSecurity_loop lowerCode snippets) = false <->
  exists snippet, In snippet snippets
                  /\ JS.includes lowerCode (JS.toLowerCase snippet) = true.
Proof.
  induction snippets as [|sn rest IH]; simpl.
  - split; [discriminate | intros (? & [] & _)].
  - destruct (JS.includes lowerCode (JS.toLowerCase sn)) eqn:Hinc; simpl.
    + split; [intros _; exists sn; auto | reflexivity].
    + rewrite IH. split.
      * intros (x & Hin & Hx); exists x; auto.
      * intros (x & [-> | Hin] & Hx); [congruence | exists x; auto].
Qed.

Lemma checkSecurity_loop_reason (lowerCode : string) (snippets : list string) :
  safe (checkSecurity_loop lowerCode snippets) = false ->
  exists snippet, In snippet snippets
    /\ JS.includes lowerCode (JS.toLowerCase snippet) = true
    /\ reason (checkSecurity_loop lowerCode snippets)
       = Some ("Code contains insecure pattern: " +:+ snippet).
Proof.
  induction snippets as [|sn rest IH]; simpl; [discriminate|].
  destruct (JS.includes lowerCode (JS.toLowerCase sn)) eqn:Hinc; simpl.
  - intros _. exists sn; auto.
  - intros H. destruct (IH H) as (x & Hin & Hx & Hr). exists x; auto.
Qed.

Lemma snippets_are_lowercase (snippet : string) :
  In snippet DANGEROUS_SNIPPETS -> JS.toLowerCase snippet = snippet.
Proof.
  unfold DANGEROUS_SNIPPETS. simpl.
  intros H. repeat (destruct H as [<- | H]; [reflexivity|]). destruct H.
Qed.

Lemma checkSecurity_rejects_iff (code : string) :
  safe (checkSecurity code) = false <->
  exists snippet, In snippet DANGEROUS_SNIPPETS
                  /\ occurs_in snippet (JS.toLowerCase code).
Proof.
  unfold checkSecurity. rewrite checkSecurity_loop_safe.
  split; intros (x & Hin & Hx); exists x; split; auto.
  - apply includes_iff. now rewrite <- (snippets_are_lowercase x Hin).
  - rewrite (snippets_are_lowercase x Hin). now apply includes_iff.
Qed.

Section ValidatorFacts.
Context {Ext : Type}.
Variable client_create : Ext -> Outcome Sandbox * Ext.
Variable client_delete : Sandbox -> Ext -> Outcome unit * Ext.
Variable codeRun : Sandbox -> string -> nat -> Ext -> Outcome ExecResult * Ext.
Variable preserveSandbox : bool.
Variable syntaxScript : string -> string.
Variable testsScript : JSValue -> string.
Variable JSON_parse : string -> string + JSValue.
Variable JSON_stringify : JSValue -> string.
Variable Date_new : Ext -> DateReading * Ext.

Local Abbreviation validateRule :=
  (Validator.validateRule client_create client_delete codeRun preserveSandbox
     syntaxScript testsScript JSON_parse JSON_stringify Date_new).

(** C6. The static screen rejects a code string exactly when its
    lower-cased text contains one of the denylist snippets; and when it
    rejects, [validateRule] returns the failed result whose
    [security_issue] names a denylist snippet occurring in the code,
    leaving the world as it was: no call reaches the sandbox service, so
    no sandbox is provisioned in that attempt. *)
Theorem static_screen_rejects_without_sandbox (r : Rule) (w : World Ext) :
  (safe (checkSecurity (python_code r)) = false <->
   exists snippet, In snippet DANGEROUS_SNIPPETS
                   /\ occurs_in snippet (JS.toLowerCase (python_code r)))
  /\ (safe (checkSecurity (python_code r)) = false ->
      exists snippet,
        In snippet DANGEROUS_SNIPPETS
        /\ occurs_in snippet (JS.toLowerCase (python_code r))
        /\ validateRule r w =
           (Ok {| vr_passed := false; syntax_error := None; runtime_error := None;
                  test_failure := None;
                  security_issue := Some ("Code contains insecure pattern: " +:+ snippet);
                  vr_error := None; vr_test_output := None |}, w)).
Proof.
  split; [apply checkSecurity_rejects_iff|].
  intros Hrej.
  destruct (checkSecurity_loop_reason _ _ Hrej) as (sn & Hin & Hinc & Hreason).
  exists sn. split; [exact Hin|]. split.
  - apply includes_iff. now rewrite <- (snippets_are_lowercase sn Hin).
  - unfold Validator.validateRule. rewrite Hrej. simpl.
    unfold checkSecurity. rewrite Hreason. reflexivity.
Qed.

End ValidatorFacts.

(** ** Refinement loop and ingestion *)

Lemma validator_calls_app (l1 l2 : list Event) :
  Pipeline.validator_calls (l1 ++ l2)
  = Pipeline.validator_calls l1 + Pipeline.validator_calls l2.
Proof.
  unfold Pipeline.validator_calls. now rewrite List.filter_app, length_app.
Qed.

Ltac count_calls :=
  rewrite ?validator_calls_app in *; unfold Pipeline.validator_calls in *; simpl in *.

Lemma push_history_well_recorded (cur : Rule) (entry : ValidationAttempt) (attempt : nat) :
  length (validation_history cur) = attempt ->
  history_numbered cur ->
  attempt_number entry = attempt + 1 ->
  passed entry = true ->
  well_recorded (push_history entry (set_generation_attempt (attempt + 1) cur)).
Proof.
  unfold well_recorded, last_passed, history_numbered. simpl.
  intros Hlen Hnum Hno Hpass. split; [|split].
  - now rewrite last_snoc; simpl; rewrite Hpass.
  - rewrite length_app. simpl. lia.
  - rewrite fmap_app, length_app, Hnum. simpl.
    replace (length (validation_history cur) + 1) with (S (length (validation_history cur))) by lia.
    rewrite seq_S. simpl. rewrite Hno, Hlen. do 2 f_equal. lia.
Qed.

Lemma push_history_numbered (cur : Rule) (entry : ValidationAttempt) (attempt : nat) :
  length (validation_history cur) = attempt ->
  history_numbered cur ->
  attempt_number entry = attempt + 1 ->
  history_numbered (push_history entry (set_generation_attempt (attempt + 1) cur))
  /\ length (validation_history
               (push_history entry (set_generation_attempt (attempt + 1) cur)))
     = attempt + 1.
Proof.
  unfold history_numbered. simpl. intros Hlen Hnum Hno. split.
  - rewrite fmap_app, length_app, Hnum. simpl.
    replace (length (validation_history cur) + 1) with (S (length (validation_history cur))) by lia.
    rewrite seq_S. simpl. rewrite Hno, Hlen. do 2 f_equal. lia.
  - rewrite length_app. simpl. lia.
Qed.

Section PipelineFacts.
Context {Ext : Type}.
Variable generateRules : GenerationContext -> Ext -> Outcome (list Rule) * Ext.
Variable regenerateRule : GenerationContext -> Ext -> Outcome (list Rule) * Ext.
Variable validateRule : Rule -> Ext -> Outcome ValidationResult * Ext.
Variable maxIterationsPerRule : nat.
Variable Date_new : Ext -> DateReading * Ext.

Local Abbreviation refine_loop :=
  (Pipeline.refine_loop regenerateRule validateRule maxIterationsPerRule Date_new).
Local Abbreviation validateAndRefineRule :=
  (Pipeline.validateAndRefineRule regenerateRule validateRule maxIterationsPerRule Date_new).
Local Abbreviation calls := Pipeline.validator_calls.

Lemma refine_loop_spec (fuel : nat) (initialRule : Rule) (policyText firmName : string) :
  forall (attempt : nat) (cur : Rule) (w : World Ext) out w',
    maxIterationsPerRule - attempt < fuel ->
    length (validation_history cur) = attempt ->
    history_numbered cur ->
    refine_loop fuel initialRule policyText firmName attempt cur w = (out, w') ->
    out <> OutOfFuel
    /\ calls (log w') <= calls (log w) + (maxIterationsPerRule - attempt)
    /\ cache w' = cache w
    /\ forall res, out = Ok res ->
         attempt <= iterations res
         /\ calls (log w') = calls (log w) + (iterations res - attempt)
         /\ (validated res = true ->
             well_recorded (rule res) /\ generation_attempt (rule res) = iterations res).
Proof.
  induction fuel as [|fuel IH]; intros attempt cur w out w' Hfuel Hlen Hnum Hrun; [lia|].
  simpl in Hrun.
  destruct (attempt <? maxIterationsPerRule)%nat eqn:Hlt.
  2:{ injection Hrun as <- <-. split; [discriminate|]. split; [lia|].
      split; [reflexivity|].
      intros res [= <-]; simpl. repeat split; try lia; discriminate. }
  apply Nat.ltb_lt in Hlt.
  unfold bind at 1 in Hrun. unfold call at 1 in Hrun.
  destruct (validateRule (set_generation_attempt (attempt + 1) cur) (ext w))
    as [[vr|msg] e1] eqn:Hval.
  2: simpl in Hrun; injection Hrun as <- <-; simpl; count_calls;
       (split; [discriminate|]); (split; [lia|]); (split; [reflexivity|]);
       intros res; discriminate.
  unfold bind at 1 in Hrun. unfold clock at 1 in Hrun. simpl in Hrun.
  destruct (Date_new e1) as [stamp e2] eqn:Hclock.
  match type of Hrun with
  | context [push_history ?e _] => set (entry := e) in Hrun
  end.
  destruct (vr_passed vr) eqn:Hpass.
  { injection Hrun as <- <-. simpl. count_calls.
    split; [discriminate|]. split; [lia|]. split; [reflexivity|].
    intros res [= <-]. simpl. split; [lia|]. split; [lia|].
    intros _. split; [|reflexivity].
    apply push_history_well_recorded; auto. }
  destruct (maxIterationsPerRule <=? attempt + 1)%nat eqn:Hmax.
  { injection Hrun as <- <-. simpl. count_calls.
    split; [discriminate|]. split; [lia|]. split; [reflexivity|].
    intros res [= <-]. simpl. split; [lia|]. split; [lia|]. discriminate. }
  apply Nat.leb_gt in Hmax.
  unfold bind at 1 in Hrun. unfold call at 1 in Hrun. simpl in Hrun.
  match type of Hrun with
  | context [regenerateRule ?c e2] => destruct (regenerateRule c e2) as [[regen|msg] e3]
  end.
  2: simpl in Hrun; injection Hrun as <- <-; simpl; count_calls;
       (split; [discriminate|]); (split; [lia|]); (split; [reflexivity|]);
       intros res; discriminate.
  destruct regen as [|nextRule rest].
  { injection Hrun as <- <-. simpl. count_calls.
    split; [discriminate|]. split; [lia|]. split; [reflexivity|].
    intros res [= <-]. simpl. split; [lia|]. split; [lia|]. discriminate. }
  destruct (push_history_numbered cur entry attempt Hlen Hnum eq_refl) as [Hnum' Hlen'].
  apply IH in Hrun; [| lia | exact Hlen' | exact Hnum'].
  simpl in Hrun.
  destruct Hrun as (Hne & Hle & Hcache & Hres).
  split; [exact Hne|]. split; [count_calls; lia|]. split; [exact Hcache|].
  intros res Hok. destruct (Hres res Hok) as (Hi & Hc & Hv).
  split; [lia|]. split; [count_calls; lia|]. exact Hv.
Qed.

Lemma validateAndRefineRule_spec (initialRule : Rule) (policyText firmName : string)
  (w : World Ext) out w' :
  validateAndRefineRule initialRule policyText firmName w = (out, w') ->
  out <> OutOfFuel
  /\ calls (log w') <= calls (log w) + maxIterationsPerRule
  /\ cache w' = cache w
  /\ forall res, out = Ok res ->
       calls (log w') = calls (log w) + iterations res
       /\ (validated res = true -> well_recorded (rule res)).
Proof.
  unfold Pipeline.validateAndRefineRule. intros Hrun.
  apply refine_loop_spec in Hrun; [| lia | reflexivity | reflexivity].
  destruct Hrun as (Hne & Hle & Hcache & Hres).
  split; [exact Hne|]. split; [lia|]. split; [exact Hcache|].
  intros res Hok. destruct (Hres res Hok) as (_ & Hc & Hv).
  split; [lia|]. intros Hval. now destruct (Hv Hval).
Qed.

End PipelineFacts.

(** C5. With the attempt budget the constructor stores (the given
    [maxIterationsPerRule], or 5 when the option is absent), a run of
    [validateAndRefineRule] on any draft, policy text and firm name comes
    to an end within the unrolled loop, performs at most that many
    validator calls, and when it returns a result its [iterations] field
    is the number of validator calls it performed. *)
Theorem refinement_loop_bounded {Ext : Type}
  (regenerateRule : GenerationContext -> Ext -> Outcome (list Rule) * Ext)
  (validateRule : Rule -> Ext -> Outcome ValidationResult * Ext)
  (Date_new : Ext -> DateReading * Ext)
  (options : option (option nat))
  (initialRule : Rule) (policyText firmName : string) (w : World Ext) :
  let max_attempts := constructor_maxIterationsPerRule options in
  let out := Pipeline.validateAndRefineRule regenerateRule validateRule max_attempts
               Date_new initialRule policyText firmName w in
  let performed :=
    Pipeline.validator_calls (log (snd out)) - Pipeline.validator_calls (log w) in
  fst out <> OutOfFuel
  /\ performed <= max_attempts
  /\ constructor_maxIterationsPerRule None = 5
  /\ forall res, fst out = Ok res -> iterations res = performed.
Proof.
  intros max_attempts out performed. subst performed.
  destruct out as [r w'] eqn:Hrun. subst out. simpl.
  apply validateAndRefineRule_spec in Hrun.
  destruct Hrun as (Hne & Hle & _ & Hres).
  split; [exact Hne|]. split; [lia|]. split; [reflexivity|].
  intros res Hok. destruct (Hres res Hok) as [Hc _]. lia.
Qed.

(** ** Storage *)

Lemma disk_changes_app (l1 l2 : list Event) :
  disk_changes (l1 ++ l2) = disk_changes l1 ++ disk_changes l2.
Proof. apply List.filter_app. Qed.

Section StorageFacts.
Context {Ext : Type}.
Variable mkdirSync : string -> Ext -> Outcome unit * Ext.
Variable is_EEXIST : string -> bool.
Variable path_join : string -> string -> string.
Variable dirname : string -> string.
Variable Bun_write : string -> string -> Ext -> Outcome unit * Ext.
Variable file_exists : string -> Ext -> Outcome bool * Ext.
Variable file_text : string -> Ext -> Outcome string * Ext.
Variable JSON_stringify_data : RulesData -> string.
Variable JSON_parse_data : string -> string + RulesData.
Variable Date_new : Ext -> DateReading * Ext.
Variable rulesDir : string.

Local Abbreviation saveRules :=
  (Storage.saveRules mkdirSync is_EEXIST path_join dirname Bun_write
     JSON_stringify_data Date_new rulesDir).
Local Abbreviation loadRules :=
  (Storage.loadRules path_join file_exists file_text JSON_parse_data rulesDir).
Local Abbreviation getFilePath := (Storage.getFilePath path_join rulesDir).

(** Everything [saveRules] does, by outcome. *)
Lemma saveRules_spec (firmName : string) (rules0 : list Rule) (total : nat)
  (w : World Ext) out w' :
  saveRules firmName rules0 total w = (out, w') ->
  out <> OutOfFuel
  /\ (forall data, out = Ok data ->
        rules data = rules0
        /\ firm_name data = firmName
        /\ total_iterations data = total
        /\ cache w' = <[firmName := data]> (cache w)
        /\ disk_changes (log w')
           = disk_changes (log w)
             ++ [EvWrite (getFilePath firmName) (JSON_stringify_data data)])
  /\ (forall msg, out = Throw msg ->
        cache w' = cache w
        /\ exists changes,
             disk_changes (log w') = disk_changes (log w) ++ changes
             /\ (changes = []
                 \/ exists doc, changes = [EvWrite (getFilePath firmName) doc])).
Proof.
  unfold Storage.saveRules. intros Hrun.
  unfold bind at 1 in Hrun. unfold clock at 1 in Hrun.
  destruct (Date_new (ext w)) as [d1 e1]. simpl in Hrun.
  unfold bind at 1 in Hrun. unfold clock at 1 in Hrun. simpl in Hrun.
  destruct (Date_new e1) as [d2 e2]. simpl in Hrun.
  unfold bind at 1 in Hrun. unfold clock at 1 in Hrun. simpl in Hrun.
  destruct (Date_new e2) as [d3 e3]. simpl in Hrun.
  unfold bind at 1 in Hrun. unfold Storage.ensureDir, try_catch, call at 1 in Hrun.
  simpl in Hrun.
  match type of Hrun with
  | context [mkdirSync ?d e3] => destruct (mkdirSync d e3) as [[[]|err] e4]
  end; simpl in Hrun.
  2: destruct (is_EEXIST err); simpl in Hrun.
  3: { injection Hrun as <- <-. simpl. split; [discriminate|]. split; [discriminate|].
       intros msg _. split; [reflexivity|]. exists []. split; [|now left].
       rewrite !disk_changes_app. simpl. now rewrite !app_nil_r. }
  all: unfold bind at 1 in Hrun; unfold call at 1 in Hrun; simpl in Hrun;
       match type of Hrun with
       | context [Bun_write ?f ?c ?e] => destruct (Bun_write f c e) as [[[]|err'] e5]
       end; simpl in Hrun; injection Hrun as <- <-; simpl;
       (split; [discriminate|]); split.
  all: try (intros data [= <-]; simpl; repeat split;
            rewrite !disk_changes_app; simpl; now rewrite !app_nil_r).
  all: try (intros data; discriminate).
  all: try (intros msg; discriminate).
  all: intros msg _; (split; [reflexivity|]);
       rewrite !disk_changes_app; simpl; rewrite ?app_nil_r;
       eexists; split; [reflexivity | right; eexists; reflexivity].
Qed.


(** Every external call of [saveRules], in order, by outcome. *)
Lemma saveRules_log (firmName : string) (rules0 : list Rule) (total : nat)
  (w : World Ext) out w' :
  saveRules firmName rules0 total w = (out, w') ->
  exists data calls,
    log w' = log w
             ++ [EvClock; EvClock; EvClock; EvMkdir (dirname (getFilePath firmName))]
             ++ calls
    /\ rules data = rules0
    /\ firm_name data = firmName
    /\ total_iterations data = total
    /\ generated_by_llm data = true
    /\ match out with
       | Ok returned =>
           returned = data
           /\ calls = [EvWrite (getFilePath firmName) (JSON_stringify_data data)]
           /\ cache w' = <[firmName := data]> (cache w)
       | Throw _ =>
           (calls = []
            \/ calls = [EvWrite (getFilePath firmName) (JSON_stringify_data data)])
           /\ cache w' = cache w
       | OutOfFuel => False
       end.
Proof.
  unfold Storage.saveRules. intros Hrun.
  unfold bind at 1 in Hrun. unfold clock at 1 in Hrun.
  destruct (Date_new (ext w)) as [d1 e1]. simpl in Hrun.
  unfold bind at 1 in Hrun. unfold clock at 1 in Hrun. simpl in Hrun.
  destruct (Date_new e1) as [d2 e2]. simpl in Hrun.
  unfold bind at 1 in Hrun. unfold clock at 1 in Hrun. simpl in Hrun.
  destruct (Date_new e2) as [d3 e3]. simpl in Hrun.
  exists {| firm_name := firmName;
            policy_version :=
              pretty (getFullYear d2) +:+ "-" +:+ JS.padStart0 2 (pretty (getMonth d3 + 1));
            last_updated := toISOString d1;
            generated_by_llm := true;
            total_iterations := total;
            rules := rules0 |}.
  unfold bind at 1 in Hrun. unfold Storage.ensureDir, try_catch, call at 1 in Hrun.
  simpl in Hrun.
  match type of Hrun with
  | context [mkdirSync ?d e3] => destruct (mkdirSync d e3) as [[[]|err] e4]
  end; simpl in Hrun.
  2: destruct (is_EEXIST err); simpl in Hrun.
  3: { injection Hrun as <- <-. exists []. simpl. rewrite <- !app_assoc. simpl.
       repeat split; auto. }
  all: unfold bind at 1 in Hrun; unfold call at 1 in Hrun; simpl in Hrun;
       match type of Hrun with
       | context [Bun_write ?f ?c ?e] => destruct (Bun_write f c e) as [[[]|err'] e5]
       end; simpl in Hrun; injection Hrun as <- <-;
       eexists; simpl; rewrite <- !app_assoc; simpl;
       (split; [reflexivity|]); repeat split; auto.
Qed.

(** C8, as the code has it. Beside reading the clock, [saveRules] calls
    [mkdirSync] on the directory of the firm's file and then issues at
    most one [Bun.write], directly on the firm's own file path and with
    the full serialized bundle; it makes no other call: no temporary
    file, no rename. When it returns, that write was issued and the
    cache holds the returned bundle; when it throws, the cache is as
    before. Whether a reader can see a partial document is therefore up
    to the write primitive. *)
Theorem saveRules_writes_in_place (firmName : string) (rules0 : list Rule)
  (total : nat) (w : World Ext) :
  let out := saveRules firmName rules0 total w in
  exists data calls,
    log (snd out)
    = log w
      ++ [EvClock; EvClock; EvClock; EvMkdir (dirname (getFilePath firmName))]
      ++ calls
    /\ rules data = rules0
    /\ firm_name data = firmName
    /\ total_iterations data = total
    /\ generated_by_llm data = true
    /\ match fst out with
       | Ok returned =>
           returned = data
           /\ calls = [EvWrite (getFilePath firmName) (JSON_stringify_data data)]
           /\ cache (snd out) = <[firmName := data]> (cache w)
       | Throw _ =>
           (calls = []
            \/ calls = [EvWrite (getFilePath firmName) (JSON_stringify_data data)])
           /\ cache (snd out) = cache w
       | OutOfFuel => False
       end.
Proof.
  intros out. destruct out as [r w'] eqn:Hrun. subst out. simpl.
  exact (saveRules_log firmName rules0 total w r w' Hrun).
Qed.


End StorageFacts.

(** ** Ingestion *)

Section IngestionFacts.
Context {Ext : Type}.
Variable generateRules : GenerationContext -> Ext -> Outcome (list Rule) * Ext.
Variable regenerateRule : GenerationContext -> Ext -> Outcome (list Rule) * Ext.
Variable validateRule : Rule -> Ext -> Outcome ValidationResult * Ext.
Variable maxIterationsPerRule : nat.
Variable Date_new : Ext -> DateReading * Ext.
Variable mkdirSync : string -> Ext -> Outcome unit * Ext.
Variable is_EEXIST : string -> bool.
Variable path_join : string -> string -> string.
Variable dirname : string -> string.
Variable Bun_write : string -> string -> Ext -> Outcome unit * Ext.
Variable JSON_stringify_data : RulesData -> string.
Variable rulesDir : string.

Local Abbreviation saveRules :=
  (Storage.saveRules mkdirSync is_EEXIST path_join dirname Bun_write
     JSON_stringify_data Date_new rulesDir).
Local Abbreviation process_rules :=
  (Pipeline.process_rules regenerateRule validateRule maxIterationsPerRule Date_new).
Local Abbreviation processPolicy :=
  (Pipeline.processPolicy generateRules regenerateRule validateRule
     maxIterationsPerRule Date_new saveRules).

Lemma process_rules_spec (policyText firmName : string) (initialRules : list Rule) :
  forall (acc : list Rule) (n : nat) (w : World Ext) acc' n' w',
    Forall well_recorded acc ->
    process_rules initialRules policyText firmName acc n w = (Ok (acc', n'), w') ->
    Forall well_recorded acc'.
Proof.
  induction initialRules as [|r rest IH]; intros acc n w acc' n' w' Hacc Hrun;
    simpl in Hrun.
  - now injection Hrun as <- <- <-.
  - unfold bind at 1 in Hrun.
    destruct (Pipeline.validateAndRefineRule regenerateRule validateRule
                maxIterationsPerRule Date_new r policyText firmName w)
      as [[res|msg|] w1] eqn:Hone; try discriminate.
    apply validateAndRefineRule_spec in Hone.
    destruct Hone as (_ & _ & _ & Hres).
    destruct (Hres res eq_refl) as [_ Hv].
    apply IH in Hrun; [exact Hrun|].
    destruct (validated res); [|exact Hacc].
    apply Forall_app. split; [exact Hacc|]. constructor; [now apply Hv | constructor].
Qed.

Lemma process_rules_completes (policyText firmName : string) (initialRules : list Rule) :
  forall (acc : list Rule) (n : nat) (w : World Ext),
    fst (process_rules initialRules policyText firmName acc n w) <> OutOfFuel.
Proof.
  induction initialRules as [|r rest IH]; intros acc n w; simpl; [discriminate|].
  unfold bind at 1.
  destruct (Pipeline.validateAndRefineRule regenerateRule validateRule
              maxIterationsPerRule Date_new r policyText firmName w)
    as [[res|msg|] w1] eqn:Hone.
  - apply IH.
  - discriminate.
  - apply validateAndRefineRule_spec in Hone. now destruct Hone as [Hne _].
Qed.

(** [processPolicy] always comes to an end: it returns a bundle or
    throws what one of its services threw. *)
Lemma processPolicy_completes (policyText firmName : string) (w : World Ext) :
  fst (processPolicy policyText firmName w) <> OutOfFuel.
Proof.
  unfold Pipeline.processPolicy. unfold bind at 1. unfold call at 1.
  match goal with
  | |- context [generateRules ?c ?e] => destruct (generateRules c e) as [[initial|msg] e1]
  end; simpl; [|discriminate].
  unfold bind at 1.
  match goal with
  | |- context [process_rules ?a ?b ?c ?d ?e ?f] =>
      pose proof (process_rules_completes b c a d e f) as Hloop;
      destruct (process_rules a b c d e f) as [[[acc n]|msg|] w1]
  end; simpl in *; [| discriminate | congruence].
  match goal with
  | |- fst ?saved <> _ => destruct saved as [out w2] eqn:Hsave
  end.
  apply saveRules_spec in Hsave. now destruct Hsave as [Hne _].
Qed.

(** C2. When [processPolicy] returns, the bundle it returns is the one it
    persisted (its serialization was written to the firm's file and it
    sits in the cache), and every rule in it has a last
    [validation_history] entry with [passed = true], a history as long
    as its [generation_attempt], and history entries numbered
    1, 2, ... in order. *)
Theorem persisted_rules_well_recorded (policyText firmName : string)
  (w w' : World Ext) (data : RulesData) :
  processPolicy policyText firmName w = (Ok data, w') ->
  (cache w' !! firmName = Some data
   /\ In (EvWrite (Storage.getFilePath path_join rulesDir firmName)
                  (JSON_stringify_data data)) (log w'))
  /\ Forall (fun r =>
               passed <$> last (validation_history r) = Some true
               /\ length (validation_history r) = generation_attempt r
               /\ attempt_number <$> validation_history r
                  = seq 1 (length (validation_history r)))
            (rules data).
Proof.
  unfold Pipeline.processPolicy. intros Hrun.
  unfold bind at 1 in Hrun. unfold call at 1 in Hrun.
  match type of Hrun with
  | context [generateRules ?c ?e] => destruct (generateRules c e) as [[initial|msg] e1]
  end; simpl in Hrun; [|discriminate].
  unfold bind at 1 in Hrun.
  match type of Hrun with
  | context [process_rules ?a ?b ?c ?d ?e ?f] =>
      destruct (process_rules a b c d e f) as [[[acc n]|msg|] w1] eqn:Hloop
  end; try discriminate.
  apply process_rules_spec in Hloop; [|constructor].
  simpl in Hrun. apply saveRules_spec in Hrun.
  destruct Hrun as (_ & Hok & _).
  destruct (Hok data eq_refl) as (Hr & _ & _ & Hcache & Hdisk).
  split.
  - split; [rewrite Hcache; apply lookup_insert_eq|].
    assert (Hin : In (EvWrite (Storage.getFilePath path_join rulesDir firmName)
                        (JSON_stringify_data data)) (disk_changes (log w'))).
    { rewrite Hdisk. apply in_or_app. right. now left. }
    unfold disk_changes in Hin. now apply List.filter_In in Hin.
  - rewrite Hr. exact Hloop.
Qed.

End IngestionFacts.

(** ** Compliance evaluation *)

Lemma rules_run_app (l1 l2 : list Event) :
  rules_run (l1 ++ l2) = rules_run l1 ++ rules_run l2.
Proof. apply flat_map_app. Qed.

(** The two [continue] tests of the loop skip exactly the rules that do
    not apply. *)
Lemma skip_tests_iff_applies (employee : Employee) (r : Rule) :
  applies employee r
  = negb (negb (active r))
    && negb ((0 <? length (applies_to_roles r))%nat
             && negb (roles_include (applies_to_roles r) (role employee))).
Proof.
  unfold applies. destruct (active r); simpl; [|reflexivity].
  destruct (applies_to_roles r) as [|x l]; simpl; [reflexivity|].
  now rewrite negb_involutive.
Qed.

Lemma roles_include_iff (roles : list string) (r : string) :
  roles_include roles r = true <-> In r roles.
Proof.
  unfold roles_include. rewrite existsb_exists. split.
  - intros (x & Hin & Heq). apply String.eqb_eq in Heq. now subst.
  - intros Hin. exists r. split; [exact Hin | apply String.eqb_refl].
Qed.

Lemma fold_apply_outcome (os : list (Rule * Res JSValue)) :
  forall resp : ComplianceResult,
    let final := fold_left apply_outcome os resp in
    allowed final = allowed resp && forallb (fun ro => negb (blocks (snd ro))) os
    /\ reasons final = reasons resp ++ flat_map reasons_of os
    /\ policy_refs final
       = policy_refs resp
         ++ ((fun ro => policy_reference (fst ro))
               <$> List.filter (fun ro => blocks (snd ro)) os)
    /\ rules_checked final
       = rules_checked resp ++ ((fun ro => rule_name (fst ro)) <$> os).
Proof.
  induction os as [|[r o] os IH]; intros resp.
  - simpl. now rewrite andb_true_r, !app_nil_r.
  - cbn [fold_left]. cbv zeta.
    destruct (IH (apply_outcome resp (r, o))) as (Ha & Hr & Hp & Hc).
    rewrite Ha, Hr, Hp, Hc. clear.
    unfold reasons_of. simpl.
    destruct o as [execution|message|]; simpl;
      [destruct (js_truthy (get_prop execution "allowed")); simpl;
       [|destruct (js_truthy (get_prop execution "reason")); simpl;
         [destruct (get_prop execution "reason"); simpl|]]| |].
    all: rewrite ?andb_false_r, ?andb_true_r, <- ?app_assoc, ?app_nil_r;
         repeat split; reflexivity.
Qed.

Lemma forallb_false_iff {A : Type} (f : A -> bool) (l : list A) :
  forallb f l = false <-> exists x, In x l /\ f x = false.
Proof.
  induction l as [|a l IH]; simpl.
  - split; [discriminate | intros (x & [] & _)].
  - rewrite andb_false_iff, IH. split.
    + intros [H | (x & Hin & Hx)]; [exists a; auto | exists x; auto].
    + intros (x & [-> | Hin] & Hx); [now left | right; exists x; auto].
Qed.

Lemma blocks_iff (o : Res JSValue) :
  blocks o = true <-> denied o \/ exists detail, raised o detail.
Proof.
  unfold denied, raised. destruct o as [execution|message|]; simpl.
  - rewrite negb_true_iff. split.
    + intros H. left. exists execution. auto.
    + intros [(x & [= ->] & H) | (x & H)]; [exact H | discriminate].
  - split; [intros _; right; eauto | reflexivity].
  - split; [discriminate | intros [(x & H & _) | (x & H)]; discriminate].
Qed.

Section ExecutorFacts.
Context {Ext : Type}.
Variable runPythonCode : RunnerPayload -> N -> Ext -> Outcome string * Ext.
Variable JSON_parse : string -> string + JSValue.
Variable loadRules : string -> M Ext (option RulesData).

Local Abbreviation executeRule := (Executor.executeRule runPythonCode JSON_parse).
Local Abbreviation check_rule := (Executor.check_rule runPythonCode JSON_parse).
Local Abbreviation check_rules := (Executor.check_rules runPythonCode JSON_parse).
Local Abbreviation outcomes := (Executor.outcomes runPythonCode JSON_parse).
Local Abbreviation checkCompliance :=
  (Executor.checkCompliance runPythonCode JSON_parse loadRules).

(** [executeRule] by cases on what the child process and the parser give. *)
Lemma executeRule_cases (r : Rule) (e : Employee) (s : Security) (d : string)
  (w : World Ext) :
  let payload := payload_for e s d r in
  let w1 := after_call w (snd (runPythonCode payload 10000%N (ext w)))
                         (EvRunPython payload 10000%N) in
  executeRule r e s d w =
  (match fst (runPythonCode payload 10000%N (ext w)) with
   | Rejects msg => Throw msg
   | Resolves stdout =>
       match JSON_parse (JS.trim stdout) with
       | inl _ => Throw "Python bridge returned invalid JSON"
       | inr JNull => Throw (TypeError_null "result.allowed")
       | inr parsed =>
           match as_boolean (get_prop parsed "allowed") with
           | None => Throw "Rule result missing boolean 'allowed'"
           | Some _ => Ok parsed
           end
       end
   end, w1).
Proof.
  unfold Executor.executeRule, payload_for, bind, call. simpl.
  destruct (runPythonCode _ _ _) as [[stdout|msg] e1]; simpl; [|reflexivity].
  destruct (JSON_parse (JS.trim stdout)) as [err|parsed]; [reflexivity|].
  destruct parsed; try reflexivity.
  all: destruct (as_boolean _); reflexivity.
Qed.

Lemma executeRule_log (r : Rule) (e : Employee) (s : Security) (d : string)
  (w : World Ext) :
  fst (executeRule r e s d w) <> OutOfFuel
  /\ log (snd (executeRule r e s d w)) = log w ++ [EvRunPython (payload_for e s d r) 10000%N].
Proof.
  rewrite executeRule_cases. simpl. split; [|reflexivity].
  destruct (fst (runPythonCode _ _ _)) as [stdout|msg]; [|discriminate].
  destruct (JSON_parse _) as [err|parsed]; [discriminate|].
  destruct parsed; try discriminate.
  all: destruct (as_boolean _); discriminate.
Qed.

Lemma check_rule_skip (e : Employee) (s : Security) (d : string)
  (resp : ComplianceResult) (r : Rule) (w : World Ext) :
  applies e r = false -> check_rule e s d resp r w = (Ok resp, w).
Proof.
  rewrite skip_tests_iff_applies. unfold Executor.check_rule.
  destruct (negb (active r)); [reflexivity|]. simpl.
  destruct (_ && _); [reflexivity | discriminate].
Qed.

Lemma check_rule_invoke (e : Employee) (s : Security) (d : string)
  (resp : ComplianceResult) (r : Rule) (w : World Ext) :
  applies e r = true ->
  check_rule e s d resp r w
  = (Ok (apply_outcome resp (r, fst (executeRule r e s d w))),
     snd (executeRule r e s d w)).
Proof.
  rewrite skip_tests_iff_applies. unfold Executor.check_rule.
  destruct (negb (active r)); [discriminate|]. simpl.
  destruct (_ && _); [discriminate|]. intros _.
  pose proof (executeRule_log r e s d w) as [Hne _].
  unfold try_catch, bind.
  destruct (executeRule r e s d w) as [[execution|msg|] w1]; simpl in *.
  - destruct (negb _); reflexivity.
  - reflexivity.
  - now contradiction Hne.
Qed.

Lemma check_rules_outcomes (e : Employee) (s : Security) (d : string)
  (rules0 : list Rule) :
  forall (resp : ComplianceResult) (w : World Ext),
    check_rules e s d rules0 resp w
    = (Ok (fold_left apply_outcome (fst (outcomes e s d rules0 w)) resp),
       snd (outcomes e s d rules0 w)).
Proof.
  induction rules0 as [|r rest IH]; intros resp w; simpl; [reflexivity|].
  unfold bind at 1.
  destruct (applies e r) eqn:Happ.
  - rewrite (check_rule_invoke _ _ _ _ _ _ Happ).
    destruct (executeRule r e s d w) as [o w1]. simpl.
    rewrite IH. destruct (outcomes e s d rest w1) as [os w2]. reflexivity.
  - rewrite (check_rule_skip _ _ _ _ _ _ Happ). apply IH.
Qed.

Lemma outcomes_invoked (e : Employee) (s : Security) (d : string) (rules0 : list Rule) :
  forall (w : World Ext),
    fst <$> fst (outcomes e s d rules0 w) = List.filter (applies e) rules0
    /\ rules_run (log (snd (outcomes e s d rules0 w)))
       = rules_run (log w) ++ (payload_for e s d <$> List.filter (applies e) rules0)
    /\ Forall (fun ro => snd ro <> OutOfFuel) (fst (outcomes e s d rules0 w)).
Proof.
  induction rules0 as [|r rest IH]; intros w; simpl.
  - now rewrite app_nil_r.
  - destruct (applies e r) eqn:Happ; [|apply IH].
    pose proof (executeRule_log r e s d w) as [Hne Hlog].
    destruct (executeRule r e s d w) as [o w1]. simpl in Hne, Hlog.
    specialize (IH w1). destruct (outcomes e s d rest w1) as [os w2].
    simpl in *. destruct IH as (Hf & Hr & Hall).
    split; [f_equal; exact Hf|]. split.
    + rewrite Hr, Hlog, rules_run_app. simpl. now rewrite <- app_assoc.
    + constructor; [exact Hne | exact Hall].
Qed.

Lemma checkCompliance_loaded (firmName : string) (e : Employee) (s : Security)
  (d : string) (w w1 : World Ext) (stored : RulesData) :
  loadRules firmName w = (Ok (Some stored), w1) ->
  checkCompliance firmName e s d w
  = (Ok (fold_left apply_outcome (fst (outcomes e s d (rules stored) w1)) empty_response),
     snd (outcomes e s d (rules stored) w1)).
Proof.
  intros Hload. unfold Executor.checkCompliance, bind. rewrite Hload.
  apply check_rules_outcomes.
Qed.

(** C3. Once the bundle is loaded, the rules handed to the Python runner
    are exactly the stored rules that are active and whose
    [applies_to_roles] is empty or contains [employee.role] (string
    equality), in stored order, each one whatever the earlier rules
    answered; and [rules_checked] lists the names of exactly those
    rules, in that order. *)
Theorem applicable_rules_invoked_in_order (firmName : string) (e : Employee)
  (s : Security) (d : string) (w w1 : World Ext) (stored : RulesData) :
  loadRules firmName w = (Ok (Some stored), w1) ->
  exists verdict w2,
    checkCompliance firmName e s d w = (Ok verdict, w2)
    /\ rules_run (log w2)
       = rules_run (log w1)
         ++ (payload_for e s d <$> List.filter (applies e) (rules stored))
    /\ rules_checked verdict = rule_name <$> List.filter (applies e) (rules stored)
    /\ (forall r, applies e r = true <->
                  active r = true
                  /\ (applies_to_roles r = [] \/ In (role e) (applies_to_roles r))).
Proof.
  intros Hload. rewrite (checkCompliance_loaded _ e s d _ _ _ Hload).
  eexists _, _. split; [reflexivity|].
  destruct (outcomes_invoked e s d (rules stored) w1) as (Hf & Hr & _).
  split; [exact Hr|]. split.
  - destruct (fold_apply_outcome (fst (outcomes e s d (rules stored) w1)) empty_response)
      as (_ & _ & _ & Hc).
    rewrite Hc. simpl. rewrite <- Hf, <- list_fmap_compose. reflexivity.
  - intros r. unfold applies. rewrite andb_true_iff, orb_true_iff, roles_include_iff.
    destruct (applies_to_roles r); split; intros [Ha Hb]; split; auto.
    + destruct Hb as [Hb|Hb]; [discriminate | now right].
    + destruct Hb as [Hb|Hb]; [discriminate | now right].
Qed.

(** C4. Once the bundle is loaded, [checkCompliance] returns a verdict
    (no exception escapes), and for every invoked rule whose execution
    failed with some detail the verdict has [allowed = false], carries
    the reason ["Rule <name> execution failed: <detail>"] and the rule's
    [policy_reference]. A rejected child process, output that is not
    JSON, and a parsed result without a boolean [allowed] each make
    [executeRule] fail. *)
Theorem execution_failure_denies (firmName : string) (e : Employee)
  (s : Security) (d : string) (w w1 : World Ext) (stored : RulesData) :
  loadRules firmName w = (Ok (Some stored), w1) ->
  (exists verdict w2,
     checkCompliance firmName e s d w = (Ok verdict, w2)
     /\ forall r detail,
          In (r, Throw detail) (fst (outcomes e s d (rules stored) w1)) ->
          allowed verdict = false
          /\ In (JStr ("Rule " +:+ rule_name r +:+ " execution failed: " +:+ detail))
                (reasons verdict)
          /\ In (policy_reference r) (policy_refs verdict))
  /\ (forall r w0,
        match fst (runPythonCode (payload_for e s d r) 10000%N (ext w0)) with
        | Rejects msg => raised (fst (executeRule r e s d w0)) msg
        | Resolves stdout =>
            match JSON_parse (JS.trim stdout) with
            | inl _ =>
                raised (fst (executeRule r e s d w0))
                       "Python bridge returned invalid JSON"
            | inr parsed =>
                as_boolean (get_prop parsed "allowed") = None ->
                exists detail, raised (fst (executeRule r e s d w0)) detail
            end
        end).
Proof.
  intros Hload. split.
  - rewrite (checkCompliance_loaded _ e s d _ _ _ Hload).
    eexists _, _. split; [reflexivity|].
    intros r detail Hin.
    destruct (fold_apply_outcome (fst (outcomes e s d (rules stored) w1)) empty_response)
      as (Ha & Hr & Hp & _).
    rewrite Ha, Hr, Hp. simpl. split; [|split].
    + apply forallb_false_iff. exists (r, Throw detail). split; [exact Hin | reflexivity].
    + apply in_flat_map. exists (r, Throw detail). split; [exact Hin|]. now left.
    + apply list_elem_of_In, list_elem_of_fmap.
      exists (r, Throw detail). split; [reflexivity|].
      apply list_elem_of_In, List.filter_In. split; [exact Hin | reflexivity].
  - intros r w0. rewrite executeRule_cases. simpl. unfold raised.
    destruct (fst (runPythonCode _ _ _)) as [stdout|msg]; [|reflexivity].
    destruct (JSON_parse _) as [err|parsed]; [reflexivity|].
    intros Hnone. destruct parsed; simpl in *; try rewrite Hnone; eauto.
Qed.

(** C1, as the code has it. In every verdict [checkCompliance] returns,
    [allowed] is false exactly when [policy_refs] is non-empty, and a
    non-empty [reasons] list implies [allowed = false]. Over a loaded
    bundle, [allowed] is false exactly when some invoked rule returned a
    result with a false [allowed] or failed during execution, and a
    failed rule always leaves a reason. (A rule that denies without a
    truthy [reason] leaves [reasons] untouched.) *)
Theorem verdict_denied_iff_rule_blocked (firmName : string) (e : Employee)
  (s : Security) (d : string) (w w2 : World Ext) (verdict : ComplianceResult) :
  checkCompliance firmName e s d w = (Ok verdict, w2) ->
  (allowed verdict = false <-> policy_refs verdict <> [])
  /\ (reasons verdict <> [] -> allowed verdict = false)
  /\ (forall stored w1,
        loadRules firmName w = (Ok (Some stored), w1) ->
        let os := fst (outcomes e s d (rules stored) w1) in
        (allowed verdict = false <->
         exists r o, In (r, o) os /\ (denied o \/ exists detail, raised o detail))
        /\ ((exists r detail, In (r, Throw detail) os) ->
            allowed verdict = false /\ reasons verdict <> [])).
Proof.
  intros Hrun.
  assert (Hshape : verdict = empty_response
                   \/ exists os, verdict = fold_left apply_outcome os empty_response).
  { unfold Executor.checkCompliance, bind in Hrun.
    destruct (loadRules firmName w) as [[[stored|]|msg|] w1]; try discriminate.
    - rewrite check_rules_outcomes in Hrun. injection Hrun as <- _. right. eauto.
    - injection Hrun as <- _. now left. }
  assert (Hverdict : exists os, verdict = fold_left apply_outcome os empty_response).
  { destruct Hshape as [-> | H]; [exists []; reflexivity | exact H]. }
  clear Hshape.
  assert (Hblock : forall os,
             forallb (fun ro : Rule * Res JSValue => negb (blocks (snd ro))) os = false
             <-> List.filter (fun ro : Rule * Res JSValue => blocks (snd ro)) os <> []).
  { induction os as [|[r o] os IH]; simpl; [split; [discriminate | congruence]|].
    destruct (blocks o); simpl; [split; [discriminate | reflexivity] | exact IH]. }
  split; [|split].
  - destruct Hverdict as [os ->].
    destruct (fold_apply_outcome os empty_response) as (Ha & _ & Hp & _).
    rewrite Ha, Hp. simpl. rewrite Hblock.
    destruct (List.filter _ os); simpl; split; congruence.
  - destruct Hverdict as [os ->].
    destruct (fold_apply_outcome os empty_response) as (Ha & Hr & _ & _).
    rewrite Ha, Hr. simpl. clear. induction os as [|[r o] os IH]; simpl; [congruence|].
    intros Hne. unfold reasons_of in Hne. simpl in Hne.
    destruct o as [execution|message|]; simpl; auto.
    destruct (js_truthy (get_prop execution "allowed")); simpl in *; auto.
  - intros stored w1 Hload os.
    rewrite (checkCompliance_loaded _ e s d _ _ _ Hload) in Hrun.
    injection Hrun as <- _. fold os.
    destruct (fold_apply_outcome os empty_response) as (Ha & Hr & _ & _).
    rewrite Ha, Hr. simpl. split.
    + rewrite forallb_false_iff. split.
      * intros ([r o] & Hin & Hb). exists r, o. split; [exact Hin|].
        apply blocks_iff. simpl in Hb. now destruct (blocks o).
      * intros (r & o & Hin & Hb). exists (r, o). split; [exact Hin|].
        apply blocks_iff in Hb. simpl. now rewrite Hb.
    + intros (r & detail & Hin). split.
      * apply forallb_false_iff. exists (r, Throw detail).
        split; [exact Hin | reflexivity].
      * intros Hnil.
        assert (Hin' : In (JStr (failure_reason (rule_name r) detail))
                          (flat_map reasons_of os)).
        { apply in_flat_map. exists (r, Throw detail). split; [exact Hin | now left]. }
        rewrite Hnil in Hin'. destruct Hin'.
Qed.

End ExecutorFacts.

(** ** Employee lookup *)

Lemma map_chars_rev_app (f : ascii -> ascii) (s acc : string) :
  JS.map_chars f (String.rev_app s acc)
  = String.rev_app (JS.map_chars f s) (JS.map_chars f acc).
Proof.
  revert acc; induction s as [|c s IH]; intros acc; simpl; [reflexivity|].
  now rewrite IH.
Qed.

Lemma upper_char_space (c : ascii) : JS.is_space (JS.upper_char c) = JS.is_space c.
Proof.
  destruct c as [[] [] [] [] [] [] [] []]; reflexivity.
Qed.

Lemma toUpperCase_trimStart (s : string) :
  JS.toUpperCase (JS.trimStart s) = JS.trimStart (JS.toUpperCase s).
Proof.
  unfold JS.toUpperCase. induction s as [|c s IH]; simpl; [reflexivity|].
  rewrite upper_char_space. destruct (JS.is_space c); [exact IH | reflexivity].
Qed.

(** Case mapping and trimming commute. *)
Lemma toUpperCase_trim (s : string) :
  JS.toUpperCase (JS.trim s) = JS.trim (JS.toUpperCase s).
Proof.
  unfold JS.trim, JS.trimEnd, String.rev.
  rewrite <- toUpperCase_trimStart.
  unfold JS.toUpperCase at 1. rewrite map_chars_rev_app. simpl.
  fold (JS.toUpperCase (JS.trimStart (String.rev_app (JS.trimStart s) ""))).
  rewrite toUpperCase_trimStart. unfold JS.toUpperCase at 1.
  rewrite map_chars_rev_app. reflexivity.
Qed.

Section DemoFacts.
Context {Ext : Type}.
Variable DATA_PATH : string.
Variable file_exists : string -> Ext -> Outcome bool * Ext.
Variable file_text : string -> Ext -> Outcome string * Ext.
Variable JSON_parse_demo : string -> string + DemoData.

Local Abbreviation loadDemoData :=
  (DemoDataService.loadDemoData DATA_PATH file_exists file_text JSON_parse_demo).
Local Abbreviation getEmployeeById :=
  (DemoDataService.getEmployeeById DATA_PATH file_exists file_text JSON_parse_demo).

Lemma getEmployeeById_nonempty (employeeId : string) (w : World Ext) :
  employeeId <> "" ->
  getEmployeeById employeeId w
  = bind loadDemoData
         (fun data =>
            ret (match demo_employees data with
                 | Some employees =>
                     List.find (DemoDataService.id_matches
                                  (JS.toUpperCase (JS.trim employeeId))) employees
                 | None => None
                 end)) w.
Proof.
  intros Hne. unfold DemoDataService.getEmployeeById.
  destruct employeeId; [congruence | reflexivity].
Qed.

(** C10, as the code has it, for ids of ASCII characters. The empty id
    is answered [null] by the guard [if (!employeeId) return null],
    before the demo data is loaded. A non-empty id [s] loads the data;
    when the load throws, so does the lookup; when it returns, the
    lookup returns the first employee whose upper-cased [id] equals
    [s.trim().toUpperCase()], and [null] when the employee list is
    missing or holds no such employee. Two non-empty ids that agree
    after trimming and upper-casing -- in particular ids that differ
    only in surrounding white space, or only in letter case -- get the
    same answer. An id of white space only is not empty: it is looked up
    as the empty string. *)
Theorem employee_lookup_normalizes (s : string) (w : World Ext) :
  (s = "" -> getEmployeeById s w = (Ok None, w))
  /\ (forall data w1,
        s <> "" ->
        ascii_only s = true ->
        loadDemoData w = (Ok data, w1) ->
        ascii_ids data ->
        exists found,
          getEmployeeById s w = (Ok found, w1)
          /\ match found with
             | Some emp =>
                 exists employees i,
                   demo_employees data = Some employees
                   /\ In emp employees
                   /\ id emp = Some i
                   /\ JS.toUpperCase i = JS.toUpperCase (JS.trim s)
                   /\ List.find (DemoDataService.id_matches
                                   (JS.toUpperCase (JS.trim s))) employees = Some emp
             | None =>
                 forall employees emp i,
                   demo_employees data = Some employees ->
                   In emp employees ->
                   id emp = Some i ->
                   JS.toUpperCase i <> JS.toUpperCase (JS.trim s)
             end)
  /\ (forall msg w1,
        s <> "" ->
        loadDemoData w = (Throw msg, w1) ->
        getEmployeeById s w = (Throw msg, w1))
  /\ (forall s',
        s <> "" -> s' <> "" ->
        ascii_only s = true -> ascii_only s' = true ->
        (JS.trim s' = JS.trim s \/ JS.toUpperCase s' = JS.toUpperCase s
         \/ JS.toUpperCase (JS.trim s') = JS.toUpperCase (JS.trim s)) ->
        getEmployeeById s' w = getEmployeeById s w).
Proof.
  split; [|split; [|split]].
  - intros ->. reflexivity.
  - intros data w1 Hne _ Hload _.
    rewrite (getEmployeeById_nonempty s w Hne). unfold bind. rewrite Hload.
    eexists. split; [reflexivity|].
    destruct (demo_employees data) as [employees|].
    + destruct (List.find _ employees) as [emp|] eqn:Hfind.
      * pose proof (List.find_some _ _ Hfind) as [Hin Hm].
        unfold DemoDataService.id_matches in Hm.
        destruct (id emp) as [i|] eqn:Hid; [|discriminate].
        apply String.eqb_eq in Hm.
        exists employees, i. repeat split; auto.
      * intros employees' emp i [= <-] Hin Hid Heq.
        pose proof (List.find_none _ _ Hfind emp Hin) as Hm.
        unfold DemoDataService.id_matches in Hm. rewrite Hid in Hm.
        apply String.eqb_neq in Hm. contradiction.
    + intros employees emp i Hsome. discriminate.
  - intros msg w1 Hne Hload.
    rewrite (getEmployeeById_nonempty s w Hne). unfold bind. rewrite Hload.
    reflexivity.
  - intros s' Hne Hne' _ _ Hsame.
    assert (Hnorm : JS.toUpperCase (JS.trim s') = JS.toUpperCase (JS.trim s)).
    { destruct Hsame as [H | [H | H]]; [now rewrite H | | exact H].
      now rewrite !toUpperCase_trim, H. }
    rewrite (getEmployeeById_nonempty s w Hne), (getEmployeeById_nonempty s' w Hne').
    now rewrite Hnorm.
Qed.

End DemoFacts.

(** ** Date fields at the two rule-invocation boundaries *)

Lemma assoc_json_loads (key : string) (props : list (string * JSValue)) :
  assoc key (List.map (fun p => match p with (k, x) => (k, json_loads x) end) props)
  = json_loads <$> assoc key props.
Proof.
  induction props as [|[k x] props IH]; simpl; [reflexivity|].
  destruct (String.eqb key k); [reflexivity | exact IH].
Qed.

(** [PYTHON_RUNNER] hands every string-valued property of the security
    to the rule unchanged: no date is parsed on the evaluation path. *)
Lemma runner_passes_strings (p : RunnerPayload) (key iso : string) :
  get_prop (security_json (rp_security p)) key = Some (JStr iso) ->
  exists employee security date,
    runner_call_args (runner_input p) = Some (employee, security, date)
    /\ py_get security key = Some (PyStr iso).
Proof.
  intros Hget. eexists _, _, _. split; [reflexivity|].
  simpl in *. destruct (String.eqb key "ticker").
  - injection Hget as ->. reflexivity.
  - rewrite assoc_json_loads, Hget. reflexivity.
Qed.

(** C7, on the validator's side. The fixture of [runTests] carries the
    three date fields of the security as ISO-8601 strings, but the test
    program replaces each of them by a [datetime] object before it calls
    the rule: the rule callable receives parsed dates, not strings. *)
Theorem validator_harness_parses_dates (other : string -> option PyValue)
  (r : Rule) (today : string) :
  exists employee security trade_date fixture,
    get_prop (tests_payload r today) "security" = Some fixture
    /\ get_prop fixture "earnings_date" = Some (JStr "2025-11-20")
    /\ get_prop fixture "next_earnings_date" = Some (JStr "2025-11-20")
    /\ get_prop fixture "last_earnings_date" = Some (JStr "2025-08-15")
    /\ validator_call_args other (tests_payload r today)
       = Some (employee, security, trade_date)
    /\ py_get security "earnings_date" = Some (PyDatetime 2025 11 20)
    /\ py_get security "next_earnings_date" = Some (PyDatetime 2025 11 20)
    /\ py_get security "last_earnings_date" = Some (PyDatetime 2025 8 15)
    /\ trade_date = PyStr today.
Proof.
  eexists _, _, _, _. repeat split; reflexivity.
Qed.

(** ** Concrete runs *)

(** The refinement scenario: the first draft fails to parse, its
    regeneration passes on the second attempt, the second draft passes at
    once; three validator calls in total. *)
Example ingestion_run :
  exists data w',
    Sim.processPolicy "policy" "Meridian" Sim.w0 = (Ok data, w')
    /\ total_iterations data = 3
    /\ (generation_attempt <$> rules data) = [2; 1]
    /\ Pipeline.validator_calls (log w') = 3.
Proof. eexists _, _. split; [vm_compute; reflexivity|]. vm_compute. auto. Qed.

(** Witness of C2 on the simulated ingestion. *)
Lemma persisted_rules_witness :
  exists data w',
    Sim.processPolicy "policy" "Meridian" Sim.w0 = (Ok data, w')
    /\ (cache w' !! "Meridian" = Some data
        /\ In (EvWrite (Storage.getFilePath Sim.path_join Sim.rulesDir "Meridian")
                       (Sim.JSON_stringify_data data)) (log w'))
    /\ Forall (fun r =>
                 passed <$> last (validation_history r) = Some true
                 /\ length (validation_history r) = generation_attempt r
                 /\ attempt_number <$> validation_history r
                    = seq 1 (length (validation_history r)))
              (rules data).
Proof.
  eexists _, _.
  refine ((fun H => conj H (persisted_rules_well_recorded
                              Sim.generateRules Sim.regenerateRule Sim.validateRule 5
                              Sim.Date_new Sim.mkdirSync Sim.is_EEXIST Sim.path_join
                              Sim.dirname Sim.Bun_write Sim.JSON_stringify_data
                              Sim.rulesDir "policy" "Meridian" Sim.w0 _ _ H)) _).
  vm_compute; reflexivity.
Defined.

(** Witness of C5: the broken draft is refined in two validator calls
    under the default budget of five. *)
Lemma refinement_loop_witness :
  let out := Pipeline.validateAndRefineRule Sim.regenerateRule Sim.validateRule
               (constructor_maxIterationsPerRule None) Sim.Date_new
               Sim.broken_rule "policy" "Meridian" Sim.w0 in
  fst out <> OutOfFuel
  /\ Pipeline.validator_calls (log (snd out)) - Pipeline.validator_calls (log Sim.w0)
     <= constructor_maxIterationsPerRule None
  /\ constructor_maxIterationsPerRule None = 5
  /\ forall res, fst out = Ok res ->
       iterations res
       = Pipeline.validator_calls (log (snd out)) - Pipeline.validator_calls (log Sim.w0).
Proof.
  exact (refinement_loop_bounded Sim.regenerateRule Sim.validateRule Sim.Date_new
           None Sim.broken_rule "policy" "Meridian" Sim.w0).
Defined.

(** Witness of C6: code importing [OS] in capitals is rejected before
    any sandbox exists. *)
Lemma static_screen_witness :
  safe (checkSecurity (python_code Sim.evil_rule)) = false
  /\ exists snippet,
       In snippet DANGEROUS_SNIPPETS
       /\ occurs_in snippet (JS.toLowerCase (python_code Sim.evil_rule))
       /\ Sim.daytona_validateRule Sim.evil_rule Sim.w0 =
          (Ok {| vr_passed := false; syntax_error := None; runtime_error := None;
                 test_failure := None;
                 security_issue := Some ("Code contains insecure pattern: " +:+ snippet);
                 vr_error := None; vr_test_output := None |}, Sim.w0).
Proof.
  refine ((fun H => conj H (proj2 (static_screen_rejects_without_sandbox
                                     Sim.client_create Sim.client_delete Sim.codeRun false
                                     Sim.syntaxScript Sim.testsScript Sim.JSON_parse
                                     Sim.JSON_stringify Sim.Date_new
                                     Sim.evil_rule Sim.w0) H)) _).
  vm_compute; reflexivity.
Defined.



(** C8 refuted. On a disk with eight bytes left, [saveRules] for firm
    Acme issues one write straight onto the firm's file and throws; the
    file then holds the first eight bytes of the new document: neither
    the new document nor the prior one. No rename takes place. *)
Lemma torn_write_counterexample :
  exists out w' doc,
    Sim.saveRules "Acme" [Sim.deny_rule] 1 Sim.w_full = (out, w')
    /\ out = Throw "ENOSPC: no space left on device, write"
    /\ disk_changes (log w') = [EvWrite "rules/dynamic/acme_rules.json" doc]
    /\ Sim.files (ext Sim.w_full) !! "rules/dynamic/acme_rules.json"
       = Some "{ firm_name: Acme, rules:  }"
    /\ Sim.files (ext w') !! "rules/dynamic/acme_rules.json" = Some "{ firm_n"
    /\ "{ firm_n" <> doc
    /\ "{ firm_n" <> "{ firm_name: Acme, rules:  }".
Proof.
  eexists _, _, _. split; [vm_compute; reflexivity|].
  repeat split; try (vm_compute; reflexivity); discriminate.
Defined.

(** The analyst asks about Apple against three stored rules: a rule that
    denies without giving a reason, a rule for bankers only, and a rule
    that crashes. *)
Example evaluation_run :
  fst (Sim.checkCompliance "Meridian" Sim.analyst Sim.apple "2025-11-19"
         (Sim.w_cached [Sim.deny_rule; Sim.banker_rule; Sim.failing_rule]))
  = Ok {| allowed := false;
          reasons := [JStr ("Rule Crashing rule execution failed: "
                            +:+ "Python exited with code 1: ValueError: boom")];
          policy_refs := ["Section 1"; "Section 3"];
          rules_checked := ["Restricted list"; "Crashing rule"] |}.
Proof. vm_compute. reflexivity. Qed.

(** C1 refuted. A bundle whose only rule returns [{"allowed": false}]
    with no reason yields a verdict with [allowed = false] and an empty
    [reasons] list although no rule raised. *)
Lemma denial_without_reason_counterexample :
  exists verdict w2,
    Sim.checkCompliance "Meridian" Sim.analyst Sim.apple "2025-11-19"
      (Sim.w_cached [Sim.deny_rule]) = (Ok verdict, w2)
    /\ fst (Executor.outcomes Sim.runPythonCode Sim.JSON_parse Sim.analyst Sim.apple
              "2025-11-19" [Sim.deny_rule] (Sim.w_cached [Sim.deny_rule]))
       = [(Sim.deny_rule, Ok (JObj [("allowed", JBool false)]))]
    /\ allowed verdict = false
    /\ reasons verdict = []
    /\ ~ (allowed verdict = false <->
          reasons verdict <> []
          \/ exists r detail,
               In (r, Throw detail)
                  (fst (Executor.outcomes Sim.runPythonCode Sim.JSON_parse Sim.analyst
                          Sim.apple "2025-11-19" [Sim.deny_rule]
                          (Sim.w_cached [Sim.deny_rule])))).
Proof.
  eexists _, _. split; [vm_compute; reflexivity|].
  split; [vm_compute; reflexivity|].
  split; [reflexivity|]. split; [reflexivity|].
  intros [Hfwd _]. destruct (Hfwd eq_refl) as [Hne | (r & detail & Hin)].
  - now apply Hne.
  - vm_compute in Hin. destruct Hin as [Hin | []]. discriminate.
Defined.

(** Witness of the amended C1 on the same run. *)
Lemma verdict_denied_witness :
  exists verdict w2,
    Sim.checkCompliance "Meridian" Sim.analyst Sim.apple "2025-11-19"
      (Sim.w_cached [Sim.deny_rule]) = (Ok verdict, w2)
    /\ (allowed verdict = false <-> policy_refs verdict <> [])
    /\ (reasons verdict <> [] -> allowed verdict = false)
    /\ (forall stored w1,
          Sim.loadRules "Meridian" (Sim.w_cached [Sim.deny_rule])
          = (Ok (Some stored), w1) ->
          let os := fst (Executor.outcomes Sim.runPythonCode Sim.JSON_parse Sim.analyst
                           Sim.apple "2025-11-19" (rules stored) w1) in
          (allowed verdict = false <->
           exists r o, In (r, o) os /\ (denied o \/ exists detail, raised o detail))
          /\ ((exists r detail, In (r, Throw detail) os) ->
              allowed verdict = false /\ reasons verdict <> [])).
Proof.
  eexists _, _.
  refine ((fun H => conj H (verdict_denied_iff_rule_blocked
                              Sim.runPythonCode Sim.JSON_parse Sim.loadRules
                              "Meridian" Sim.analyst Sim.apple "2025-11-19"
                              (Sim.w_cached [Sim.deny_rule]) _ _ H)) _).
  vm_compute; reflexivity.
Defined.

(** Witness of C3: the bankers' rule is skipped for the analyst, the
    other two run in stored order although the first one denies. *)
Lemma applicable_rules_witness :
  exists stored w1,
    Sim.loadRules "Meridian"
      (Sim.w_cached [Sim.deny_rule; Sim.banker_rule; Sim.failing_rule])
    = (Ok (Some stored), w1)
    /\ exists verdict w2,
         Sim.checkCompliance "Meridian" Sim.analyst Sim.apple "2025-11-19"
           (Sim.w_cached [Sim.deny_rule; Sim.banker_rule; Sim.failing_rule])
         = (Ok verdict, w2)
         /\ rules_run (log w2)
            = rules_run (log w1)
              ++ (payload_for Sim.analyst Sim.apple "2025-11-19"
                    <$> List.filter (applies Sim.analyst) (rules stored))
         /\ rules_checked verdict
            = rule_name <$> List.filter (applies Sim.analyst) (rules stored)
         /\ (forall r, applies Sim.analyst r = true <->
                       active r = true
                       /\ (applies_to_roles r = []
                           \/ In (role Sim.analyst) (applies_to_roles r))).
Proof.
  eexists _, _.
  refine ((fun H => conj H (applicable_rules_invoked_in_order
                              Sim.runPythonCode Sim.JSON_parse Sim.loadRules
                              "Meridian" Sim.analyst Sim.apple "2025-11-19"
                              (Sim.w_cached [Sim.deny_rule; Sim.banker_rule;
                                             Sim.failing_rule]) _ _ H)) _).
  vm_compute; reflexivity.
Defined.

(** Witness of C4: the crashing rule denies the trade and leaves its
    synthetic reason and policy reference. *)
Lemma execution_failure_witness :
  exists stored w1,
    Sim.loadRules "Meridian" (Sim.w_cached [Sim.failing_rule])
    = (Ok (Some stored), w1)
    /\ exists verdict w2,
         Sim.checkCompliance "Meridian" Sim.analyst Sim.apple "2025-11-19"
           (Sim.w_cached [Sim.failing_rule]) = (Ok verdict, w2)
         /\ forall r detail,
              In (r, Throw detail)
                 (fst (Executor.outcomes Sim.runPythonCode Sim.JSON_parse Sim.analyst
                         Sim.apple "2025-11-19" (rules stored) w1)) ->
              allowed verdict = false
              /\ In (JStr ("Rule " +:+ rule_name r +:+ " execution failed: " +:+ detail))
                    (reasons verdict)
              /\ In (policy_reference r) (policy_refs verdict).
Proof.
  eexists _, _.
  refine ((fun H => conj H (proj1 (execution_failure_denies
                                     Sim.runPythonCode Sim.JSON_parse Sim.loadRules
                                     "Meridian" Sim.analyst Sim.apple "2025-11-19"
                                     (Sim.w_cached [Sim.failing_rule]) _ _ H))) _).
  vm_compute; reflexivity.
Defined.

(** Witness of C10: on the shipped demo data the id [" emp002 "], in
    lower case and between blanks, finds the employee stored as
    [Emp002], as does the id ["EMP002"]. *)
Lemma employee_lookup_witness :
  exists data w1 emp,
    Sim.loadDemoData Sim.w_demo = (Ok data, w1)
    /\ Sim.getEmployeeById " emp002 " Sim.w_demo = (Ok (Some emp), w1)
    /\ id emp = Some "Emp002"
    /\ (exists employees,
          demo_employees data = Some employees
          /\ In emp employees
          /\ List.find (DemoDataService.id_matches "EMP002") employees = Some emp)
    /\ Sim.getEmployeeById "EMP002" Sim.w_demo
       = Sim.getEmployeeById " emp002 " Sim.w_demo.
Proof.
  eexists _, _, _.
  split; [vm_compute; reflexivity|].
  split; [vm_compute; reflexivity|].
  split; [vm_compute; reflexivity|].
  pose proof (employee_lookup_normalizes
                Sim.DATA_PATH Sim.file_exists Sim.file_text Sim.JSON_parse_demo
                " emp002 " Sim.w_demo) as (_ & Hfound & _ & Hsame).
  split.
  - assert (Hne : " emp002 " <> "") by discriminate.
    assert (Hascii : ascii_only " emp002 " = true) by reflexivity.
    destruct (Hfound _ _ Hne Hascii ltac:(vm_compute; reflexivity)
                ltac:(unfold ascii_ids; simpl; repeat constructor))
      as (found & Hrun & Hwhich).
    vm_compute in Hrun. injection Hrun as <-.
    cbv beta iota in Hwhich.
    destruct Hwhich as (employees & i & Hdata & Hin & _ & _ & Hfind).
    exists employees. split; [exact Hdata|]. split; [exact Hin | exact Hfind].
  - apply Hsame; try discriminate; try reflexivity.
    right. right. reflexivity.
Defined.

(** C10 refuted on the ids [""] and [" "], which differ only in
    surrounding white space and agree after trimming. Over demo data
    holding an employee whose id is the empty string, the empty id is
    answered [null] and the blank id finds that employee; with no data
    file on the disk, the empty id is answered [null] and the blank id
    throws. *)
Lemma blank_id_counterexample :
  JS.trim " " = JS.trim ""
  /\ JS.toUpperCase (JS.trim " ") = JS.toUpperCase (JS.trim "")
  /\ fst (BlankIdSim.getEmployeeById "" BlankIdSim.w_blank) = Ok None
  /\ fst (BlankIdSim.getEmployeeById " " BlankIdSim.w_blank)
     = Ok (Some BlankIdSim.contractor)
  /\ fst (BlankIdSim.getEmployeeById "" BlankIdSim.w_blank)
     <> fst (BlankIdSim.getEmployeeById " " BlankIdSim.w_blank)
  /\ fst (Sim.getEmployeeById "" Sim.w0) = Ok None
  /\ fst (Sim.getEmployeeById " " Sim.w0)
     = Throw ("demo_data_simple.json not found at " +:+ Sim.DATA_PATH).
Proof.
  repeat split; try (vm_compute; reflexivity).
  intros Hsame. vm_compute in Hsame. discriminate Hsame.
Defined.

Example employee_lookup_run :
  fst (Sim.getEmployeeById " emp002 " Sim.w_demo)
  = fst (Sim.getEmployeeById "EMP002" Sim.w_demo)
  /\ fst (Sim.getEmployeeById "" Sim.w_demo) = Ok None
  /\ fst (Sim.getEmployeeById "EMP999" Sim.w_demo) = Ok None.
Proof. vm_compute. auto. Qed.

(** A validation of well-formed code provisions one sandbox, runs the two
    programs in it and deletes it; a rejected draft provisions none. *)
Example validation_runs :
  fst (Sim.daytona_validateRule Sim.deny_rule Sim.w0)
  = Ok {| vr_passed := true; syntax_error := None; runtime_error := None;
          test_failure := None; security_issue := None; vr_error := None;
          vr_test_output := Some Sim.deny_stdout |}
  /\ log (snd (Sim.daytona_validateRule Sim.deny_rule Sim.w0))
     = [EvSandboxCreate;
        EvCodeRun (Sim.syntaxScript (python_code Sim.deny_rule)) 60;
        EvClock;
        EvCodeRun "functional-run" 120;
        EvSandboxDelete]
  /\ Validator.sandboxes_created (log (snd (Sim.daytona_validateRule Sim.deny_rule Sim.w0))) = 1
  /\ Validator.sandboxes_created (log (snd (Sim.daytona_validateRule Sim.evil_rule Sim.w0))) = 0.
Proof. vm_compute. auto. Qed.

(** The harness parses only well-formed calendar dates. *)
Example fromisoformat_examples :
  fromisoformat (fun _ => None) "2025-11-20" = Some (PyDatetime 2025 11 20)
  /\ fromisoformat (fun _ => None) "2025-02-30" = None
  /\ fromisoformat (fun _ => None) "2024-02-29" = Some (PyDatetime 2024 2 29)
  /\ _parse_date (fun _ => None) (PyStr "soon") = PyStr "soon".
Proof. vm_compute. auto. Qed.

(* ===================================================================== *)
(** * Further properties of the services                                 *)
(* ===================================================================== *)

(** ** Generic facts about the effect layer *)

Section EffectFacts.
Context {Ext : Type}.

Lemma bind_inv {A B} (m : M Ext A) (k : A -> M Ext B) (w w' : World Ext) out :
  bind m k w = (out, w') ->
  (exists a w1, m w = (Ok a, w1) /\ k a w1 = (out, w'))
  \/ (exists msg, m w = (Throw msg, w') /\ out = Throw msg)
  \/ (m w = (OutOfFuel, w') /\ out = OutOfFuel).
Proof.
  unfold bind. destruct (m w) as [[a|msg|] w1]; intros H.
  - left. eauto.
  - injection H as <- <-. right. left. eauto.
  - injection H as <- <-. right. right. eauto.
Qed.

Lemma call_inv {A} (ev : Event) (f : Ext -> Outcome A * Ext) (w w' : World Ext) out :
  call ev f w = (out, w') ->
  out = settle (fst (f (ext w))) /\ w' = after_call w (snd (f (ext w))) ev.
Proof.
  unfold call. destruct (f (ext w)) as [r e]. intros [= <- <-]. auto.
Qed.

Lemma clock_inv (f : Ext -> DateReading * Ext) (w w' : World Ext) out :
  clock f w = (out, w') ->
  out = Ok (fst (f (ext w))) /\ w' = after_call w (snd (f (ext w))) EvClock.
Proof.
  unfold clock. destruct (f (ext w)) as [r e]. intros [= <- <-]. auto.
Qed.

Lemma settle_not_fuel {A} (o : Outcome A) : settle o <> OutOfFuel.
Proof. destruct o; discriminate. Qed.

End EffectFacts.

Section ValidatorMore.
Context {Ext : Type}.
Variable client_create : Ext -> Outcome Sandbox * Ext.
Variable client_delete : Sandbox -> Ext -> Outcome unit * Ext.
Variable codeRun : Sandbox -> string -> nat -> Ext -> Outcome ExecResult * Ext.
Variable preserveSandbox : bool.
Variable syntaxScript : string -> string.
Variable testsScript : JSValue -> string.
Variable JSON_parse : string -> string + JSValue.
Variable JSON_stringify : JSValue -> string.
Variable Date_new : Ext -> DateReading * Ext.

Local Abbreviation validateRule :=
  (Validator.validateRule client_create client_delete codeRun preserveSandbox
     syntaxScript testsScript JSON_parse JSON_stringify Date_new).
Local Abbreviation checkSyntax := (Validator.checkSyntax codeRun syntaxScript).
Local Abbreviation runTests :=
  (Validator.runTests codeRun testsScript JSON_parse JSON_stringify Date_new).
Local Abbreviation cleanup := (Validator.cleanup client_delete preserveSandbox).

Lemma checkSyntax_spec (sb : Sandbox) (code : string) (w w' : World Ext) out :
  checkSyntax sb code w = (out, w') ->
  log w' = log w ++ [EvCodeRun (syntaxScript code) 60]
  /\ cache w' = cache w
  /\ out <> OutOfFuel
  /\ forall r, out = Ok r ->
       if fst r then snd r = None else snd r <> None.
Proof.
  unfold Validator.checkSyntax. intros H.
  apply bind_inv in H as [(res & w1 & Hc & Hk) | [(msg & Hc & ->) | [Hc ->]]];
    apply call_inv in Hc as [Hs ->]; simpl.
  - injection Hk as <- <-. simpl. repeat split; try discriminate.
    intros r [= <-]. simpl. destruct (JS.includes _ _); [reflexivity | discriminate].
  - repeat split; discriminate.
  - now apply eq_sym, settle_not_fuel in Hs.
Qed.

Lemma runTests_spec (sb : Sandbox) (rule : Rule) (w w' : World Ext) out :
  runTests sb rule w = (out, w') ->
  (exists script, log w' = log w ++ [EvClock; EvCodeRun script 120])
  /\ cache w' = cache w
  /\ out <> OutOfFuel
  /\ forall vr, out = Ok vr -> one_kind vr /\ security_issue vr = None.
Proof.
  unfold Validator.runTests. intros H.
  apply bind_inv in H as [(now & w1 & Hc & Hk) | [(msg & Hc & ->) | [Hc ->]]];
    apply clock_inv in Hc as [Hs ->]; try discriminate.
  apply bind_inv in Hk as [(res & w2 & Hc & Hk) | [(msg & Hc & ->) | [Hc ->]]];
    apply call_inv in Hc as [Hs' ->]; simpl.
  - assert (Hlog : log w' = (log w ++ [EvClock])
                             ++ [EvCodeRun (testsScript (tests_payload rule
                                   (slice (toISOString now) 0 10))) 120]
                   /\ cache w' = cache w
                   /\ out <> OutOfFuel
                   /\ forall vr, out = Ok vr -> one_kind vr /\ security_issue vr = None).
    { assert (Hfin : forall v : ValidationResult,
                 (one_kind v /\ security_issue v = None) ->
                 (Ok v, after_call (after_call w (Date_new (ext w)).2 EvClock)
                          (codeRun sb (testsScript (tests_payload rule
                             (slice (toISOString now) 0 10))) 120
                             (Date_new (ext w)).2).2
                          (EvCodeRun (testsScript (tests_payload rule
                             (slice (toISOString now) 0 10))) 120)) = (out, w') ->
                 log w' = (log w ++ [EvClock])
                          ++ [EvCodeRun (testsScript (tests_payload rule
                                (slice (toISOString now) 0 10))) 120]
                 /\ cache w' = cache w
                 /\ out <> OutOfFuel
                 /\ forall vr, out = Ok vr -> one_kind vr /\ security_issue vr = None).
      { intros v Hv [= <- <-]. simpl. split; [reflexivity|]. split; [reflexivity|].
        split; [discriminate|]. now intros vr [= <-]. }
      destruct (negb (exitCode res =? 0)%Z).
      { eapply Hfin; [|exact Hk]. unfold one_kind; simpl; auto. }
      destruct (negb (JS.truthy_opt _)).
      { eapply Hfin; [|exact Hk]. unfold one_kind; simpl; auto. }
      destruct (JSON_parse _) as [msg|parsed].
      { eapply Hfin; [|exact Hk]. unfold one_kind; simpl; auto. }
      destruct parsed; simpl in Hk;
        try destruct (assoc "allowed" props) as [[]|]; simpl in Hk;
        (eapply Hfin; [|exact Hk]); unfold one_kind; simpl; auto.
      all: repeat split; auto; discriminate. }
    destruct Hlog as (Hl & Hrest). split; [|exact Hrest].
    eexists. rewrite Hl, <- app_assoc. reflexivity.
  - split; [eexists; rewrite <- app_assoc; reflexivity|].
    repeat split; discriminate.
  - now apply eq_sym, settle_not_fuel in Hs'.
Qed.

Lemma cleanup_spec (sb : Sandbox) (w w' : World Ext) out :
  cleanup sb w = (out, w') ->
  out = Ok tt
  /\ log w' = log w ++ (if preserveSandbox then [] else [EvSandboxDelete])
  /\ cache w' = cache w.
Proof.
  unfold Validator.cleanup. destruct preserveSandbox.
  - intros [= <- <-]. now rewrite app_nil_r.
  - unfold try_catch, call. destruct (client_delete sb (ext w)) as [[[]|msg] e];
      simpl; intros [= <- <-]; auto.
Qed.
Lemma count_ev_app (p : Event -> bool) (l1 l2 : list Event) :
  count_ev p (l1 ++ l2) = count_ev p l1 + count_ev p l2.
Proof. unfold count_ev. now rewrite List.filter_app, length_app. Qed.

(** Everything a run of [validateRule] does, by what the screen and the
    sandbox creation answer. *)
Lemma validateRule_master (rule : Rule) (w w' : World Ext) out :
  validateRule rule w = (out, w') ->
  exists vr evs,
    out = Ok vr /\ one_kind vr
    /\ log w' = log w ++ evs /\ cache w' = cache w
    /\ (if safe (checkSecurity (python_code rule)) then
          match fst (client_create (ext w)) with
          | Resolves _ =>
              exists mid,
                evs = EvSandboxCreate :: mid
                      ++ (if preserveSandbox then [] else [EvSandboxDelete])
                /\ count_ev is_create mid = 0 /\ count_ev is_delete mid = 0
          | Rejects _ => evs = [EvSandboxCreate] /\ vr_passed vr = false
          end
        else evs = [] /\ vr_passed vr = false).
Proof.
  unfold Validator.validateRule. intros H.
  destruct (safe (checkSecurity (python_code rule))) eqn:Hsafe; simpl in H.
  2:{ injection H as <- <-.
      destruct (checkSecurity_loop_reason (JS.toLowerCase (python_code rule))
                  DANGEROUS_SNIPPETS Hsafe) as (sn & _ & _ & Hr).
      fold (checkSecurity (python_code rule)) in Hr.
      eexists _, []. rewrite app_nil_r.
      split; [reflexivity|]. split; [|auto].
      unfold one_kind.
      cbv [vr_passed error_fields syntax_error runtime_error test_failure
           security_issue vr_error vr_test_output].
      rewrite Hr. simpl. auto. }
  unfold call at 1 in H.
  destruct (client_create (ext w)) as [[sb|msg] e1]; simpl in H.
  2:{ injection H as <- <-. eexists _, _. simpl.
      split; [reflexivity|]. unfold one_kind; simpl. auto. }
  apply bind_inv in H as [(outcome & w2 & Htry & Hk) | [(msg & Htry & ->) | [Htry ->]]].
  - apply bind_inv in Hk as [([] & w3 & Hclean & Hk) | [(msg & Hclean & ->) | [Hclean ->]]];
      apply cleanup_spec in Hclean as (Hout & Hlog3 & Hcache3); try discriminate.
    injection Hk as <- <-.
    assert (Hbody : one_kind outcome /\ cache w2 = cache w
                    /\ exists mid, log w2 = (log w ++ [EvSandboxCreate]) ++ mid
                                   /\ count_ev is_create mid = 0
                                   /\ count_ev is_delete mid = 0).
    { unfold try_catch in Htry.
      match type of Htry with
      | (match ?body ?w0 with _ => _ end) = _ => destruct (body w0) as [o wb] eqn:Hbody
      end.
      apply bind_inv in Hbody
        as [(sr & w4 & Hsyn & Hk) | [(msg & Hsyn & ->) | [Hsyn ->]]];
        apply checkSyntax_spec in Hsyn as (Hl4 & Hc4 & Hne4 & Hsr); try congruence.
      - destruct sr as [valid err]. specialize (Hsr _ eq_refl). simpl in *.
        destruct valid; simpl in Hk.
        + apply bind_inv in Hk
            as [(rr & w5 & Hrun & Hk) | [(msg & Hrun & ->) | [Hrun ->]]];
            apply runTests_spec in Hrun as ((script & Hl5) & Hc5 & Hne5 & Hrr);
            try congruence.
          * destruct (Hrr _ eq_refl) as [Hkind Hsec].
            assert (Hev : exists mid, log w5 = (log w ++ [EvSandboxCreate]) ++ mid
                                      /\ count_ev is_create mid = 0
                                      /\ count_ev is_delete mid = 0).
            { eexists. rewrite Hl5, Hl4. simpl. rewrite <- app_assoc.
              split; [reflexivity | split; reflexivity]. }
            destruct (vr_passed rr) eqn:Hp; simpl in Hk; injection Hk as <- <-;
              injection Htry as <- <-.
            -- split; [|split; [simpl in *; congruence | exact Hev]].
               unfold one_kind in *. rewrite Hp in Hkind. simpl.
               destruct Hkind as [Hf Ho]. unfold error_fields, present_fields in Hf.
               simpl in Hf.
               destruct (syntax_error rr), (runtime_error rr), (test_failure rr),
                 (security_issue rr), (vr_error rr); simpl in Hf; try discriminate.
               auto.
            -- split; [exact Hkind | split; [simpl in *; congruence | exact Hev]].
          * injection Htry as <- <-. split; [unfold one_kind; simpl; auto|].
            split; [simpl in *; congruence|].
            eexists. rewrite Hl5, Hl4. simpl. rewrite <- app_assoc.
            split; [reflexivity | split; reflexivity].
        + injection Hk as <- <-. injection Htry as <- <-.
          split; [unfold one_kind; simpl; destruct err; [auto | congruence]|].
          split; [simpl in *; congruence|].
          eexists. rewrite Hl4. simpl. split; [reflexivity | split; reflexivity].
      - injection Htry as <- <-. split; [unfold one_kind; simpl; auto|].
        split; [simpl in *; congruence|].
        eexists. rewrite Hl4. simpl. split; [reflexivity | split; reflexivity]. }
    destruct Hbody as (Hkind & Hc2 & mid & Hl2 & Hcr & Hdel).
    eexists outcome, _. split; [reflexivity|]. split; [exact Hkind|].
    split; [rewrite Hlog3, Hl2, <- !app_assoc; reflexivity|].
    split; [congruence|].
    exists mid. auto.
  - exfalso. unfold try_catch in Htry.
    match type of Htry with
    | (match ?body ?w0 with _ => _ end) = _ => destruct (body w0) as [[o|m|] wb]
    end; discriminate.
  - exfalso. unfold try_catch in Htry.
    match type of Htry with
    | (match ?body ?w0 with _ => _ end) = _ => destruct (body w0) as [[o|m|] wb] eqn:Hbody
    end; try discriminate.
    apply bind_inv in Hbody
      as [(sr & w4 & Hsyn & Hk) | [(msg & Hsyn & Hx) | [Hsyn Hx]]];
      apply checkSyntax_spec in Hsyn as (Hl4 & Hc4 & Hne4 & Hsr); try congruence.
    destruct (negb (fst sr)); [discriminate|].
    apply bind_inv in Hk
      as [(rr & w5 & Hrun & Hk) | [(msg & Hrun & Hx) | [Hrun Hx]]];
      apply runTests_spec in Hrun as (_ & Hc5 & Hne5 & Hrr); try congruence.
    destruct (negb (vr_passed rr)); discriminate.
Qed.
(** X1. [validateRule] never throws: whatever the sandbox service does,
    it returns a result, and the result is of exactly one kind -- passed
    with its test output and no error field, or failed with exactly one
    of the five error fields set and no test output. *)
Theorem validateRule_returns_one_kind (rule : Rule) (w : World Ext) :
  exists vr,
    fst (validateRule rule w) = Ok vr
    /\ (if vr_passed vr
        then present_fields (error_fields vr) = 0 /\ vr_test_output vr <> None
        else present_fields (error_fields vr) = 1 /\ vr_test_output vr = None).
Proof.
  destruct (validateRule rule w) as [out w'] eqn:Hrun.
  apply validateRule_master in Hrun as (vr & evs & -> & Hkind & _).
  exists vr. split; [reflexivity | exact Hkind].
Qed.

(** X2. One validation provisions at most one sandbox and leaves the
    storage cache alone. When the sandbox was created and preservation
    is off, the last external call of the validation is the deletion of
    that sandbox and it is the only deletion, whichever way the two
    program runs ended; with preservation on, no deletion is issued; when
    the creation was rejected there is nothing to delete and the
    validation fails. *)
Theorem validateRule_sandbox_lifecycle (rule : Rule) (w : World Ext) :
  let w' := snd (validateRule rule w) in
  exists evs,
    log w' = log w ++ evs
    /\ cache w' = cache w
    /\ count_ev is_create evs <= 1
    /\ count_ev is_delete evs <= count_ev is_create evs
    /\ (preserveSandbox = true -> count_ev is_delete evs = 0)
    /\ (forall sb,
          safe (checkSecurity (python_code rule)) = true ->
          fst (client_create (ext w)) = Resolves sb ->
          preserveSandbox = false ->
          count_ev is_create evs = 1
          /\ count_ev is_delete evs = 1
          /\ last evs = Some EvSandboxDelete)
    /\ (forall msg,
          safe (checkSecurity (python_code rule)) = true ->
          fst (client_create (ext w)) = Rejects msg ->
          evs = [EvSandboxCreate]
          /\ exists vr, fst (validateRule rule w) = Ok vr /\ vr_passed vr = false).
Proof.
  intros w'. subst w'.
  destruct (validateRule rule w) as [out w'] eqn:Hrun. simpl.
  apply validateRule_master in Hrun as (vr & evs & -> & _ & Hlog & Hcache & Hshape).
  exists evs. split; [exact Hlog|]. split; [exact Hcache|].
  destruct (safe (checkSecurity (python_code rule))).
  - destruct (fst (client_create (ext w))) as [sb|msg].
    + destruct Hshape as (mid & -> & Hc & Hd).
      change (EvSandboxCreate :: mid ++ (if preserveSandbox then [] else [EvSandboxDelete]))
        with ([EvSandboxCreate] ++ mid ++ (if preserveSandbox then [] else [EvSandboxDelete])).
      rewrite !count_ev_app, Hc, Hd.
      destruct preserveSandbox; simpl.
      * split; [unfold count_ev; simpl; lia|]. split; [unfold count_ev; simpl; lia|].
        split; [intros _; unfold count_ev; simpl; lia|]. split.
        -- intros sb' _ _ Hp. discriminate Hp.
        -- intros m _ Hm. discriminate Hm.
      * split; [unfold count_ev; simpl; lia|]. split; [unfold count_ev; simpl; lia|].
        split; [intros Hp; discriminate Hp|]. split.
        -- intros sb' _ _ _. split; [reflexivity|]. split; [reflexivity|].
           rewrite app_comm_cons. apply last_snoc.
        -- intros m _ Hm. discriminate Hm.
    + destruct Hshape as [-> Hfail]. unfold count_ev; simpl.
      split; [lia|]. split; [lia|]. split; [reflexivity|]. split.
      * intros sb _ Hs. discriminate Hs.
      * intros m _ _. split; [reflexivity|]. eauto.
  - destruct Hshape as [-> Hfail]. unfold count_ev; simpl.
    split; [lia|]. split; [lia|]. split; [reflexivity|].
    split; [intros sb Hs; discriminate Hs | intros m Hs; discriminate Hs].
Qed.

End ValidatorMore.

(** ** Strings, continued *)

Lemma app_length (s t : string) : String.length (s +:+ t) = String.length s + String.length t.
Proof. induction s as [|c s IH]; [reflexivity|]. rewrite app_cons. simpl. now rewrite IH. Qed.

Lemma app_assoc_s (s t u : string) : (s +:+ t) +:+ u = s +:+ (t +:+ u).
Proof. induction s as [|c s IH]; [reflexivity|]. rewrite !app_cons. now rewrite IH. Qed.

Lemma app_empty_r (s : string) : s +:+ "" = s.
Proof. induction s as [|c s IH]; [reflexivity|]. rewrite app_cons. now rewrite IH. Qed.

Lemma take_drop (i : nat) (s : string) : JS.take i s +:+ JS.drop i s = s.
Proof.
  revert s; induction i as [|i IH]; intros [|c s]; try reflexivity.
  simpl. rewrite app_cons. now rewrite IH.
Qed.

Lemma drop_drop (a b : nat) (s : string) : JS.drop b (JS.drop a s) = JS.drop (a + b) s.
Proof.
  revert s; induction a as [|a IH]; intros s; [reflexivity|].
  destruct s as [|c s]; simpl; [now destruct b | apply IH].
Qed.

Lemma drop_app_le (k : nat) (a b : string) :
  k <= String.length a -> JS.drop k (a +:+ b) = JS.drop k a +:+ b.
Proof.
  revert a; induction k as [|k IH]; intros a Hk; [reflexivity|].
  destruct a as [|c a]; simpl in Hk; [lia|].
  rewrite app_cons. simpl. apply IH. lia.
Qed.

Lemma drop_length_app (a b : string) : JS.drop (String.length a) (a +:+ b) = b.
Proof. induction a as [|c a IH]; [reflexivity|]. rewrite app_cons. exact IH. Qed.

Lemma indexOf_Some (s needle : string) :
  forall i, JS.indexOf s needle = Some i ->
            exists post, JS.drop i s = needle +:+ post.
Proof.
  induction s as [|c s IH]; intros i; simpl.
  - destruct (JS.startsWith "" needle) eqn:Hs; [|discriminate].
    intros [= <-]. now apply startsWith_iff.
  - destruct (JS.startsWith (String c s) needle) eqn:Hs.
    + intros [= <-]. now apply startsWith_iff.
    + destruct (JS.indexOf s needle) as [j|]; [|discriminate].
      intros [= <-]. simpl. now apply IH.
Qed.

Lemma indexOf_None_includes (s needle : string) :
  JS.indexOf s needle = None <-> JS.includes s needle = false.
Proof.
  induction s as [|c s IH]; simpl.
  - destruct (JS.startsWith "" needle); simpl; split; congruence.
  - destruct (JS.startsWith (String c s) needle); simpl; [split; congruence|].
    rewrite <- IH. destruct (JS.indexOf s needle); simpl; split; congruence.
Qed.

Lemma indexOf_None (s needle : string) :
  JS.indexOf s needle = None <-> ~ occurs_in needle s.
Proof.
  rewrite indexOf_None_includes, <- includes_iff.
  destruct (JS.includes s needle); split; congruence.
Qed.

(** [indexOf] finds the first occurrence. *)
Lemma indexOf_first (pre needle post : string) :
  exists i, JS.indexOf (pre +:+ needle +:+ post) needle = Some i
            /\ i <= String.length pre.
Proof.
  induction pre as [|c pre IH].
  - exists 0. rewrite app_empty. split; [|simpl; lia].
    assert (Hs : JS.startsWith (needle +:+ post) needle = true)
      by (apply startsWith_iff; eauto).
    destruct (needle +:+ post); simpl; simpl in Hs; now rewrite Hs.
  - rewrite app_cons. simpl.
    destruct (JS.startsWith _ needle).
    + exists 0. split; [reflexivity | lia].
    + destruct IH as (i & -> & Hi). exists (S i). split; [reflexivity | lia].
Qed.

(** X3. [extractBetween] answers exactly when the content holds the start
    marker followed, somewhere later, by the end marker; what it returns
    is the trimmed text standing between a start marker and an end
    marker of the content. It returns [null] in particular whenever
    either marker is missing. *)
Theorem extractBetween_correct (content start end_ : string) :
  (forall out,
     extractBetween content start end_ = Some out ->
     exists pre mid post,
       content = pre +:+ start +:+ mid +:+ end_ +:+ post
       /\ out = JS.trim mid)
  /\ (extractBetween content start end_ <> None <->
      exists pre mid post, content = pre +:+ start +:+ mid +:+ end_ +:+ post)
  /\ (~ occurs_in start content \/ ~ occurs_in end_ content ->
      extractBetween content start end_ = None).
Proof.
  assert (Hsound : forall out,
             extractBetween content start end_ = Some out ->
             exists pre mid post,
               content = pre +:+ start +:+ mid +:+ end_ +:+ post
               /\ out = JS.trim mid).
  { unfold extractBetween, indexOf_from, slice. intros out.
    destruct (JS.indexOf content start) as [i|] eqn:Hi; [|discriminate].
    destruct (JS.indexOf (JS.drop (i + String.length start) content) end_)
      as [j|] eqn:Hj; simpl; [|discriminate].
    intros [= <-].
    apply indexOf_Some in Hi as [rest Hrest].
    apply indexOf_Some in Hj as [post Hpost].
    rewrite <- drop_drop, Hrest, drop_length_app in Hpost.
    exists (JS.take i content), (JS.take j rest), post.
    split.
    - rewrite <- Hpost, take_drop, <- Hrest. symmetry. apply take_drop.
    - f_equal. replace (i + String.length start + j - (i + String.length start)) with j by lia.
      now rewrite <- drop_drop, Hrest, drop_length_app. }
  assert (Hcomplete : forall pre mid post,
             content = pre +:+ start +:+ mid +:+ end_ +:+ post ->
             extractBetween content start end_ <> None).
  { intros pre mid post ->. unfold extractBetween, indexOf_from.
    destruct (indexOf_first pre start (mid +:+ end_ +:+ post)) as (i & -> & Hle).
    assert (Hocc : occurs_in end_
                     (JS.drop (i + String.length start)
                        (pre +:+ start +:+ mid +:+ end_ +:+ post))).
    { rewrite <- app_assoc_s.
      rewrite drop_app_le by (rewrite app_length; lia).
      exists (JS.drop (i + String.length start) (pre +:+ start) +:+ mid), post.
      now rewrite app_assoc_s. }
    destruct (JS.indexOf _ end_) eqn:Hj; simpl; [discriminate|].
    apply indexOf_None in Hj. contradiction. }
  split; [exact Hsound|]. split.
  - split.
    + destruct (extractBetween content start end_) as [out|] eqn:He; [|congruence].
      intros _. destruct (Hsound out eq_refl) as (pre & mid & post & -> & _). eauto.
    + intros (pre & mid & post & H). eapply Hcomplete, H.
  - intros Hmiss.
    destruct (extractBetween content start end_) as [out|] eqn:He; [|reflexivity].
    destruct (Hsound out eq_refl) as (pre & mid & post & -> & _).
    exfalso. destruct Hmiss as [Hn | Hn]; apply Hn.
    + exists pre, (mid +:+ end_ +:+ post). reflexivity.
    + exists (pre +:+ start +:+ mid), post. now rewrite !app_assoc_s.
Qed.

(** ** Feedback composed for the generator *)

Lemma concat_occurs (sep x : string) (l : list string) :
  In x l -> occurs_in x (String.concat sep l).
Proof.
  induction l as [|y l IH]; [intros []|].
  intros [-> | Hin].
  - destruct l as [|z l]; simpl.
    + exists "", "". now rewrite app_empty, app_empty_r.
    + exists "", (sep +:+ String.concat sep (z :: l)). now rewrite app_empty.
  - destruct l as [|z l]; [destruct Hin|].
    destruct (IH Hin) as (pre & post & Heq).
    exists (y +:+ sep +:+ pre), post.
    change (String.concat sep (y :: z :: l))
      with (y +:+ sep +:+ String.concat sep (z :: l)).
    now rewrite Heq, !app_assoc_s.
Qed.

Lemma concat_nonempty (sep : string) (l : list string) :
  l <> [] -> Forall (fun x => x <> "") l -> String.concat sep l <> "".
Proof.
  destruct l as [|x l]; [congruence|]. intros _ Hall.
  apply Forall_cons in Hall as [Hx _].
  destruct x as [|c x]; [congruence|].
  destruct l; simpl; discriminate.
Qed.

Lemma push_feedback_app (label : string) (field : option string) (l : list string) :
  push_feedback label field l
  = l ++ (if JS.truthy_opt field then [label +:+ JS.nullish field ""] else []).
Proof.
  unfold push_feedback. destruct (JS.truthy_opt field); [reflexivity|].
  now rewrite app_nil_r.
Qed.

Lemma labelled_nonempty (c : ascii) (label e : string) : String c label +:+ e <> "".
Proof. rewrite app_cons. discriminate. Qed.

Lemma truthy_opt_Some (e : string) : e <> "" -> JS.truthy_opt (Some e) = true.
Proof. destruct e; [congruence | reflexivity]. Qed.

Lemma createFeedbackForLLM_facts (v : ValidationResult) :
  let feedback := createFeedbackForLLM v in
  feedback <> ""
  /\ (forall e, syntax_error v = Some e -> e <> "" ->
                occurs_in ("Fix syntax issues: " +:+ e) feedback)
  /\ (forall e, runtime_error v = Some e -> e <> "" ->
                occurs_in ("Runtime failure: " +:+ e) feedback)
  /\ (forall e, test_failure v = Some e -> e <> "" ->
                occurs_in ("Logical/test failure: " +:+ e) feedback)
  /\ (forall e, security_issue v = Some e -> e <> "" ->
                occurs_in ("Security violation: " +:+ e) feedback)
  /\ (JS.truthy_opt (syntax_error v) = false ->
      JS.truthy_opt (runtime_error v) = false ->
      JS.truthy_opt (test_failure v) = false ->
      JS.truthy_opt (security_issue v) = false ->
      feedback = match vr_error v with
                 | Some (String c e) => "General validation error: " +:+ String c e
                 | _ => "Validation failed for unspecified reasons. Re-check rule robustness."
                 end).
Proof.
  intros feedback. subst feedback.
  pose (a1 := if JS.truthy_opt (syntax_error v)
              then ["Fix syntax issues: " +:+ JS.nullish (syntax_error v) ""] else []).
  pose (a2 := if JS.truthy_opt (runtime_error v)
              then ["Runtime failure: " +:+ JS.nullish (runtime_error v) ""] else []).
  pose (a3 := if JS.truthy_opt (test_failure v)
              then ["Logical/test failure: " +:+ JS.nullish (test_failure v) ""] else []).
  pose (a4 := if JS.truthy_opt (security_issue v)
              then ["Security violation: " +:+ JS.nullish (security_issue v) ""] else []).
  pose (L := ((([] ++ a1) ++ a2) ++ a3) ++ a4).
  pose (L' := if JS.truthy_opt (vr_error v) && (length L =? 0)%nat
              then L ++ ["General validation error: " +:+ JS.nullish (vr_error v) ""]
              else L).
  assert (Heq : createFeedbackForLLM v
                = JS.or_lit (Some (String.concat " " L'))
                    "Validation failed for unspecified reasons. Re-check rule robustness.").
  { unfold createFeedbackForLLM. rewrite !push_feedback_app. reflexivity. }
  rewrite Heq. clear Heq.
  assert (Hall : Forall (fun x => x <> "") L').
  { assert (HL : Forall (fun x => x <> "") L).
    { subst L a1 a2 a3 a4. repeat apply Forall_app_2.
      all: try match goal with |- Forall _ (if ?b then _ else _) => destruct b end.
      all: try apply Forall_nil_2.
      all: apply Forall_cons_2; [apply labelled_nonempty | apply Forall_nil_2]. }
    subst L'. destruct (_ && _); [|exact HL].
    apply Forall_app_2; [exact HL|].
    apply Forall_cons_2; [apply labelled_nonempty | apply Forall_nil_2]. }
  assert (Hres : L' <> [] -> JS.or_lit (Some (String.concat " " L'))
                   "Validation failed for unspecified reasons. Re-check rule robustness."
                 = String.concat " " L').
  { intros Hne. pose proof (concat_nonempty " " L' Hne Hall) as Hc.
    unfold JS.or_lit. destruct (String.concat " " L'); [congruence | reflexivity]. }
  assert (Hin : forall x, In x L -> occurs_in x
                  (JS.or_lit (Some (String.concat " " L'))
                     "Validation failed for unspecified reasons. Re-check rule robustness.")).
  { intros x Hx.
    assert (HxL' : In x L').
    { subst L'. destruct (_ && _); [apply in_or_app; now left | exact Hx]. }
    rewrite Hres by (intros Hnil; rewrite Hnil in HxL'; destruct HxL').
    now apply concat_occurs. }
  split; [|split; [|split; [|split; [|split]]]].
  - clear Hin. clearbody L'. destruct L' as [|x l].
    + simpl. discriminate.
    + rewrite Hres by discriminate. apply concat_nonempty; [discriminate | exact Hall].
  - intros e He Hne. apply Hin. subst L a1. rewrite He, (truthy_opt_Some e Hne).
    apply in_or_app; left. apply in_or_app; left. apply in_or_app; left.
    apply in_or_app; right. now left.
  - intros e He Hne. apply Hin. subst L a2. rewrite He, (truthy_opt_Some e Hne).
    apply in_or_app; left. apply in_or_app; left. apply in_or_app; right. now left.
  - intros e He Hne. apply Hin. subst L a3. rewrite He, (truthy_opt_Some e Hne).
    apply in_or_app; left. apply in_or_app; right. now left.
  - intros e He Hne. apply Hin. subst L a4. rewrite He, (truthy_opt_Some e Hne).
    apply in_or_app; right. now left.
  - intros H1 H2 H3 H4. subst L' L a1 a2 a3 a4. rewrite H1, H2, H3, H4. simpl.
    destruct (vr_error v) as [[|c e]|]; reflexivity.
Qed.

(** X4. The feedback handed to the generator is never empty. Each of the
    four specific failure fields that is set to a non-empty text appears
    in it under its label; the general error is quoted only when none of
    the four is set; and with nothing set the fixed retry nudge is
    returned. *)
Theorem feedback_never_empty_and_specific (v : ValidationResult) :
  let feedback := createFeedbackForLLM v in
  feedback <> ""
  /\ (forall e, syntax_error v = Some e -> e <> "" ->
                occurs_in ("Fix syntax issues: " +:+ e) feedback)
  /\ (forall e, runtime_error v = Some e -> e <> "" ->
                occurs_in ("Runtime failure: " +:+ e) feedback)
  /\ (forall e, test_failure v = Some e -> e <> "" ->
                occurs_in ("Logical/test failure: " +:+ e) feedback)
  /\ (forall e, security_issue v = Some e -> e <> "" ->
                occurs_in ("Security violation: " +:+ e) feedback)
  /\ (JS.truthy_opt (syntax_error v) = false ->
      JS.truthy_opt (runtime_error v) = false ->
      JS.truthy_opt (test_failure v) = false ->
      JS.truthy_opt (security_issue v) = false ->
      feedback = match vr_error v with
                 | Some (String c e) => "General validation error: " +:+ String c e
                 | _ => "Validation failed for unspecified reasons. Re-check rule robustness."
                 end).
Proof. exact (createFeedbackForLLM_facts v). Qed.

(** ** Refinement loop, continued *)

Section PipelineMore.
Context {Ext : Type}.
Variable regenerateRule : GenerationContext -> Ext -> Outcome (list Rule) * Ext.
Variable validateRule : Rule -> Ext -> Outcome ValidationResult * Ext.
Variable maxIterationsPerRule : nat.
Variable Date_new : Ext -> DateReading * Ext.

Local Abbreviation refine_loop :=
  (Pipeline.refine_loop regenerateRule validateRule maxIterationsPerRule Date_new).
Local Abbreviation validateAndRefineRule :=
  (Pipeline.validateAndRefineRule regenerateRule validateRule maxIterationsPerRule Date_new).

Lemma refine_loop_history (fuel : nat) (initialRule : Rule) (policyText firmName : string) :
  forall (attempt : nat) (cur : Rule) (w : World Ext) res w',
    rule_id cur = rule_id initialRule ->
    Forall failed_entry (validation_history cur) ->
    refine_loop fuel initialRule policyText firmName attempt cur w = (Ok res, w') ->
    rule_id (rule res) = rule_id initialRule
    /\ (validated res = true ->
        exists r entry e vr e',
          rule res = push_history entry r
          /\ Forall failed_entry (validation_history r)
          /\ passed_entry entry
          /\ validateRule r e = (Resolves vr, e')
          /\ vr_passed vr = true
          /\ last (List.filter is_validate (log w')) = Some (EvValidate r))
    /\ (validated res = false -> Forall failed_entry (validation_history (rule res))).
Proof.
  induction fuel as [|fuel IH]; intros attempt cur w res w' Hid Hhist Hrun;
    [discriminate|].
  simpl in Hrun.
  destruct (attempt <? maxIterationsPerRule)%nat.
  2:{ injection Hrun as <- <-. simpl. split; [exact Hid|]. split; [discriminate|auto]. }
  unfold bind at 1 in Hrun. unfold call at 1 in Hrun.
  destruct (validateRule (set_generation_attempt (attempt + 1) cur) (ext w))
    as [[vr|msg] e1] eqn:Hval; simpl in Hrun; [|discriminate].
  unfold bind at 1 in Hrun. unfold clock at 1 in Hrun. simpl in Hrun.
  destruct (Date_new e1) as [stamp e2] eqn:Hclock.
  match type of Hrun with
  | context [push_history ?e _] => set (entry := e) in Hrun
  end.
  destruct (vr_passed vr) eqn:Hpass.
  { injection Hrun as <- <-. simpl. split; [exact Hid|]. split; [|discriminate].
    intros _. exists (set_generation_attempt (attempt + 1) cur), entry, (ext w), vr, e1.
    split; [reflexivity|]. split; [exact Hhist|]. split; [split; reflexivity|].
    split; [exact Hval|]. split; [exact Hpass|].
    rewrite !List.filter_app. simpl. rewrite app_nil_r. apply last_snoc. }
  assert (Hentry : failed_entry entry).
  { split; [reflexivity|]. eexists. split; [reflexivity|].
    apply (createFeedbackForLLM_facts vr). }
  assert (Hhist' : Forall failed_entry
                     (validation_history
                        (push_history entry (set_generation_attempt (attempt + 1) cur)))).
  { simpl. apply Forall_app_2; [exact Hhist|]. now constructor. }
  destruct (maxIterationsPerRule <=? attempt + 1)%nat.
  { injection Hrun as <- <-. simpl. split; [exact Hid|]. split; [discriminate|].
    intros _. exact Hhist'. }
  unfold bind at 1 in Hrun. unfold call at 1 in Hrun. simpl in Hrun.
  match type of Hrun with
  | context [regenerateRule ?c e2] => destruct (regenerateRule c e2) as [[regen|msg] e3]
  end; simpl in Hrun; [|discriminate].
  destruct regen as [|nextRule rest].
  { injection Hrun as <- <-. simpl. split; [exact Hid|]. split; [discriminate|].
    intros _. exact Hhist'. }
  apply IH in Hrun; [exact Hrun | reflexivity | exact Hhist'].
Qed.

(** X5. Whatever [validateAndRefineRule] returns keeps the draft's
    [rule_id]. A validated result is the very rule the validator was
    last called on and accepted, extended by one passed history entry
    without feedback; every earlier entry is a failed attempt carrying
    non-empty feedback. A result that is not validated has only failed
    entries. *)
Theorem refinement_result_history (initialRule : Rule) (policyText firmName : string)
  (w w' : World Ext) (res : ValidationLoopResult) :
  validateAndRefineRule initialRule policyText firmName w = (Ok res, w') ->
  rule_id (rule res) = rule_id initialRule
  /\ (validated res = true ->
      exists r entry e vr e',
        rule res = push_history entry r
        /\ Forall failed_entry (validation_history r)
        /\ passed_entry entry
        /\ validateRule r e = (Resolves vr, e')
        /\ vr_passed vr = true
        /\ last (List.filter is_validate (log w')) = Some (EvValidate r))
  /\ (validated res = false -> Forall failed_entry (validation_history (rule res))).
Proof.
  unfold Pipeline.validateAndRefineRule. intros Hrun.
  apply refine_loop_history in Hrun; [exact Hrun | reflexivity | constructor].
Qed.

End PipelineMore.

(** ** Ingestion, continued *)

Section IngestionMore.
Context {Ext : Type}.
Variable generateRules : GenerationContext -> Ext -> Outcome (list Rule) * Ext.
Variable regenerateRule : GenerationContext -> Ext -> Outcome (list Rule) * Ext.
Variable validateRule : Rule -> Ext -> Outcome ValidationResult * Ext.
Variable maxIterationsPerRule : nat.
Variable Date_new : Ext -> DateReading * Ext.
Variable mkdirSync : string -> Ext -> Outcome unit * Ext.
Variable is_EEXIST : string -> bool.
Variable path_join : string -> string -> string.
Variable dirname : string -> string.
Variable Bun_write : string -> string -> Ext -> Outcome unit * Ext.
Variable JSON_stringify_data : RulesData -> string.
Variable rulesDir : string.

Local Abbreviation saveRules :=
  (Storage.saveRules mkdirSync is_EEXIST path_join dirname Bun_write
     JSON_stringify_data Date_new rulesDir).
Local Abbreviation process_rules :=
  (Pipeline.process_rules regenerateRule validateRule maxIterationsPerRule Date_new).
Local Abbreviation processPolicy :=
  (Pipeline.processPolicy generateRules regenerateRule validateRule
     maxIterationsPerRule Date_new saveRules).
Local Abbreviation calls := Pipeline.validator_calls.

(** A save calls the clock and the disk only. *)
Lemma saveRules_no_validation (firmName : string) (rules0 : list Rule) (total : nat)
  (w w' : World Ext) out :
  saveRules firmName rules0 total w = (out, w') ->
  calls (log w') = calls (log w).
Proof.
  unfold Storage.saveRules. intros Hrun.
  apply bind_inv in Hrun as [(d1 & w1 & Hc & Hrun) | [(m & Hc & _) | [Hc _]]];
    apply clock_inv in Hc as [Hd ->]; try discriminate.
  apply bind_inv in Hrun as [(d2 & w2 & Hc & Hrun) | [(m & Hc & _) | [Hc _]]];
    apply clock_inv in Hc as [Hd2 ->]; try discriminate.
  apply bind_inv in Hrun as [(d3 & w3 & Hc & Hrun) | [(m & Hc & _) | [Hc _]]];
    apply clock_inv in Hc as [Hd3 ->]; try discriminate.
  assert (Hdir : forall o wd,
             Storage.ensureDir mkdirSync is_EEXIST
               (dirname (Storage.getFilePath path_join rulesDir firmName))
               (after_call (after_call (after_call w (Date_new (ext w)).2 EvClock)
                  (Date_new (after_call w (Date_new (ext w)).2 EvClock).(ext)).2 EvClock)
                  (Date_new (after_call (after_call w (Date_new (ext w)).2 EvClock)
                     (Date_new (after_call w (Date_new (ext w)).2 EvClock).(ext)).2
                     EvClock).(ext)).2 EvClock) = (o, wd) ->
             calls (log wd) = calls (log w)).
  { unfold Storage.ensureDir, try_catch, call. intros o wd.
    destruct (mkdirSync _ _) as [[[]|err] e4]; simpl.
    - intros [= <- <-]. simpl. count_calls. lia.
    - destruct (is_EEXIST err); simpl; intros [= <- <-]; simpl; count_calls; lia. }
  apply bind_inv in Hrun as [([] & w4 & Hc & Hrun) | [(m & Hc & _) | [Hc _]]];
    try (now apply Hdir in Hc).
  apply Hdir in Hc.
  apply bind_inv in Hrun as [([] & w5 & Hw & Hrun) | [(m & Hw & _) | [Hw _]]];
    apply call_inv in Hw as [_ ->]; simpl.
  - apply bind_inv in Hrun as [([] & w6 & Hs & Hrun) | [(m & Hs & _) | [Hs _]]];
      try discriminate.
    injection Hs as <-. injection Hrun as _ <-. simpl. count_calls. lia.
  - count_calls. lia.
  - count_calls. lia.
Qed.

Lemma process_rules_accounting (policyText firmName : string) (initialRules : list Rule) :
  forall (acc : list Rule) (n : nat) (w : World Ext) acc' n' w',
    process_rules initialRules policyText firmName acc n w = (Ok (acc', n'), w') ->
    n' + calls (log w) = n + calls (log w')
    /\ n' <= n + maxIterationsPerRule * length initialRules
    /\ exists kept, acc' = acc ++ kept
                    /\ sublist (rule_id <$> kept) (rule_id <$> initialRules).
Proof.
  induction initialRules as [|r rest IH]; intros acc n w acc' n' w' Hrun;
    simpl in Hrun.
  - injection Hrun as <- <- <-. split; [lia|]. split; [lia|].
    exists []. rewrite app_nil_r. split; [reflexivity | constructor].
  - unfold bind at 1 in Hrun.
    destruct (Pipeline.validateAndRefineRule regenerateRule validateRule
                maxIterationsPerRule Date_new r policyText firmName w)
      as [[res|msg|] w1] eqn:Hone; try discriminate.
    pose proof Hone as Hhist.
    unfold Pipeline.validateAndRefineRule in Hhist.
    apply refine_loop_history in Hhist as [Hid _]; [| reflexivity | constructor].
    apply validateAndRefineRule_spec in Hone.
    destruct Hone as (_ & Hle & _ & Hres).
    destruct (Hres res eq_refl) as [Hc _].
    apply IH in Hrun as (Hn & Hbound & kept & -> & Hsub).
    split; [lia|]. split; [simpl; lia|].
    destruct (validated res).
    + exists (rule res :: kept). rewrite <- app_assoc. split; [reflexivity|].
      simpl. rewrite Hid. now constructor.
    + exists kept. split; [reflexivity|]. simpl. now constructor.
Qed.

Lemma processPolicy_facts (policyText firmName : string)
  (w w' : World Ext) (data : RulesData) :
  processPolicy policyText firmName w = (Ok data, w') ->
  total_iterations data = calls (log w') - calls (log w)
  /\ (exists initialRules,
        fst (generateRules {| ctx_policy_text := policyText;
                              ctx_firm_name := firmName;
                              previous_attempt := None |} (ext w))
        = Resolves initialRules
        /\ total_iterations data <= maxIterationsPerRule * length initialRules
        /\ sublist (rule_id <$> rules data) (rule_id <$> initialRules))
  /\ Forall well_recorded (rules data)
  /\ firm_name data = firmName.
Proof.
  unfold Pipeline.processPolicy. intros Hrun.
  apply bind_inv in Hrun as [(initial & w1 & Hg & Hrun) | [(m & Hg & Hx) | [Hg Hx]]];
    try discriminate.
  apply call_inv in Hg as [Hgen ->].
  apply bind_inv in Hrun as [([acc n] & w2 & Hloop & Hsave) | [(m & Hl & Hx) | [Hl Hx]]];
    try discriminate.
  pose proof Hloop as Hrecorded.
  apply (process_rules_spec regenerateRule validateRule maxIterationsPerRule Date_new)
    in Hrecorded; [|constructor].
  apply process_rules_accounting in Hloop as (Hn & Hbound & kept & Hacc & Hsub).
  simpl in *. subst acc.
  pose proof (saveRules_no_validation _ _ _ _ _ _ Hsave) as Hcalls.
  apply saveRules_spec in Hsave as (_ & Hok & _).
  destruct (Hok data eq_refl) as (Hr & Hf & Ht & _).
  revert Hn. count_calls. intros Hn.
  split; [lia|]. split; [|split; [now rewrite Hr | exact Hf]].
  destruct (fst (generateRules _ (ext w))) as [initial'|msg] eqn:Hfst;
    simpl in Hgen; [|discriminate].
  injection Hgen as <-.
  exists initial. split; [reflexivity|]. split; [lia|]. now rewrite Hr.
Qed.

(** X6. When [processPolicy] returns, [total_iterations] of the bundle
    is the number of validator calls the ingestion performed (failed
    drafts included), it is at most the attempt budget times the number
    of drafts, and the [rule_id]s of the stored rules are the generator's
    draft ids with the dropped drafts left out, in the generator's
    order. *)
Theorem ingestion_accounting (policyText firmName : string)
  (w w' : World Ext) (data : RulesData) :
  processPolicy policyText firmName w = (Ok data, w') ->
  total_iterations data = calls (log w') - calls (log w)
  /\ exists initialRules,
       fst (generateRules {| ctx_policy_text := policyText;
                             ctx_firm_name := firmName;
                             previous_attempt := None |} (ext w))
       = Resolves initialRules
       /\ total_iterations data <= maxIterationsPerRule * length initialRules
       /\ sublist (rule_id <$> rules data) (rule_id <$> initialRules).
Proof.
  intros Hrun. apply processPolicy_facts in Hrun as (Htotal & Hdrafts & _).
  split; [exact Htotal | exact Hdrafts].
Qed.

End IngestionMore.

(** ** Storage, continued *)

Section StorageMore.
Context {Ext : Type}.
Variable mkdirSync : string -> Ext -> Outcome unit * Ext.
Variable is_EEXIST : string -> bool.
Variable path_join : string -> string -> string.
Variable dirname : string -> string.
Variable Bun_write : string -> string -> Ext -> Outcome unit * Ext.
Variable file_exists : string -> Ext -> Outcome bool * Ext.
Variable file_text : string -> Ext -> Outcome string * Ext.
Variable JSON_stringify_data : RulesData -> string.
Variable JSON_parse_data : string -> string + RulesData.
Variable Date_new : Ext -> DateReading * Ext.
Variable rulesDir : string.

Local Abbreviation saveRules :=
  (Storage.saveRules mkdirSync is_EEXIST path_join dirname Bun_write
     JSON_stringify_data Date_new rulesDir).
Local Abbreviation loadRules :=
  (Storage.loadRules path_join file_exists file_text JSON_parse_data rulesDir).
Local Abbreviation getFilePath := (Storage.getFilePath path_join rulesDir).

(** Everything [loadRules] does, by outcome. *)
Lemma loadRules_spec (firmName : string) (w w' : World Ext) out :
  loadRules firmName w = (out, w') ->
  out <> OutOfFuel
  /\ (forall data, out = Ok (Some data) ->
        cache w' !! firmName = Some data
        /\ (cache w !! firmName = Some data /\ w' = w
            \/ cache w !! firmName = None
               /\ cache w' = <[firmName := data]> (cache w)
               /\ log w' = log w ++ [EvExists (getFilePath firmName);
                                     EvRead (getFilePath firmName)]))
  /\ ((forall data, out <> Ok (Some data)) ->
        cache w' = cache w /\ cache w !! firmName = None)
  /\ (cache w !! firmName = None ->
      fst (file_exists (getFilePath firmName) (ext w)) = Resolves false ->
      out = Ok None /\ log w' = log w ++ [EvExists (getFilePath firmName)]).
Proof.
  unfold Storage.loadRules, bind at 1, cache_get. simpl.
  destruct (cache w !! firmName) as [cached|] eqn:Hc.
  { intros [= <- <-]. split; [discriminate|]. split.
    - intros data [= <-]. auto.
    - split; [intros Hn; now contradiction (Hn cached) | discriminate]. }
  intros Hrun.
  apply bind_inv in Hrun as [(present & w1 & He & Hrun) | [(m & He & ->) | [He ->]]];
    apply call_inv in He as [Hex ->].
  - destruct (fst (file_exists (getFilePath firmName) (ext w))) as [b|m] eqn:Hf;
      simpl in Hex; [|discriminate]. injection Hex as ->.
    destruct b; simpl in Hrun.
    + apply bind_inv in Hrun as [(txt & w2 & Hr & Hrun) | [(m & Hr & ->) | [Hr ->]]];
        apply call_inv in Hr as [Hread ->].
      * destruct (JSON_parse_data txt) as [m|parsed].
        -- injection Hrun as <- <-. simpl. split; [discriminate|].
           split; [discriminate|]. split; [auto | discriminate].
        -- apply bind_inv in Hrun as [([] & w3 & Hs & Hrun) | [(m & Hs & _) | [Hs _]]];
             try discriminate.
           injection Hs as <-. injection Hrun as <- <-. simpl.
           split; [discriminate|]. split.
           ++ intros data [= <-]. split; [apply lookup_insert_eq|].
              right. rewrite <- app_assoc. auto.
           ++ split; [intros Hn; now contradiction (Hn parsed) | discriminate].
      * simpl. split; [discriminate|]. split; [discriminate|].
        split; [auto | discriminate].
      * now apply eq_sym, settle_not_fuel in Hread.
    + injection Hrun as <- <-. simpl. split; [discriminate|].
      split; [discriminate|]. split; [auto|]. auto.
  - destruct (fst (file_exists (getFilePath firmName) (ext w))) as [b|m'] eqn:Hf;
      simpl in Hex; [discriminate|].
    simpl. split; [discriminate|]. split; [discriminate|].
    split; [auto | discriminate].
  - now apply eq_sym, settle_not_fuel in Hex.
Qed.

(** X7. The cache is read-through. After a [loadRules] that returned a
    bundle, the next [loadRules] of the same firm name returns the same
    bundle without any call to the disk. A load that returns no bundle
    (missing file, unreadable or unparsable document) leaves the cache
    unchanged, and a missing file is reported as [null] after the
    existence check alone. *)
Theorem loadRules_read_through (firmName : string) (w : World Ext) :
  let out := fst (loadRules firmName w) in
  let w' := snd (loadRules firmName w) in
  (forall data, out = Ok (Some data) -> loadRules firmName w' = (Ok (Some data), w'))
  /\ ((forall data, out <> Ok (Some data)) -> cache w' = cache w)
  /\ (cache w !! firmName = None ->
      fst (file_exists (getFilePath firmName) (ext w)) = Resolves false ->
      out = Ok None /\ log w' = log w ++ [EvExists (getFilePath firmName)]).
Proof.
  intros out w'. subst out w'.
  destruct (loadRules firmName w) as [out w'] eqn:Hrun. simpl.
  apply loadRules_spec in Hrun as (_ & Hsome & Hnone & Hmiss).
  split; [|split; [intros H; now apply Hnone | exact Hmiss]].
  intros data ->. destruct (Hsome data eq_refl) as [Hc _].
  unfold Storage.loadRules, bind, cache_get. simpl. now rewrite Hc.
Qed.


End StorageMore.

(** ** Trimming and firm-name normalization *)

Lemma rev_app_acc (s acc : string) :
  String.rev_app s acc = String.rev_app s "" +:+ acc.
Proof.
  revert acc; induction s as [|c s IH]; intros acc; [reflexivity|].
  simpl. rewrite IH, (IH (String c "")), app_assoc_s. reflexivity.
Qed.

Lemma rev_cons (c : ascii) (s : string) :
  String.rev (String c s) = String.rev s +:+ String c "".
Proof. unfold String.rev. simpl. apply rev_app_acc. Qed.

Lemma rev_append (a b : string) :
  String.rev (a +:+ b) = String.rev b +:+ String.rev a.
Proof.
  induction a as [|c a IH].
  - rewrite app_empty. now rewrite app_empty_r.
  - rewrite app_cons, !rev_cons, IH, app_assoc_s. reflexivity.
Qed.

Lemma rev_involutive (s : string) : String.rev (String.rev s) = s.
Proof.
  induction s as [|c s IH]; [reflexivity|].
  rewrite rev_cons, rev_append, IH. reflexivity.
Qed.

Lemma trimStart_fixed (s : string) :
  JS.trimStart s = s <-> no_leading_space s = true.
Proof.
  destruct s as [|c s]; simpl; [tauto|].
  destruct (JS.is_space c) eqn:Hc; simpl; [|tauto].
  split; [|discriminate]. intros H. exfalso.
  assert (Hlen : forall t, String.length (JS.trimStart t) <= String.length t).
  { induction t as [|d t IHt]; simpl; [lia|]. destruct (JS.is_space d); simpl; lia. }
  specialize (Hlen s). rewrite H in Hlen. simpl in Hlen. lia.
Qed.

Lemma trimStart_no_leading (s : string) : no_leading_space (JS.trimStart s) = true.
Proof.
  induction s as [|c s IH]; [reflexivity|]. simpl.
  destruct (JS.is_space c) eqn:Hc; [exact IH|]. simpl. now rewrite Hc.
Qed.

Lemma trimStart_idempotent (s : string) : JS.trimStart (JS.trimStart s) = JS.trimStart s.
Proof. apply trimStart_fixed, trimStart_no_leading. Qed.

(** What [trimStart] removes is a prefix. *)
Lemma trimStart_suffix (s : string) : exists p, s = p +:+ JS.trimStart s.
Proof.
  induction s as [|c s [p IH]]; [exists ""; reflexivity|]. simpl.
  destruct (JS.is_space c).
  - exists (String c p). rewrite app_cons. now rewrite <- IH.
  - exists "". reflexivity.
Qed.

Lemma trimEnd_prefix (s : string) : exists q, s = JS.trimEnd s +:+ q.
Proof.
  unfold JS.trimEnd. destruct (trimStart_suffix (String.rev s)) as [p Hp].
  exists (String.rev p).
  rewrite <- rev_append, <- Hp. symmetry. apply rev_involutive.
Qed.

Lemma trimEnd_keeps_start (s : string) :
  no_leading_space s = true -> no_leading_space (JS.trimEnd s) = true.
Proof.
  destruct (trimEnd_prefix s) as [q Hq]. intros H.
  destruct (JS.trimEnd s) as [|c t]; [reflexivity|].
  rewrite Hq, app_cons in H. exact H.
Qed.

Lemma trimEnd_idempotent (s : string) : JS.trimEnd (JS.trimEnd s) = JS.trimEnd s.
Proof.
  unfold JS.trimEnd. now rewrite rev_involutive, trimStart_idempotent.
Qed.

(** [trim] is idempotent. *)
Lemma trim_idempotent (s : string) : JS.trim (JS.trim s) = JS.trim s.
Proof.
  unfold JS.trim.
  assert (H : JS.trimStart (JS.trimEnd (JS.trimStart s)) = JS.trimEnd (JS.trimStart s))
    by (apply trimStart_fixed, trimEnd_keeps_start, trimStart_no_leading).
  now rewrite H, trimEnd_idempotent.
Qed.

Lemma all_chars_rev_app (p : ascii -> bool) (s acc : string) :
  all_chars p (String.rev_app s acc) = all_chars p s && all_chars p acc.
Proof.
  revert acc; induction s as [|c s IH]; intros acc; [reflexivity|].
  simpl. rewrite IH. simpl. destruct (p c), (all_chars p s); reflexivity.
Qed.

Lemma all_chars_rev (p : ascii -> bool) (s : string) :
  all_chars p (String.rev s) = all_chars p s.
Proof. unfold String.rev. rewrite all_chars_rev_app. simpl. apply andb_true_r. Qed.

Lemma trimStart_no_space (s : string) :
  all_chars (fun c => negb (JS.is_space c)) s = true -> JS.trimStart s = s.
Proof.
  destruct s as [|c s]; [reflexivity|]. simpl.
  destruct (JS.is_space c); [discriminate | reflexivity].
Qed.

Lemma trim_no_space (s : string) :
  all_chars (fun c => negb (JS.is_space c)) s = true -> JS.trim s = s.
Proof.
  intros H. unfold JS.trim, JS.trimEnd.
  rewrite (trimStart_no_space s H).
  rewrite trimStart_no_space by (now rewrite all_chars_rev).
  apply rev_involutive.
Qed.

Lemma replaceSpaces_no_space (rep : string) (b : bool) (s : string) :
  all_chars (fun c => negb (JS.is_space c)) s = true -> JS.replaceSpaces rep b s = s.
Proof.
  revert b; induction s as [|c s IH]; intros b; [reflexivity|]. simpl.
  destruct (JS.is_space c); [discriminate|]. simpl. intros H. now rewrite IH.
Qed.

Lemma replaceSpaces_chars (p : ascii -> bool) (b : bool) (s : string) :
  p "_"%char = true ->
  all_chars (fun c => JS.is_space c || p c) s = true ->
  all_chars p (JS.replaceSpaces "_" b s) = true.
Proof.
  intros Hp. revert b; induction s as [|c s IH]; intros b; [reflexivity|]. simpl.
  destruct (JS.is_space c) eqn:Hc; simpl; intros H.
  - destruct b; [now apply IH|]. rewrite app_cons, app_empty. simpl.
    rewrite Hp. now apply IH.
  - apply andb_true_iff in H as [H1 H2]. rewrite H1. now apply IH.
Qed.

Lemma all_chars_impl (p q : ascii -> bool) (s : string) :
  (forall c, p c = true -> q c = true) -> all_chars p s = true -> all_chars q s = true.
Proof.
  intros Hpq. induction s as [|c s IH]; [reflexivity|]. simpl.
  intros H. apply andb_true_iff in H as [H1 H2]. now rewrite (Hpq c H1), IH.
Qed.

Lemma all_chars_map (p : ascii -> bool) (f : ascii -> ascii) (s : string) :
  (forall c, p (f c) = true) -> all_chars p (JS.map_chars f s) = true.
Proof.
  intros H. induction s as [|c s IH]; [reflexivity|]. simpl. now rewrite H, IH.
Qed.

Lemma lower_char_not_upper (c : ascii) : JS.is_upper (JS.lower_char c) = false.
Proof. destruct c as [[] [] [] [] [] [] [] []]; reflexivity. Qed.

Lemma lower_char_upper_char (c : ascii) : JS.lower_char (JS.upper_char c) = JS.lower_char c.
Proof. destruct c as [[] [] [] [] [] [] [] []]; reflexivity. Qed.

Lemma lower_char_idempotent (c : ascii) : JS.lower_char (JS.lower_char c) = JS.lower_char c.
Proof. destruct c as [[] [] [] [] [] [] [] []]; reflexivity. Qed.

Lemma lower_char_space (c : ascii) : JS.is_space (JS.lower_char c) = JS.is_space c.
Proof. destruct c as [[] [] [] [] [] [] [] []]; reflexivity. Qed.

Lemma map_chars_compose (f g : ascii -> ascii) (s : string) :
  JS.map_chars f (JS.map_chars g s) = JS.map_chars (fun c => f (g c)) s.
Proof. induction s as [|c s IH]; [reflexivity|]. simpl. now rewrite IH. Qed.

Lemma map_chars_ext (f g : ascii -> ascii) (s : string) :
  (forall c, f c = g c) -> JS.map_chars f s = JS.map_chars g s.
Proof. intros H. induction s as [|c s IH]; [reflexivity|]. simpl. now rewrite H, IH. Qed.

Lemma map_chars_fixed (f : ascii -> ascii) (p : ascii -> bool) (s : string) :
  (forall c, p c = true -> f c = c) -> all_chars p s = true -> JS.map_chars f s = s.
Proof.
  intros H. induction s as [|c s IH]; [reflexivity|]. simpl.
  intros Hs. apply andb_true_iff in Hs as [H1 H2]. now rewrite (H c H1), IH.
Qed.

Lemma toLowerCase_toUpperCase (s : string) :
  JS.toLowerCase (JS.toUpperCase s) = JS.toLowerCase s.
Proof.
  unfold JS.toLowerCase, JS.toUpperCase. rewrite map_chars_compose.
  apply map_chars_ext, lower_char_upper_char.
Qed.

Lemma toLowerCase_idempotent (s : string) :
  JS.toLowerCase (JS.toLowerCase s) = JS.toLowerCase s.
Proof.
  unfold JS.toLowerCase. rewrite map_chars_compose.
  apply map_chars_ext, lower_char_idempotent.
Qed.

Lemma normalized_chars (s : string) :
  all_chars (fun c => negb (JS.is_space c) && negb (JS.is_upper c))
            (normalizeFirmName s) = true.
Proof.
  unfold normalizeFirmName. apply replaceSpaces_chars; [reflexivity|].
  unfold JS.toLowerCase.
  apply all_chars_map. intros c. rewrite lower_char_not_upper. simpl.
  now destruct (JS.is_space (JS.lower_char c)).
Qed.

Lemma all_chars_trimStart (p : ascii -> bool) (s : string) :
  all_chars p s = true -> all_chars p (JS.trimStart s) = true.
Proof.
  induction s as [|c s IH]; [reflexivity|]. simpl.
  intros H. apply andb_true_iff in H as [H1 H2].
  destruct (JS.is_space c); [now apply IH|]. simpl. now rewrite H1, H2.
Qed.

Lemma all_chars_trim (p : ascii -> bool) (s : string) :
  all_chars p s = true -> all_chars p (JS.trim s) = true.
Proof.
  intros H. unfold JS.trim, JS.trimEnd.
  rewrite all_chars_rev. apply all_chars_trimStart.
  rewrite all_chars_rev. now apply all_chars_trimStart.
Qed.

Lemma lower_char_ascii (c : ascii) :
  ascii_char c = true -> ascii_char (JS.lower_char c) = true.
Proof. destruct c as [[] [] [] [] [] [] [] []]; intros H; try discriminate; reflexivity. Qed.

Lemma all_chars_map_closed (p : ascii -> bool) (f : ascii -> ascii) (s : string) :
  (forall c, p c = true -> p (f c) = true) ->
  all_chars p s = true -> all_chars p (JS.map_chars f s) = true.
Proof.
  intros Hf. induction s as [|c s IH]; [reflexivity|]. simpl.
  intros H. apply andb_true_iff in H as [H1 H2]. now rewrite (Hf c H1), IH.
Qed.

(** The key of an ASCII firm name is an ASCII string. *)
Lemma normalized_ascii (s : string) :
  ascii_only s = true -> ascii_only (normalizeFirmName s) = true.
Proof.
  unfold ascii_only, normalizeFirmName. intros H.
  apply replaceSpaces_chars; [reflexivity|].
  apply (all_chars_impl ascii_char); [intros c Hc; rewrite Hc; apply orb_true_r|].
  unfold JS.toLowerCase. apply all_chars_map_closed; [exact lower_char_ascii|].
  now apply all_chars_trim.
Qed.

(** X9. For a firm name of ASCII characters, on which the built-ins of
    module [JS] are the JavaScript ones, [normalizeFirmName] produces an
    ASCII key without white space and without upper-case letters; it is
    idempotent, and it does not see letter case or surrounding white
    space of the firm name. *)
Theorem normalizeFirmName_canonical (firmName : string) :
  ascii_only firmName = true ->
  ascii_only (normalizeFirmName firmName) = true
  /\ all_chars (fun c => negb (JS.is_space c) && negb (JS.is_upper c))
               (normalizeFirmName firmName) = true
  /\ normalizeFirmName (normalizeFirmName firmName) = normalizeFirmName firmName
  /\ normalizeFirmName (JS.toUpperCase firmName) = normalizeFirmName firmName
  /\ normalizeFirmName (JS.toLowerCase firmName) = normalizeFirmName firmName
  /\ normalizeFirmName (JS.trim firmName) = normalizeFirmName firmName.
Proof.
  intros Hascii. split; [now apply normalized_ascii|].
  split; [apply normalized_chars|]. split; [|split; [|split]].
  - pose proof (normalized_chars firmName) as H.
    assert (Hsp : all_chars (fun c => negb (JS.is_space c)) (normalizeFirmName firmName) = true).
    { eapply all_chars_impl; [|exact H]. intros c Hc. now apply andb_true_iff in Hc. }
    assert (Hup : JS.toLowerCase (normalizeFirmName firmName) = normalizeFirmName firmName).
    { eapply map_chars_fixed; [|exact H]. intros c Hc.
      apply andb_true_iff in Hc as [_ Hc]. unfold JS.lower_char.
      now destruct (JS.is_upper c). }
    unfold normalizeFirmName at 1.
    rewrite (trim_no_space _ Hsp), Hup. now apply replaceSpaces_no_space.
  - unfold normalizeFirmName. now rewrite <- toUpperCase_trim, toLowerCase_toUpperCase.
  - unfold normalizeFirmName.
    assert (Hcomm : forall t, JS.trim (JS.toLowerCase t) = JS.toLowerCase (JS.trim t)).
    { intros t. unfold JS.trim, JS.trimEnd, String.rev, JS.toLowerCase.
      assert (Hts : forall u, JS.trimStart (JS.map_chars JS.lower_char u)
                              = JS.map_chars JS.lower_char (JS.trimStart u)).
      { induction u as [|c u IHu]; [reflexivity|]. simpl.
        rewrite lower_char_space. destruct (JS.is_space c); [exact IHu | reflexivity]. }
      rewrite Hts, <- (map_chars_rev_app JS.lower_char _ ""), Hts.
      now rewrite <- (map_chars_rev_app JS.lower_char _ ""). }
    now rewrite Hcomm, toLowerCase_idempotent.
  - unfold normalizeFirmName. now rewrite trim_idempotent.
Qed.

(** ** Compliance evaluation, continued *)

Lemma fold_apply_outcome_lengths (os : list (Rule * Res JSValue)) :
  length (flat_map reasons_of os)
  <= length (List.filter (fun ro : Rule * Res JSValue => blocks (snd ro)) os)
  /\ length (List.filter (fun ro : Rule * Res JSValue => blocks (snd ro)) os)
     <= length os.
Proof.
  induction os as [|[r o] os [IH1 IH2]]; simpl; [lia|].
  rewrite length_app. unfold reasons_of at 1. simpl.
  destruct o as [execution|message|]; simpl.
  - destruct (js_truthy (get_prop execution "allowed")); simpl; [lia|].
    destruct (js_truthy (get_prop execution "reason")); simpl;
      [destruct (get_prop execution "reason"); simpl|]; lia.
  - lia.
  - lia.
Qed.

Section ExecutorMore.
Context {Ext : Type}.
Variable runPythonCode : RunnerPayload -> N -> Ext -> Outcome string * Ext.
Variable JSON_parse : string -> string + JSValue.

Local Abbreviation check_rules := (Executor.check_rules runPythonCode JSON_parse).
Local Abbreviation outcomes := (Executor.outcomes runPythonCode JSON_parse).

Lemma check_rules_app (e : Employee) (s : Security) (d : string)
  (rules1 rules2 : list Rule) :
  forall (resp : ComplianceResult) (w : World Ext),
    check_rules e s d (rules1 ++ rules2) resp w
    = bind (check_rules e s d rules1 resp) (fun r => check_rules e s d rules2 r) w.
Proof.
  induction rules1 as [|r rest IH]; intros resp w.
  - simpl. unfold bind, ret. reflexivity.
  - simpl. unfold bind.
    destruct (Executor.check_rule runPythonCode JSON_parse e s d resp r w)
      as [[resp1|msg|] w1]; [|reflexivity..].
    rewrite IH. reflexivity.
Qed.

(** X10. Evaluation composes and only accumulates: running the rules
    [rules1 ++ rules2] is running [rules1] and then [rules2] on the
    verdict so far. The lists of the intermediate verdict are prefixes
    of the final ones, and once the intermediate verdict is denied the
    final verdict is denied: a later rule cannot unblock or erase an
    earlier denial. *)
Theorem later_rules_cannot_unblock (e : Employee) (s : Security) (d : string)
  (rules1 rules2 : list Rule) (w : World Ext) :
  exists v1 w1 v2 w2,
    check_rules e s d rules1 empty_response w = (Ok v1, w1)
    /\ check_rules e s d rules2 v1 w1 = (Ok v2, w2)
    /\ check_rules e s d (rules1 ++ rules2) empty_response w = (Ok v2, w2)
    /\ (allowed v1 = false -> allowed v2 = false)
    /\ reasons v1 `prefix_of` reasons v2
    /\ policy_refs v1 `prefix_of` policy_refs v2
    /\ rules_checked v1 `prefix_of` rules_checked v2.
Proof.
  eexists _, _, _, _.
  split; [apply check_rules_outcomes|]. split; [apply check_rules_outcomes|].
  split.
  - rewrite check_rules_app. unfold bind. rewrite check_rules_outcomes.
    apply check_rules_outcomes.
  - match goal with
    | |- context [fold_left apply_outcome ?os2 (fold_left apply_outcome ?os1 _)] =>
        destruct (fold_apply_outcome os2 (fold_left apply_outcome os1 empty_response))
          as (Ha & Hr & Hp & Hc)
    end.
    cbv zeta in Ha, Hr, Hp, Hc. rewrite Ha, Hr, Hp, Hc.
    split; [intros ->; reflexivity|].
    split; [|split]; apply prefix_app_r; reflexivity.
Qed.

End ExecutorMore.

Section ExecutorStorage.
Context {Ext : Type}.
Variable runPythonCode : RunnerPayload -> N -> Ext -> Outcome string * Ext.
Variable JSON_parse : string -> string + JSValue.
Variable path_join : string -> string -> string.
Variable file_exists : string -> Ext -> Outcome bool * Ext.
Variable file_text : string -> Ext -> Outcome string * Ext.
Variable JSON_parse_data : string -> string + RulesData.
Variable rulesDir : string.
(** Any storage may be injected for the length bounds. *)
Variable anyLoadRules : string -> M Ext (option RulesData).

Local Abbreviation loadRules :=
  (Storage.loadRules path_join file_exists file_text JSON_parse_data rulesDir).
Local Abbreviation checkCompliance :=
  (Executor.checkCompliance runPythonCode JSON_parse loadRules).

(** X11. In every verdict there are at most as many reasons as policy
    references, and at most as many policy references as rules checked:
    each blocking rule adds one policy reference and at most one
    reason. *)
Theorem verdict_list_lengths (firmName : string) (e : Employee) (s : Security)
  (d : string) (w w2 : World Ext) (verdict : ComplianceResult) :
  Executor.checkCompliance runPythonCode JSON_parse anyLoadRules firmName e s d w
  = (Ok verdict, w2) ->
  length (reasons verdict) <= length (policy_refs verdict)
  /\ length (policy_refs verdict) <= length (rules_checked verdict).
Proof.
  unfold Executor.checkCompliance, bind. intros Hrun.
  destruct (anyLoadRules firmName w) as [[[stored|]|msg|] w1]; try discriminate.
  - rewrite check_rules_outcomes in Hrun. injection Hrun as <- _.
    match goal with
    | |- context [fold_left apply_outcome ?os _] =>
        destruct (fold_apply_outcome os empty_response) as (_ & Hr & Hp & Hc);
        pose proof (fold_apply_outcome_lengths os) as [H1 H2]
    end.
    cbv zeta in Hr, Hp, Hc. rewrite Hr, Hp, Hc. simpl.
    rewrite !length_fmap. lia.
  - injection Hrun as <- _. simpl. lia.
Qed.

(** X12. For a firm that is neither cached nor on disk, the evaluation
    runs no rule: it returns the empty verdict with [allowed = true]
    after the existence check alone, and caches nothing. *)
Theorem unknown_firm_is_allowed (firmName : string) (e : Employee) (s : Security)
  (d : string) (w : World Ext) :
  cache w !! firmName = None ->
  fst (file_exists (Storage.getFilePath path_join rulesDir firmName) (ext w))
  = Resolves false ->
  exists w',
    checkCompliance firmName e s d w = (Ok empty_response, w')
    /\ log w' = log w ++ [EvExists (Storage.getFilePath path_join rulesDir firmName)]
    /\ rules_run (log w') = rules_run (log w)
    /\ cache w' = cache w.
Proof.
  intros Hc Hf. unfold Executor.checkCompliance, bind.
  destruct (loadRules firmName w) as [out w'] eqn:Hload.
  apply loadRules_spec in Hload as (_ & _ & Hnone & Hmiss).
  destruct (Hmiss Hc Hf) as [-> Hlog].
  exists w'. split; [reflexivity|]. split; [exact Hlog|]. split.
  - rewrite Hlog, rules_run_app. simpl. apply app_nil_r.
  - apply Hnone. discriminate.
Qed.

End ExecutorStorage.

(** ** The demo data cache *)

Section DemoDataMore.
Context {Ext : Type}.
Variable DATA_PATH : string.
Variable file_exists : string -> Ext -> Outcome bool * Ext.
Variable file_text : string -> Ext -> Outcome string * Ext.
Variable JSON_parse_demo : string -> string + DemoData.

Local Abbreviation loadDemoData :=
  (DemoDataService.loadDemoData DATA_PATH file_exists file_text JSON_parse_demo).
Local Abbreviation getEmployeeById :=
  (DemoDataService.getEmployeeById DATA_PATH file_exists file_text JSON_parse_demo).
Local Abbreviation getFirmRestrictions :=
  (DemoDataCache.getFirmRestrictions DATA_PATH file_exists file_text JSON_parse_demo).
Local Abbreviation clearDemoDataCache := (@DemoDataCache.clearDemoDataCache Ext).

(** What a load leaves behind: the data cached after a success, the
    rejection kept after a failure, and at most one look at the file. *)
Lemma loadDemoData_spec (w w1 : World Ext) (out : Res DemoData) :
  loadDemoData w = (out, w1) ->
  match out with
  | Ok data => cachedData w1 = Some data
  | Throw msg => cachedData w1 = None /\ loadPromise w1 = Some msg
  | OutOfFuel => False
  end
  /\ (log w1 = log w
      \/ log w1 = log w ++ [EvExists DATA_PATH]
      \/ log w1 = log w ++ [EvExists DATA_PATH; EvRead DATA_PATH])
  /\ cache w1 = cache w.
Proof.
  unfold DemoDataService.loadDemoData, bind, get_cachedData, get_loadPromise.
  destruct (cachedData w) as [data|] eqn:Hc.
  { intros [= <- <-]. auto. }
  destruct (loadPromise w) as [rejection|] eqn:Hp.
  { intros [= <- <-]. auto. }
  unfold try_catch, DemoDataService.read_demo_file, bind, call.
  destruct (file_exists DATA_PATH (ext w)) as [[present|msg] e1]; simpl.
  - destruct present; simpl.
    + destruct (file_text DATA_PATH e1) as [[raw|msg] e2]; simpl.
      * destruct (JSON_parse_demo raw) as [msg|parsed]; simpl;
          intros [= <- <-]; simpl; rewrite <- ?app_assoc; simpl; auto.
      * intros [= <- <-]; simpl; rewrite <- ?app_assoc; simpl; auto.
    + intros [= <- <-]; simpl; auto.
  - intros [= <- <-]; simpl; auto.
Qed.

Lemma loadDemoData_again (w1 : World Ext) (out : Res DemoData) :
  match out with
  | Ok data => cachedData w1 = Some data
  | Throw msg => cachedData w1 = None /\ loadPromise w1 = Some msg
  | OutOfFuel => False
  end ->
  loadDemoData w1 = (out, w1).
Proof.
  unfold DemoDataService.loadDemoData, bind, get_cachedData, get_loadPromise.
  destruct out as [data|msg|].
  - intros Hc. rewrite Hc. reflexivity.
  - intros [Hc Hp]. rewrite Hc, Hp. reflexivity.
  - intros [].
Qed.

(** A load with nothing cached and nothing pending starts at the file. *)
Lemma loadDemoData_fresh (w : World Ext) :
  cachedData w = None -> loadPromise w = None ->
  exists later, log (snd (loadDemoData w)) = log w ++ EvExists DATA_PATH :: later.
Proof.
  intros Hc Hp.
  unfold DemoDataService.loadDemoData, bind, get_cachedData, get_loadPromise.
  rewrite Hc, Hp.
  unfold try_catch, DemoDataService.read_demo_file, bind, call.
  destruct (file_exists DATA_PATH (ext w)) as [[present|m] e1]; simpl.
  - destruct present; simpl.
    + destruct (file_text DATA_PATH e1) as [[raw|m] e2]; simpl.
      * destruct (JSON_parse_demo raw) as [m|parsed]; simpl;
          rewrite <- ?app_assoc; simpl; eauto.
      * rewrite <- ?app_assoc; simpl; eauto.
    + eauto.
  - eauto.
Qed.

(** X13. The demo data file is consulted once. Whatever the first load
    gave, data or failure, a later load gives the same without touching
    the file, and so do the lookups built on it; the first load itself
    touches the file with at most one existence check and one read. *)
Theorem demo_data_settles_once (w w1 : World Ext) (out : Res DemoData) :
  loadDemoData w = (out, w1) ->
  loadDemoData w1 = (out, w1)
  /\ (forall employeeId, exists r, getEmployeeById employeeId w1 = (r, w1))
  /\ (exists r, getFirmRestrictions w1 = (r, w1))
  /\ (log w1 = log w
      \/ log w1 = log w ++ [EvExists DATA_PATH]
      \/ log w1 = log w ++ [EvExists DATA_PATH; EvRead DATA_PATH]).
Proof.
  intros Hload. apply loadDemoData_spec in Hload as (Hkept & Hlog & _).
  pose proof (loadDemoData_again w1 out Hkept) as Hagain.
  split; [exact Hagain|]. split; [|split; [|exact Hlog]].
  - intros employeeId. unfold DemoDataService.getEmployeeById, bind.
    destruct (negb (JS.truthy employeeId)); [eexists; reflexivity|].
    rewrite Hagain. destruct out; eexists; reflexivity.
  - unfold DemoDataCache.getFirmRestrictions, bind.
    rewrite Hagain. destruct out; eexists; reflexivity.
Qed.

(** X14. A failed load is sticky: once the file could not be loaded,
    every lookup of a non-empty id and every request for the
    restrictions fails with the same error, even if the file has become
    readable. Only [clearDemoDataCache] makes the next load look at the
    file again. *)
Theorem demo_data_failure_is_sticky (w w1 : World Ext) (msg : string) :
  loadDemoData w = (Throw msg, w1) ->
  (forall employeeId,
      employeeId <> "" -> getEmployeeById employeeId w1 = (Throw msg, w1))
  /\ getFirmRestrictions w1 = (Throw msg, w1)
  /\ exists later,
      log (snd (bind clearDemoDataCache (fun _ => loadDemoData) w1))
      = log w1 ++ EvExists DATA_PATH :: later.
Proof.
  intros Hload. apply loadDemoData_spec in Hload as (Hkept & _ & _).
  pose proof (loadDemoData_again w1 (Throw msg) Hkept) as Hagain.
  split; [|split].
  - intros employeeId Hid. unfold DemoDataService.getEmployeeById, bind.
    destruct employeeId; [contradiction|]. simpl. rewrite Hagain. reflexivity.
  - unfold DemoDataCache.getFirmRestrictions, bind. rewrite Hagain. reflexivity.
  - unfold bind, DemoDataCache.clearDemoDataCache.
    match goal with
    | |- context [loadDemoData ?cleared] =>
        destruct (loadDemoData_fresh cleared eq_refl eq_refl) as [later Hlater]
    end.
    exists later. exact Hlater.
Qed.

End DemoDataMore.

(** ** The Python bridge *)

Lemma settled_event (timeoutMs : N) (ev : ChildEvent) (c : PythonBridge.Child) :
  PythonBridge.promise c <> Pending ->
  PythonBridge.promise (PythonBridge.on_event timeoutMs c ev) = PythonBridge.promise c.
Proof.
  destruct c as [out err handle [|value|error]]; simpl; intros Hc;
    [contradiction| |];
    (destruct ev as [chunk|chunk|error'|code|]; simpl; try reflexivity;
     [destruct code as [[| |]|]; reflexivity | destruct handle; reflexivity]).
Qed.

Lemma settled_stays (timeoutMs : N) (events : list ChildEvent) :
  forall c : PythonBridge.Child,
    PythonBridge.promise c <> Pending ->
    PythonBridge.promise (fold_left (PythonBridge.on_event timeoutMs) events c)
    = PythonBridge.promise c.
Proof.
  induction events as [|ev rest IH]; intros c Hc; [reflexivity|].
  simpl. rewrite IH; [apply settled_event; exact Hc|].
  rewrite settled_event; exact Hc.
Qed.

Lemma output_only_collects (timeoutMs : N) (events : list ChildEvent) :
  forallb is_output events = true ->
  forall c : PythonBridge.Child,
    fold_left (PythonBridge.on_event timeoutMs) events c
    = {| PythonBridge.stdout := PythonBridge.stdout c +:+ stdout_chunks events;
         PythonBridge.stderr := PythonBridge.stderr c +:+ stderr_chunks events;
         PythonBridge.timeoutHandle := PythonBridge.timeoutHandle c;
         PythonBridge.promise := PythonBridge.promise c |}.
Proof.
  induction events as [|ev rest IH]; intros Hout c.
  - simpl. rewrite !app_empty_r. destruct c; reflexivity.
  - simpl in Hout. apply andb_true_iff in Hout as [Hev Hrest].
    simpl. rewrite (IH Hrest).
    destruct ev; try discriminate; simpl; rewrite ?app_assoc_s; reflexivity.
Qed.

(** Without an [error] event, a [close] event or the timer the promise
    stays pending. *)
Lemma output_only_pending (timeoutMs : option N) (events : list ChildEvent) :
  forallb is_output events = true ->
  PythonBridge.settle_child timeoutMs events = Pending.
Proof.
  intros Hout. unfold PythonBridge.settle_child.
  rewrite (output_only_collects _ _ Hout). reflexivity.
Qed.

Lemma first_settlement (timeoutMs : option N) (before after : list ChildEvent)
  (ev : ChildEvent) :
  forallb is_output before = true ->
  is_output ev = false ->
  (ev = TimerFires -> exists n, timeoutMs = Some n /\ n <> 0%N) ->
  PythonBridge.settle_child timeoutMs (before ++ ev :: after)
  = settlement (default 0%N timeoutMs) before ev.
Proof.
  intros Hout Hev Htimer. unfold PythonBridge.settle_child.
  rewrite fold_left_app. simpl. rewrite (output_only_collects _ _ Hout).
  rewrite settled_stays.
  - destruct ev as [chunk|chunk|error|code|]; try discriminate; simpl.
    + reflexivity.
    + destruct code as [[| |]|]; reflexivity.
    + destruct (Htimer eq_refl) as (n & -> & Hn). simpl.
      destruct (N.eqb_spec n 0); [contradiction|]. reflexivity.
  - destruct ev as [chunk|chunk|error|code|]; try discriminate;
      unfold PythonBridge.spawned; simpl.
    + destruct code as [[| |]|]; simpl; discriminate.
    + destruct (Htimer eq_refl) as (n & -> & Hn). simpl.
      destruct (N.eqb_spec n 0); [contradiction|]. discriminate.
Qed.

(** X15. The promise of [executeWithPythonBin] settles on the first
    [error] event, [close] event or firing of the timer and on nothing
    after it: exit code 0 fulfils it with the output collected so far,
    any other close rejects it with the exit code and the error output
    (the standard output when there is none), an [error] event rejects
    it with that error, and the timer with the time-out error. Output
    and events after that point, such as the [close] of a killed child,
    do not change it. *)
Theorem first_settling_event_wins (timeoutMs : option N)
  (before after : list ChildEvent) (ev : ChildEvent) :
  forallb is_output before = true ->
  is_output ev = false ->
  (ev = TimerFires -> exists n, timeoutMs = Some n /\ n <> 0%N) ->
  PythonBridge.settle_child timeoutMs (before ++ ev :: after)
  = settlement (default 0%N timeoutMs) before ev
  /\ PythonBridge.settle_child timeoutMs before = Pending.
Proof.
  intros Hout Hev Htimer.
  split; [apply first_settlement; assumption | apply output_only_pending; assumption].
Qed.

Lemma occurs_in_after (needle p s : string) :
  occurs_in needle s -> occurs_in needle (p +:+ s).
Proof.
  intros (pre & post & ->). exists (p +:+ pre), post.
  symmetry. apply app_assoc_s.
Qed.

Lemma Set_from_pair (a b : string) :
  PythonBridge.Set_from [a; b] = if String.eqb b a then [a] else [a; b].
Proof.
  unfold PythonBridge.Set_from. simpl. rewrite orb_false_r.
  destruct (String.eqb b a); reflexivity.
Qed.

Section BridgeMore.
Context {Ext Input : Type}.
Variable PYTHON_BIN : option string.
Variable spawn : string -> string -> option string -> Ext -> list ChildEvent * Ext.
Variable JSON_stringify : Input -> string.

Local Abbreviation candidates := (PythonBridge.candidates PYTHON_BIN).
Local Abbreviation not_found_anywhere := (PythonBridge.not_found_anywhere PYTHON_BIN).
Local Abbreviation try_candidates :=
  (PythonBridge.try_candidates PYTHON_BIN spawn JSON_stringify).
Local Abbreviation runPythonCode :=
  (PythonBridge.runPythonCode PYTHON_BIN spawn JSON_stringify).
Local Abbreviation executeWithPythonBin :=
  (PythonBridge.executeWithPythonBin spawn JSON_stringify).

Lemma candidates_cases :
  candidates = [default "python" PYTHON_BIN; "python3"]
  /\ default "python" PYTHON_BIN <> "python3"
  \/ candidates = ["python3"] /\ default "python" PYTHON_BIN = "python3".
Proof.
  unfold PythonBridge.candidates. rewrite Set_from_pair.
  destruct (String.eqb_spec "python3" (default "python" PYTHON_BIN)) as [Heq|Hne].
  - right. rewrite <- Heq. split; reflexivity.
  - left. split; [reflexivity|congruence].
Qed.

Lemma try_candidates_spec (code : string) (input : option Input)
  (timeoutMs : option N) (bins : list string) :
  forall (e e' : Ext) (p : Promise string) (started : list (string * Promise string)),
    try_candidates bins code input timeoutMs e = (p, started, e') ->
    match bins with
    | [] => started = [] /\ p = Rejected not_found_anywhere
    | _ :: _ =>
        exists earlier bin q,
          started = earlier ++ [(bin, q)]
          /\ Forall (fun s => is_rejection_not_found (snd s) = true) earlier
          /\ (fst <$> started) `prefix_of` bins
          /\ (if is_rejection_not_found q
              then p = Rejected not_found_anywhere /\ fst <$> started = bins
              else p = q)
    end.
Proof.
  induction bins as [|pythonBin rest IH]; intros e e' p started; simpl.
  - intros [= <- <- <-]. split; reflexivity.
  - destruct (executeWithPythonBin pythonBin code input timeoutMs e) as [p1 e1].
    assert (Hstop : is_rejection_not_found p1 = false ->
                    (p1, [(pythonBin, p1)], e1) = (p, started, e') ->
                    exists earlier bin q,
                      started = earlier ++ [(bin, q)]
                      /\ Forall (fun s => is_rejection_not_found (snd s) = true) earlier
                      /\ (fst <$> started) `prefix_of` (pythonBin :: rest)
                      /\ (if is_rejection_not_found q
                          then p = Rejected not_found_anywhere
                               /\ fst <$> started = pythonBin :: rest
                          else p = q)).
    { intros Hnf [= <- <- <-]. exists [], pythonBin, p1.
      split; [reflexivity|]. split; [constructor|]. split.
      - exists rest. reflexivity.
      - rewrite Hnf. reflexivity. }
    destruct p1 as [|value|err]; [apply Hstop; reflexivity..|].
    destruct (PythonBridge.isNotFound err) eqn:Hnf; [|apply Hstop; exact Hnf].
    clear Hstop.
    destruct (try_candidates rest code input timeoutMs e1) as [[q started'] e2] eqn:Hrest.
    intros [= <- <- <-]. specialize (IH _ _ _ _ Hrest).
    destruct rest as [|next rest'].
    + destruct IH as [-> ->]. exists [], pythonBin, (Rejected err).
      split; [reflexivity|]. split; [constructor|]. split; [reflexivity|].
      simpl. rewrite Hnf. split; reflexivity.
    + destruct IH as (earlier & bin & q' & -> & Hearlier & Hprefix & Hlast).
      exists ((pythonBin, Rejected err) :: earlier), bin, q'.
      split; [reflexivity|]. split; [constructor; [exact Hnf|exact Hearlier]|].
      split.
      * simpl. apply prefix_cons. exact Hprefix.
      * destruct (is_rejection_not_found q'); [|exact Hlast].
        destruct Hlast as [Hp Hall]. split; [exact Hp|].
        simpl. f_equal. exact Hall.
Qed.

(** X16. [runPythonCode] starts the configured interpreter and falls
    back to [python3] only when the first could not be found: it starts
    one or two interpreters, never the same one twice, each but the last
    ended as not found, and its own promise is that of the last one
    unless that too was not found, in which case every candidate was
    tried and the error lists them. *)
Theorem runPythonCode_fallback (code : string) (input : option Input)
  (timeoutMs : option N) (e : Ext) :
  exists earlier bin q,
    let '(p, started, _) := runPythonCode code input timeoutMs e in
    started = earlier ++ [(bin, q)]
    /\ Forall (fun s => is_rejection_not_found (snd s) = true) earlier
    /\ (fst <$> started) `prefix_of` candidates
    /\ NoDup candidates
    /\ length started <= 2
    /\ (if is_rejection_not_found q
        then p = Rejected not_found_anywhere /\ fst <$> started = candidates
        else p = q).
Proof.
  unfold PythonBridge.runPythonCode.
  destruct (try_candidates candidates code input timeoutMs e) as [[p started] e'] eqn:Hrun.
  apply try_candidates_spec in Hrun.
  assert (Hnodup : NoDup candidates /\ length candidates <= 2
                   /\ exists b bs, candidates = b :: bs).
  { destruct candidates_cases as [[-> Hne]|[-> _]].
    - split; [|split; [simpl; lia|eauto]].
      apply NoDup_cons. split; [|apply NoDup_singleton].
      intros Hin%list_elem_of_singleton. contradiction.
    - split; [apply NoDup_singleton|]. split; [simpl; lia|eauto]. }
  destruct Hnodup as (Hnodup & Hlen & b & bs & Hcands).
  rewrite Hcands in Hrun. rewrite <- Hcands in Hrun.
  destruct Hrun as (earlier & bin & q & Hstarted & Hearlier & Hprefix & Hlast).
  exists earlier, bin, q.
  split; [exact Hstarted|]. split; [exact Hearlier|]. split; [exact Hprefix|].
  split; [exact Hnodup|]. split; [|exact Hlast].
  apply prefix_length in Hprefix. rewrite length_fmap in Hprefix. lia.
Qed.

Lemma mention_is_not_found (code : option Z) (before : list ChildEvent) :
  occurs_in "Executable not found" (stderr_chunks before) ->
  PythonBridge.isNotFound
    (new_Error ("Python exited with code " +:+ PythonBridge.show_code code +:+ ": "
                +:+ (if JS.truthy (stderr_chunks before) then stderr_chunks before
                     else stdout_chunks before))) = true.
Proof.
  intros (pre & post & Herr). unfold PythonBridge.isNotFound. simpl.
  apply includes_iff.
  assert (Htruthy : JS.truthy (stderr_chunks before) = true).
  { rewrite Herr. destruct pre; reflexivity. }
  rewrite Htruthy. do 3 apply occurs_in_after. exists pre, post. exact Herr.
Qed.

(** X17. A rule that fails while printing the words "Executable not
    found" to its error output is run a second time. When the
    configured interpreter is not [python3] and its child exits with a
    code other than 0 after such output, the failure is taken for a
    missing interpreter and the same code is started again under
    [python3]. *)
Theorem failure_mentioning_not_found_is_rerun (code : string) (input : option Input)
  (timeoutMs : option N) (e e1 : Ext) (before after : list ChildEvent)
  (exit : option Z) :
  default "python" PYTHON_BIN <> "python3" ->
  spawn (default "python" PYTHON_BIN) code (JSON_stringify <$> input) e
  = (before ++ CloseEvent exit :: after, e1) ->
  forallb is_output before = true ->
  exit <> Some 0%Z ->
  occurs_in "Executable not found" (stderr_chunks before) ->
  exists failure q p e2,
    runPythonCode code input timeoutMs e
    = (p, [(default "python" PYTHON_BIN, Rejected failure); ("python3", q)], e2)
    /\ executeWithPythonBin "python3" code input timeoutMs e1 = (q, e2)
    /\ PythonBridge.isNotFound failure = true.
Proof.
  intros Hne Hspawn Hout Hexit Hmention.
  pose (failure := new_Error ("Python exited with code "
                     +:+ PythonBridge.show_code exit +:+ ": "
                     +:+ (if JS.truthy (stderr_chunks before) then stderr_chunks before
                          else stdout_chunks before))).
  assert (Hfirst : executeWithPythonBin (default "python" PYTHON_BIN) code input timeoutMs e
                   = (Rejected failure, e1)).
  { unfold PythonBridge.executeWithPythonBin. rewrite Hspawn.
    rewrite (first_settlement timeoutMs before after (CloseEvent exit) Hout eq_refl);
      [|discriminate].
    destruct exit as [[| |]|]; try reflexivity. contradiction. }
  pose proof (mention_is_not_found exit before Hmention) as Hnf.
  fold failure in Hnf.
  destruct (executeWithPythonBin "python3" code input timeoutMs e1) as [q e2] eqn:Hsecond.
  assert (Hrun : exists p,
             runPythonCode code input timeoutMs e
             = (p, [(default "python" PYTHON_BIN, Rejected failure); ("python3", q)], e2)).
  { unfold PythonBridge.runPythonCode.
    destruct candidates_cases as [[-> _]|[_ Heq]]; [|contradiction].
    cbn [PythonBridge.try_candidates]. rewrite Hfirst, Hnf, Hsecond.
    destruct q as [|value|err]; [eauto..|].
    destruct (PythonBridge.isNotFound err); eauto. }
  destruct Hrun as [p Hrun].
  exists failure, q, p, e2. split; [exact Hrun|]. split; [reflexivity|exact Hnf].
Qed.

End BridgeMore.

(** ** The generator *)

Lemma convertStructuredRule_fresh (candidate : StructuredRule) (r : Rule) :
  convertStructuredRule candidate = Some r -> fresh_draft r.
Proof.
  unfold convertStructuredRule.
  destruct candidate as [[rid|] [rname|] [desc|] [pref|] roles [code|]]; simpl;
    rewrite ?andb_false_r; simpl; try discriminate.
  destruct rid as [|c1 rid]; simpl; [discriminate|].
  destruct rname as [|c2 rname]; simpl; [discriminate|].
  destruct desc as [|c3 desc]; simpl; [discriminate|].
  destruct pref as [|c4 pref]; simpl; [discriminate|].
  destruct code as [|c5 code]; simpl; [discriminate|].
  intros [= <-]. unfold fresh_draft. simpl.
  repeat (split; [discriminate || reflexivity|]).
  destruct roles as [roles|]; [|constructor].
  apply Forall_forall. intros role Hin.
  apply list_elem_of_In, filter_In in Hin as [_ Hkept].
  unfold role_kept in Hkept. apply andb_true_iff in Hkept as [_ Hlen].
  intros Hblank. rewrite Hblank in Hlen. discriminate.
Qed.

Lemma omap_convert_fresh (candidates : list StructuredRule) :
  Forall fresh_draft (omap convertStructuredRule candidates).
Proof.
  apply Forall_forall. intros r Hin.
  apply list_elem_of_omap in Hin as (candidate & _ & Hconv).
  exact (convertStructuredRule_fresh candidate r Hconv).
Qed.

Section GeneratorMore.
Context {Ext : Type}.
Variable model : string.
Variable messages_create :
  MessageRequest -> Ext -> Outcome (option (list ContentBlock)) * Ext.
Variable JSON_parse_rules : string -> string + option (option (list StructuredRule)).

Local Abbreviation read_rules := (LLMGenerator.read_rules JSON_parse_rules).
Local Abbreviation requestStructuredRules :=
  (LLMGenerator.requestStructuredRules model messages_create JSON_parse_rules).
Local Abbreviation generateRules :=
  (LLMGenerator.generateRules model messages_create JSON_parse_rules).
Local Abbreviation regenerateRule :=
  (LLMGenerator.regenerateRule model messages_create JSON_parse_rules).

Lemma read_rules_fresh (content : option (list ContentBlock)) (drafts : list Rule) :
  read_rules content = Resolves drafts ->
  Forall fresh_draft drafts
  /\ exists text candidates,
       JSON_parse_rules text = inr (Some candidates)
       /\ drafts = omap convertStructuredRule (default [] candidates).
Proof.
  unfold LLMGenerator.read_rules.
  destruct (find_text_block (default [] content)) as [[type [text|]]|]; simpl;
    try discriminate.
  destruct (negb (JS.truthy (JS.trim text))); [discriminate|].
  destruct (JSON_parse_rules text) as [message|[candidates|]] eqn:Hparse;
    try discriminate.
  intros [= <-]. split; [apply omap_convert_fresh|].
  exists text, candidates. split; [exact Hparse|reflexivity].
Qed.

Lemma requestStructuredRules_fresh (prompt : string) (e e' : Ext) (drafts : list Rule) :
  requestStructuredRules prompt e = (Resolves drafts, e') ->
  Forall fresh_draft drafts.
Proof.
  unfold LLMGenerator.requestStructuredRules.
  destruct (messages_create _ e) as [[content|message] e1]; [|discriminate].
  intros [= Hread <-]. apply read_rules_fresh in Hread as [Hfresh _]. exact Hfresh.
Qed.

(** X18. Every rule the generator returns, from [generateRules] or from
    [regenerateRule], is a fresh draft: its id, name, description,
    policy reference and code are non-empty, it is active, on attempt 1,
    without history, and none of its roles is blank. Candidates of the
    model that lack a base field are dropped, not repaired. *)
Theorem generator_returns_fresh_drafts (context : GenerationContext) (e e' : Ext)
  (drafts : list Rule) :
  generateRules context e = (Resolves drafts, e')
  \/ regenerateRule context e = (Resolves drafts, e') ->
  Forall fresh_draft drafts.
Proof.
  intros [Hgen|Hregen].
  - exact (requestStructuredRules_fresh _ _ _ _ Hgen).
  - unfold LLMGenerator.regenerateRule in Hregen.
    destruct (previous_attempt context) as [previous|]; [|discriminate].
    exact (requestStructuredRules_fresh _ _ _ _ Hregen).
Qed.

(** X19. What [regenerateRule] sends. Without a previous attempt it
    rejects at once and the model is not asked; with one, the prompt
    holds the trimmed code of the failed attempt, the validator's error,
    the test output, the firm and the policy text. *)
Theorem regeneration_prompt_carries_feedback (context : GenerationContext) (e : Ext) :
  match previous_attempt context with
  | None =>
      regenerateRule context e
      = (Rejects "previous_attempt is required when regenerating a rule", e)
  | Some previous =>
      let prompt := buildRegenerationPrompt context previous in
      regenerateRule context e = requestStructuredRules prompt e
      /\ occurs_in (JS.trim (pa_code previous)) prompt
      /\ occurs_in (pa_error previous) prompt
      /\ occurs_in (pa_test_results previous) prompt
      /\ occurs_in ("Firm: " +:+ ctx_firm_name context) prompt
      /\ occurs_in (ctx_policy_text context) prompt
  end.
Proof.
  unfold LLMGenerator.regenerateRule.
  destruct (previous_attempt context) as [previous|]; [|reflexivity].
  split; [reflexivity|].
  unfold buildRegenerationPrompt, join_lines.
  repeat split; apply concat_occurs; simpl; tauto.
Qed.

End GeneratorMore.

Section PipelineGenerator.
Context {Ext : Type}.
Variable regenerateRule : GenerationContext -> Ext -> Outcome (list Rule) * Ext.
Variable validateRule : Rule -> Ext -> Outcome ValidationResult * Ext.
Variable maxIterationsPerRule : nat.
Variable Date_new : Ext -> DateReading * Ext.

Local Abbreviation refine_loop :=
  (Pipeline.refine_loop regenerateRule validateRule maxIterationsPerRule Date_new).
Local Abbreviation validateAndRefineRule :=
  (Pipeline.validateAndRefineRule regenerateRule validateRule maxIterationsPerRule Date_new).

Lemma or_lit_nonempty (a : option string) (c : ascii) (b : string) :
  JS.or_lit a (String c b) <> "".
Proof.
  unfold JS.or_lit. destruct a as [[|c' s]|]; simpl; discriminate.
Qed.

Lemma refine_loop_requests (fuel : nat) (initialRule : Rule) (policyText firmName : string) :
  forall (attempt : nat) (cur : Rule) (w : World Ext) out w',
    refine_loop fuel initialRule policyText firmName attempt cur w = (out, w') ->
    exists evs,
      log w' = log w ++ evs
      /\ Forall (regeneration_request policyText firmName) evs.
Proof.
  induction fuel as [|fuel IH]; intros attempt cur w out w' Hrun.
  { injection Hrun as <- <-. exists []. split; [now rewrite app_nil_r|constructor]. }
  simpl in Hrun.
  destruct (attempt <? maxIterationsPerRule)%nat.
  2:{ injection Hrun as <- <-. exists []. split; [now rewrite app_nil_r|constructor]. }
  unfold bind at 1 in Hrun. unfold call at 1 in Hrun.
  destruct (validateRule (set_generation_attempt (attempt + 1) cur) (ext w))
    as [[vr|msg] e1] eqn:Hval; simpl in Hrun.
  2:{ injection Hrun as <- <-. eexists. split; [reflexivity|].
      constructor; [exact I|constructor]. }
  unfold bind at 1 in Hrun. unfold clock at 1 in Hrun. simpl in Hrun.
  destruct (Date_new e1) as [stamp e2] eqn:Hclock.
  destruct (vr_passed vr) eqn:Hpass.
  { injection Hrun as <- <-. simpl. rewrite <- app_assoc. eexists. split; [reflexivity|].
    repeat constructor. }
  destruct (maxIterationsPerRule <=? attempt + 1)%nat.
  { injection Hrun as <- <-. simpl. rewrite <- app_assoc. eexists. split; [reflexivity|].
    repeat constructor. }
  unfold bind at 1 in Hrun. unfold call at 1 in Hrun. simpl in Hrun.
  match type of Hrun with
  | context [regenerateRule ?c e2] =>
      set (ctx := c) in Hrun;
      destruct (regenerateRule ctx e2) as [[regen|msg] e3]
  end; simpl in Hrun.
  2:{ injection Hrun as <- <-. simpl. rewrite <- !app_assoc. eexists.
      split; [reflexivity|]. simpl.
      repeat (constructor; [exact I|]). constructor; [|constructor].
      simpl. split; [reflexivity|]. split; [reflexivity|].
      eexists. split; [reflexivity|]. apply or_lit_nonempty. }
  assert (Hctx : regeneration_request policyText firmName (EvRegenerate ctx)).
  { simpl. split; [reflexivity|]. split; [reflexivity|].
    eexists. split; [reflexivity|]. apply or_lit_nonempty. }
  destruct regen as [|nextRule rest].
  { injection Hrun as <- <-. simpl. rewrite <- !app_assoc. eexists.
    split; [reflexivity|]. simpl.
    repeat (constructor; [exact I|]). constructor; [exact Hctx|constructor]. }
  apply IH in Hrun as (evs & Hlog & Hall). simpl in Hlog.
  rewrite <- !app_assoc in Hlog. eexists. split; [exact Hlog|]. simpl.
  repeat (constructor; [exact I|]). constructor; [exact Hctx|exact Hall].
Qed.

(** X20. The pipeline asks for a regeneration only with a previous
    attempt in hand. Every regeneration request of one
    [validateAndRefineRule] call carries the policy text and firm of the
    call and a previous attempt whose error text is non-empty, and the
    loop never asks for a fresh generation. So the generator's guard
    against a missing previous attempt does not fire under the
    pipeline. *)
Theorem pipeline_regenerates_with_previous_attempt (initialRule : Rule)
  (policyText firmName : string) (w w' : World Ext) (out : Res ValidationLoopResult) :
  validateAndRefineRule initialRule policyText firmName w = (out, w') ->
  exists evs,
    log w' = log w ++ evs
    /\ Forall (regeneration_request policyText firmName) evs.
Proof.
  unfold Pipeline.validateAndRefineRule. apply refine_loop_requests.
Qed.

End PipelineGenerator.

(** ** The query parser *)

Lemma upper_char_not_lower (c : ascii) : JS.is_lower (JS.upper_char c) = false.
Proof. destruct c as [[] [] [] [] [] [] [] []]; reflexivity. Qed.

Lemma upper_char_idempotent (c : ascii) : JS.upper_char (JS.upper_char c) = JS.upper_char c.
Proof. destruct c as [[] [] [] [] [] [] [] []]; reflexivity. Qed.

Lemma toUpperCase_idempotent (s : string) :
  JS.toUpperCase (JS.toUpperCase s) = JS.toUpperCase s.
Proof.
  unfold JS.toUpperCase. rewrite map_chars_compose.
  apply map_chars_ext, upper_char_idempotent.
Qed.

Section QueryParserMore.
Context {Ext : Type}.
Variable model : string.
Variable messages_create :
  MessageRequest -> Ext -> Outcome (option (list ContentBlock)) * Ext.
Variable JSON_parse_query : string -> string + option RawQuery.

Local Abbreviation parseQuery :=
  (QueryParser.parseQuery model messages_create JSON_parse_query).

Lemma read_query_ticker (content : option (list ContentBlock))
  (parsed : ParsedComplianceQuery) :
  QueryParser.read_query JSON_parse_query content = Resolves parsed ->
  exists raw t,
    raw_ticker raw = Some t
    /\ pq_ticker parsed = JS.trim (JS.toUpperCase t)
    /\ pq_ticker parsed <> ""
    /\ pq_ticker parsed <> "UNKNOWN"
    /\ pq_trade_date parsed = raw_trade_date raw
    /\ pq_action parsed = raw_action raw.
Proof.
  unfold QueryParser.read_query.
  destruct content as [blocks|]; [|discriminate].
  destruct (negb (JS.truthy_opt _)); [discriminate|].
  destruct (JSON_parse_query _) as [message|[raw|]]; try discriminate.
  destruct (raw_ticker raw) as [t|] eqn:Ht;
    cbn [fmap option_fmap option_map JS.truthy_opt JS.nullish negb orb];
    [|discriminate].
  destruct (JS.trim (JS.toUpperCase t)) as [|c ticker] eqn:Hticker;
    cbn [JS.truthy negb orb]; [discriminate|].
  destruct (String.eqb_spec (String c ticker) "UNKNOWN") as [Heq|Hne]; [discriminate|].
  intros [= <-]. exists raw, t. cbn [pq_ticker pq_trade_date pq_action].
  split; [exact Ht|]. split; [symmetry; exact Hticker|]. split; [discriminate|].
  split; [exact Hne|]. split; reflexivity.
Qed.

(** X21. A query that [parseQuery] accepts has a usable ticker: it is
    not empty and not [UNKNOWN], and it is already trimmed and in upper
    case, so an answer of the model such as [ unknown ] is refused too.
    The query itself was not blank: for a missing or blank query the
    parser rejects with [Query text is required.] and the model is not
    asked. *)
Theorem parseQuery_ticker_is_usable (query : option string)
  (context : option QueryContext) (e : Ext) :
  match parseQuery query context e with
  | (Resolves parsed, _) =>
      pq_ticker parsed <> ""
      /\ pq_ticker parsed <> "UNKNOWN"
      /\ JS.trim (pq_ticker parsed) = pq_ticker parsed
      /\ JS.toUpperCase (pq_ticker parsed) = pq_ticker parsed
      /\ exists q, query = Some q /\ JS.trim q <> ""
  | (Rejects message, e') =>
      (query = None \/ exists q, query = Some q /\ JS.trim q = "") ->
      message = "Query text is required." /\ e' = e
  end.
Proof.
  unfold QueryParser.parseQuery.
  destruct query as [q|].
  2:{ intros _. split; reflexivity. }
  destruct (JS.trim q) as [|c q'] eqn:Hq; simpl.
  { intros _. split; reflexivity. }
  destruct (messages_create _ e) as [[content|message] e1].
  2:{ intros [Hnone|(q0 & [= <-] & Hblank)]; [discriminate|].
      rewrite Hq in Hblank. discriminate. }
  destruct (QueryParser.read_query JSON_parse_query content) as [parsed|message] eqn:Hread.
  2:{ intros [Hnone|(q0 & [= <-] & Hblank)]; [discriminate|].
      rewrite Hq in Hblank. discriminate. }
  apply read_query_ticker in Hread as (raw & t & _ & Hticker & Hne & Hunknown & _).
  split; [exact Hne|]. split; [exact Hunknown|].
  split; [rewrite Hticker; apply trim_idempotent|].
  split.
  - rewrite Hticker, <- toUpperCase_trim, toUpperCase_idempotent. reflexivity.
  - exists q. split; [reflexivity|]. rewrite Hq. discriminate.
Qed.

End QueryParserMore.

(** ** The ingestion endpoint *)

Lemma trimmed_field (field : option string) :
  JS.truthy_opt (JS.trim <$> field) = true ->
  JS.nullish (JS.trim <$> field) "" <> ""
  /\ JS.trim (JS.nullish (JS.trim <$> field) "") = JS.nullish (JS.trim <$> field) "".
Proof.
  destruct field as [s|]; simpl; [|discriminate].
  intros Htruthy. split; [|apply trim_idempotent].
  destruct (JS.trim s); [discriminate Htruthy|discriminate].
Qed.

Lemma summarize_recorded (r : Rule) :
  well_recorded r ->
  sum_validated (summarize r) = true /\ 1 <= sum_attempts (summarize r).
Proof.
  intros (Hlast & Hlen & _). unfold last_passed in Hlast. unfold summarize. simpl.
  rewrite Hlast. split; [reflexivity|]. rewrite <- Hlen.
  destruct (validation_history r); [discriminate Hlast|simpl; lia].
Qed.

Section IngestApi.
Context {Ext : Type}.
Variable generateRules : GenerationContext -> Ext -> Outcome (list Rule) * Ext.
Variable regenerateRule : GenerationContext -> Ext -> Outcome (list Rule) * Ext.
Variable validateRule : Rule -> Ext -> Outcome ValidationResult * Ext.
Variable Date_new : Ext -> DateReading * Ext.
Variable mkdirSync : string -> Ext -> Outcome unit * Ext.
Variable is_EEXIST : string -> bool.
Variable path_join : string -> string -> string.
Variable dirname : string -> string.
Variable Bun_write : string -> string -> Ext -> Outcome unit * Ext.
Variable JSON_stringify_data : RulesData -> string.
Variable rulesDir : string.

(** [new IterativePipeline()] of the module: the default services and
    the default attempt budget. *)
Local Abbreviation processPolicy :=
  (Pipeline.processPolicy generateRules regenerateRule validateRule
     (constructor_maxIterationsPerRule None) Date_new
     (Storage.saveRules mkdirSync is_EEXIST path_join dirname Bun_write
        JSON_stringify_data Date_new rulesDir)).
Local Abbreviation POST := (PolicyIngest.POST processPolicy).
Local Abbreviation calls := Pipeline.validator_calls.

(** X22. The ingestion endpoint always answers, and the request decides
    the answer. A body that cannot be read gets status 500 with the
    error's message as details. For a body whose fields are ASCII
    strings: when the firm name or the policy text is missing or blank,
    the answer is status 400, [firm_name and policy_text are required.],
    given before any service is called; otherwise the pipeline runs on
    the trimmed policy text and firm name: when it throws, the answer is
    status 500 with the thrown message as details; when it returns, the
    answer is status 200 and names the trimmed, non-empty firm, counts
    the rules of the bundle, reports as [total_iterations] the validator
    calls of this request, and lists one summary per rule, each
    validated and with at least one attempt. *)
Theorem policy_ingest_responses
  (request_json : Ext -> Outcome (option PolicyIngestRequest) * Ext) (w : World Ext) :
  exists resp w',
    POST request_json w = (Ok resp, w')
    /\ match fst (request_json (ext w)) with
       | Rejects message =>
           resp = {| status := 500;
                     body := IngestError "Failed to ingest policy." (Some message) |}
           /\ log w' = log w
       | Resolves None =>
           (exists details,
              resp = {| status := 500;
                        body := IngestError "Failed to ingest policy." (Some details) |})
           /\ log w' = log w
       | Resolves (Some request) =>
           ascii_field (pi_firm_name request) = true ->
           ascii_field (pi_policy_text request) = true ->
           let firmName := trimmed (pi_firm_name request) in
           let policyText := trimmed (pi_policy_text request) in
           if blank (pi_firm_name request) || blank (pi_policy_text request) then
             resp = {| status := 400;
                       body := IngestError "firm_name and policy_text are required."
                                 None |}
             /\ log w' = log w
             /\ cache w' = cache w
           else
             match fst (processPolicy policyText firmName (snd (await request_json w))) with
             | Ok data =>
                 resp = {| status := 200;
                           body := IngestSuccess firmName (length (rules data))
                                     (total_iterations data) (summarize <$> rules data) |}
                 /\ firmName <> ""
                 /\ JS.trim firmName = firmName
                 /\ total_iterations data = calls (log w') - calls (log w)
                 /\ Forall (fun s => sum_validated s = true /\ 1 <= sum_attempts s)
                           (summarize <$> rules data)
             | Throw message =>
                 resp = {| status := 500;
                           body := IngestError "Failed to ingest policy." (Some message) |}
             | OutOfFuel => False
             end
       end.
Proof.
  unfold PolicyIngest.POST, try_catch, bind at 1, await, blank, trimmed.
  destruct (request_json (ext w)) as [[[request|]|message] e1]; simpl.
  2,3: eexists _, _; (split; [reflexivity|]); simpl; split; eauto.
  destruct (JS.truthy_opt (JS.trim <$> pi_firm_name request)) eqn:Hfirm; simpl.
  2:{ eexists _, _. split; [reflexivity|]. intros _ _. repeat split; reflexivity. }
  destruct (JS.truthy_opt (JS.trim <$> pi_policy_text request)) eqn:Hpolicy; simpl.
  2:{ eexists _, _. split; [reflexivity|]. intros _ _. repeat split; reflexivity. }
  unfold bind.
  match goal with
  | |- context [Pipeline.processPolicy _ _ _ ?budget _ _ ?pt ?fn ?w1] =>
      pose proof (processPolicy_completes generateRules regenerateRule validateRule
                    budget Date_new mkdirSync is_EEXIST path_join dirname Bun_write
                    JSON_stringify_data rulesDir pt fn w1) as Hfuel;
      destruct (Pipeline.processPolicy generateRules regenerateRule validateRule
                  budget Date_new
                  (Storage.saveRules mkdirSync is_EEXIST path_join dirname Bun_write
                     JSON_stringify_data Date_new rulesDir) pt fn w1)
        as [[data|message|] w2] eqn:Hrun
  end.
  - eexists _, _. split; [reflexivity|]. simpl. intros _ _.
    apply processPolicy_facts in Hrun as (Htotal & _ & Hrecorded & _).
    destruct (trimmed_field _ Hfirm) as [Hne Htrim].
    split; [reflexivity|]. split; [exact Hne|]. split; [exact Htrim|].
    split; [exact Htotal|].
    apply Forall_fmap. eapply Forall_impl; [exact Hrecorded|].
    intros r Hr. exact (summarize_recorded r Hr).
  - eexists _, _. split; [reflexivity|]. simpl. intros _ _. reflexivity.
  - contradiction Hfuel. reflexivity.
Qed.

End IngestApi.

(** ** The compliance endpoint *)

Lemma assoc_set_prop (key : string) (value : JSValue) (props : list (string * JSValue)) :
  assoc key (set_prop key value props) = Some value.
Proof.
  induction props as [|[k v] rest IH]; simpl.
  - now rewrite String.eqb_refl.
  - destruct (String.eqb k key) eqn:Hk; simpl.
    + now rewrite String.eqb_refl.
    + rewrite String.eqb_sym, Hk. exact IH.
Qed.

Lemma assoc_set_prop_other (key other : string) (value : JSValue)
  (props : list (string * JSValue)) :
  String.eqb key other = false ->
  assoc key (set_prop other value props) = assoc key props.
Proof.
  intros Hne. induction props as [|[k v] rest IH]; simpl.
  - now rewrite Hne.
  - destruct (String.eqb k other) eqn:Hk; simpl.
    + apply String.eqb_eq in Hk as ->. now rewrite Hne.
    + now rewrite IH.
Qed.

Lemma assoc_drop_prop_other (key other : string) (props : list (string * JSValue)) :
  String.eqb key other = false ->
  assoc key (drop_prop other props) = assoc key props.
Proof.
  intros Hne. induction props as [|[k v] rest IH]; simpl; [reflexivity|].
  destruct (String.eqb k other) eqn:Hk; simpl.
  - apply String.eqb_eq in Hk as ->. now rewrite Hne.
  - now rewrite IH.
Qed.

Lemma assoc_put_prop_other (key other : string) (value : option JSValue)
  (props : list (string * JSValue)) :
  String.eqb key other = false ->
  assoc key (put_prop other value props) = assoc key props.
Proof.
  intros Hne. destruct value as [v|]; simpl;
    [apply assoc_set_prop_other | apply assoc_drop_prop_other]; exact Hne.
Qed.

(** The firm of the request replaces any [firm] of the demo record. *)
Lemma employee_of_firm (employeeRecord : DemoEmployee) (firmName : string)
  (restrictions : FirmRestrictions) :
  assoc "firm" (emp_props (employee_of employeeRecord firmName restrictions))
  = Some (JStr firmName).
Proof.
  unfold employee_of. cbn [emp_props].
  rewrite !assoc_put_prop_other by reflexivity.
  cbn [put_prop]. apply assoc_set_prop.
Qed.

Section CheckApi.
Context {Ext : Type}.
Variable parseQuery :
  option string -> option QueryContext -> Ext -> Outcome ParsedComplianceQuery * Ext.
Variable DATA_PATH : string.
Variable file_exists : string -> Ext -> Outcome bool * Ext.
Variable file_text : string -> Ext -> Outcome string * Ext.
Variable JSON_parse_demo : string -> string + DemoData.
Variable runPythonCode : RunnerPayload -> N -> Ext -> Outcome string * Ext.
Variable JSON_parse : string -> string + JSValue.
Variable path_join : string -> string -> string.
Variable JSON_parse_data : string -> string + RulesData.
Variable rulesDir : string.
Variable Date_new : Ext -> DateReading * Ext.

Local Abbreviation loadRules :=
  (Storage.loadRules path_join file_exists file_text JSON_parse_data rulesDir).
Local Abbreviation checkCompliance :=
  (Executor.checkCompliance runPythonCode JSON_parse loadRules).
Local Abbreviation loadDemoData :=
  (DemoDataService.loadDemoData DATA_PATH file_exists file_text JSON_parse_demo).
Local Abbreviation getEmployeeById :=
  (DemoDataService.getEmployeeById DATA_PATH file_exists file_text JSON_parse_demo).
Local Abbreviation getFirmRestrictions :=
  (DemoDataCache.getFirmRestrictions DATA_PATH file_exists file_text JSON_parse_demo).
Local Abbreviation trade_date_of := (ComplianceCheck.trade_date_of Date_new).
Local Abbreviation POST :=
  (ComplianceCheck.POST parseQuery getEmployeeById getFirmRestrictions checkCompliance
     Date_new).

Lemma loadRules_runs_nothing (firmName : string) (w w' : World Ext) out :
  loadRules firmName w = (out, w') ->
  out <> OutOfFuel /\ rules_run (log w') = rules_run (log w).
Proof.
  unfold Storage.loadRules, bind, cache_get, call.
  destruct (cache w !! firmName) as [cached|].
  { intros [= <- <-]. split; [discriminate|reflexivity]. }
  destruct (file_exists _ (ext w)) as [[present|msg] e1]; simpl.
  2:{ intros [= <- <-]. split; [discriminate|].
      simpl. rewrite rules_run_app. apply app_nil_r. }
  destruct present; simpl.
  2:{ intros [= <- <-]. split; [discriminate|].
      simpl. rewrite rules_run_app. apply app_nil_r. }
  destruct (file_text _ e1) as [[contents|msg] e2]; simpl.
  2:{ intros [= <- <-]. split; [discriminate|].
      simpl. rewrite !rules_run_app. simpl. rewrite !app_nil_r. reflexivity. }
  destruct (JSON_parse_data contents) as [msg|parsed]; simpl;
    intros [= <- <-]; (split; [discriminate|]);
    simpl; rewrite !rules_run_app; simpl; rewrite !app_nil_r; reflexivity.
Qed.

Lemma checkCompliance_cases (firmName : string) (e : Employee) (s : Security)
  (d : string) (w w' : World Ext) out :
  checkCompliance firmName e s d w = (out, w') ->
  (exists msg, out = Throw msg /\ rules_run (log w') = rules_run (log w))
  \/ (exists verdict invoked,
        out = Ok verdict
        /\ rules_run (log w') = rules_run (log w) ++ (payload_for e s d <$> invoked)
        /\ rules_checked verdict = rule_name <$> invoked).
Proof.
  unfold Executor.checkCompliance, bind.
  destruct (loadRules firmName w) as [[[stored|]|msg|] w1] eqn:Hload;
    apply loadRules_runs_nothing in Hload as [Hfuel Hlog].
  - rewrite check_rules_outcomes. intros [= <- <-]. right.
    exists (fold_left apply_outcome
              (fst (Executor.outcomes runPythonCode JSON_parse e s d (rules stored) w1))
              empty_response),
           (List.filter (applies e) (rules stored)).
    split; [reflexivity|].
    destruct (outcomes_invoked runPythonCode JSON_parse e s d (rules stored) w1)
      as (Hfst & Hrun & _).
    split; [rewrite Hrun, Hlog; reflexivity|].
    destruct (fold_apply_outcome
                (fst (Executor.outcomes runPythonCode JSON_parse e s d (rules stored) w1))
                empty_response) as (_ & _ & _ & Hchecked).
    cbv zeta in Hchecked. rewrite Hchecked. simpl.
    rewrite <- Hfst, <- list_fmap_compose. reflexivity.
  - intros [= <- <-]. right. exists empty_response, [].
    split; [reflexivity|]. split; [simpl; rewrite app_nil_r; exact Hlog|reflexivity].
  - intros [= <- <-]. left. exists msg. split; [reflexivity|exact Hlog].
  - contradiction Hfuel. reflexivity.
Qed.

Lemma loadDemoData_runs_nothing (w w' : World Ext) out :
  loadDemoData w = (out, w') ->
  out <> OutOfFuel /\ rules_run (log w') = rules_run (log w).
Proof.
  intros Hload. apply loadDemoData_spec in Hload as (Hkept & Hlog & _).
  split; [destruct out; [discriminate|discriminate|contradiction]|].
  destruct Hlog as [-> | [-> | ->]]; rewrite ?rules_run_app; simpl;
    rewrite ?app_nil_r; reflexivity.
Qed.

Lemma getEmployeeById_runs_nothing (employeeId : string) (w w' : World Ext) out :
  getEmployeeById employeeId w = (out, w') ->
  out <> OutOfFuel /\ rules_run (log w') = rules_run (log w).
Proof.
  unfold DemoDataService.getEmployeeById.
  destruct (negb (JS.truthy employeeId)).
  { intros [= <- <-]. split; [discriminate|reflexivity]. }
  unfold bind. destruct (loadDemoData w) as [[data|msg|] w1] eqn:Hload;
    apply loadDemoData_runs_nothing in Hload as [Hfuel Hlog];
    intros [= <- <-]; (split; [try discriminate; exfalso; apply Hfuel; reflexivity|exact Hlog]).
Qed.

Lemma getFirmRestrictions_runs_nothing (w w' : World Ext) out :
  getFirmRestrictions w = (out, w') ->
  out <> OutOfFuel /\ rules_run (log w') = rules_run (log w).
Proof.
  unfold DemoDataCache.getFirmRestrictions, bind.
  destruct (loadDemoData w) as [[data|msg|] w1] eqn:Hload;
    apply loadDemoData_runs_nothing in Hload as [Hfuel Hlog];
    intros [= <- <-]; (split; [try discriminate; exfalso; apply Hfuel; reflexivity|exact Hlog]).
Qed.

Lemma trade_date_of_cases (request : ComplianceCheckRequest)
  (parsedQuery : ParsedComplianceQuery) (w w' : World Ext) out :
  trade_date_of request parsedQuery w = (out, w') ->
  rules_run (log w') = rules_run (log w)
  /\ exists date,
       out = Ok date
       /\ date = match cc_trade_date request, pq_trade_date parsedQuery with
                 | Some given, _ => given
                 | None, Some parsed => parsed
                 | None, None => JS.take 10 (toISOString (fst (Date_new (ext w))))
                 end
       /\ (cc_trade_date request <> None \/ pq_trade_date parsedQuery <> None -> w' = w).
Proof.
  unfold ComplianceCheck.trade_date_of.
  destruct (cc_trade_date request) as [given|].
  { intros [= <- <-]. split; [reflexivity|]. exists given. auto. }
  destruct (pq_trade_date parsedQuery) as [parsed|].
  { intros [= <- <-]. split; [reflexivity|]. exists parsed. auto. }
  unfold bind, clock. destruct (Date_new (ext w)) as [now e1]. simpl.
  intros [= <- <-]. split.
  - simpl. rewrite rules_run_app. apply app_nil_r.
  - eexists. split; [reflexivity|]. split; [reflexivity|].
    intros [H|H]; contradiction.
Qed.

(** Everything the endpoint can answer. *)
Lemma POST_cases
  (request_json : Ext -> Outcome (option ComplianceCheckRequest) * Ext)
  (w : World Ext) :
  exists resp w',
    POST request_json w = (Ok resp, w')
    /\ ((exists code message details,
           body resp = CheckError code message details
           /\ rules_run (log w') = rules_run (log w)
           /\ (status resp = 400 /\ code = "INVALID_REQUEST" /\ log w' = log w
               \/ status resp = 400 /\ code = "PARSE_ERROR" /\ log w' = log w
               \/ status resp = 404 /\ code = "EMPLOYEE_NOT_FOUND"
               \/ status resp = 500 /\ code = "UNEXPECTED_ERROR" /\ details <> None))
        \/ (exists request parsedQuery employeeRecord restrictions w1 tradeDate verdict
                   invoked,
              fst (request_json (ext w)) = Resolves (Some request)
              /\ status resp = 200
              /\ body resp
                 = CheckSuccess (JS.nullish (JS.trim <$> cc_firm_name request) "")
                     (JS.nullish (JS.trim <$> cc_employee_id request) "")
                     (pq_ticker parsedQuery) (pq_action parsedQuery) tradeDate verdict
              /\ JS.nullish (JS.trim <$> cc_firm_name request) "" <> ""
              /\ JS.nullish (JS.trim <$> cc_employee_id request) "" <> ""
              /\ tradeDate
                 = match cc_trade_date request, pq_trade_date parsedQuery with
                   | Some given, _ => given
                   | None, Some parsed => parsed
                   | None, None => JS.take 10 (toISOString (fst (Date_new (ext w1))))
                   end
              /\ rules_run (log w')
                 = rules_run (log w)
                   ++ (payload_for
                         (employee_of employeeRecord
                            (JS.nullish (JS.trim <$> cc_firm_name request) "")
                            restrictions)
                         (security_of parsedQuery) tradeDate <$> invoked)
              /\ rules_checked verdict = rule_name <$> invoked)).
Proof.
  unfold ComplianceCheck.POST, try_catch, bind at 1, await.
  destruct (request_json (ext w)) as [[[request|]|message] e1]; simpl.
  2,3: eexists _, _; (split; [reflexivity|]); left; eexists _, _, _;
       (split; [reflexivity|]); (split; [reflexivity|]);
       right; right; right; repeat split; discriminate.
  destruct (JS.truthy_opt (JS.trim <$> cc_firm_name request)) eqn:Hfirm; simpl.
  2:{ eexists _, _. split; [reflexivity|]. left. eexists _, _, _.
      split; [reflexivity|]. split; [reflexivity|]. left. repeat split. }
  destruct (JS.truthy_opt (JS.trim <$> cc_employee_id request)) eqn:Hemp; simpl.
  2:{ eexists _, _. split; [reflexivity|]. left. eexists _, _, _.
      split; [reflexivity|]. split; [reflexivity|]. left. repeat split. }
  destruct (JS.truthy_opt (JS.trim <$> cc_query request)) eqn:Hquery; simpl.
  2:{ eexists _, _. split; [reflexivity|]. left. eexists _, _, _.
      split; [reflexivity|]. split; [reflexivity|]. left. repeat split. }
  destruct (trimmed_field _ Hfirm) as [Hfirm_ne _].
  destruct (trimmed_field _ Hemp) as [Hemp_ne _].
  set (firmName := JS.nullish (JS.trim <$> cc_firm_name request) "") in *.
  set (employeeId := JS.nullish (JS.trim <$> cc_employee_id request) "") in *.
  unfold bind at 1, attempt, try_catch, bind at 1, await. simpl.
  destruct (parseQuery _ _ e1) as [[parsedQuery|message] e2]; simpl.
  2:{ eexists _, _. split; [reflexivity|]. left. eexists _, _, _.
      split; [reflexivity|]. split; [reflexivity|]. right. left. repeat split. }
  unfold bind at 1.
  match goal with
  | |- context [getEmployeeById employeeId ?w2] =>
      destruct (getEmployeeById employeeId w2) as [[[employeeRecord|]|message|] w3]
        eqn:Hlookup;
      apply getEmployeeById_runs_nothing in Hlookup as [Hfuel3 Hlog3];
      simpl in Hlog3
  end.
  2:{ eexists _, _. split; [reflexivity|]. left. eexists _, _, _.
      split; [reflexivity|]. split; [exact Hlog3|]. right. right. left.
      repeat split. }
  2:{ eexists _, _. split; [reflexivity|]. left. eexists _, _, _.
      split; [reflexivity|]. split; [exact Hlog3|]. right. right. right.
      repeat split. discriminate. }
  2:{ contradiction Hfuel3. reflexivity. }
  unfold bind at 1.
  destruct (getFirmRestrictions w3) as [[restrictions|message|] w4] eqn:Hrestr;
    apply getFirmRestrictions_runs_nothing in Hrestr as [Hfuel4 Hlog4].
  2:{ eexists _, _. split; [reflexivity|]. left. eexists _, _, _.
      split; [reflexivity|]. split; [rewrite Hlog4; exact Hlog3|].
      right. right. right. repeat split. discriminate. }
  2:{ contradiction Hfuel4. reflexivity. }
  unfold bind at 1.
  destruct (trade_date_of request parsedQuery w4) as [outd w5] eqn:Hdate.
  apply trade_date_of_cases in Hdate as (Hlog5 & tradeDate & -> & Hdate & _).
  unfold bind at 1.
  match goal with
  | |- context [checkCompliance firmName ?e ?s tradeDate w5] =>
      destruct (checkCompliance firmName e s tradeDate w5) as [outc w6] eqn:Hcheck;
      apply checkCompliance_cases in Hcheck
        as [(message & -> & Hlog6) | (verdict & invoked & -> & Hlog6 & Hchecked)]
  end.
  - eexists _, _. split; [reflexivity|]. left. eexists _, _, _.
    split; [reflexivity|]. split; [rewrite Hlog6, Hlog5, Hlog4; exact Hlog3|].
    right. right. right. repeat split. discriminate.
  - eexists _, _. split; [reflexivity|]. right.
    exists request, parsedQuery, employeeRecord, restrictions, w4, tradeDate, verdict,
      invoked.
    split; [reflexivity|]. split; [reflexivity|]. split; [reflexivity|].
    split; [exact Hfirm_ne|]. split; [exact Hemp_ne|]. split; [exact Hdate|].
    split; [|exact Hchecked].
    rewrite Hlog6, Hlog5, Hlog4, Hlog3. reflexivity.
Qed.

(** After a load that returned, the firm restrictions are read from the
    cached data: no failure and no effect. *)
Lemma getFirmRestrictions_loaded (w w1 : World Ext) (data : DemoData) :
  loadDemoData w = (Ok data, w1) ->
  exists restrictions, getFirmRestrictions w1 = (Ok restrictions, w1).
Proof.
  intros Hload. apply loadDemoData_spec in Hload as (Hcached & _).
  unfold DemoDataCache.getFirmRestrictions, bind.
  rewrite (loadDemoData_again DATA_PATH file_exists file_text JSON_parse_demo
             w1 (Ok data) Hcached). eexists. reflexivity.
Qed.

(** X23. The compliance endpoint always answers, and the request decides
    the answer, in this order. A body that cannot be read gets 500
    [UNEXPECTED_ERROR] with the error's message. For a body whose fields
    are ASCII strings: a missing or blank firm name, employee id or
    query gets 400 [INVALID_REQUEST], before any call; else, when the
    query parser rejects, 400 [PARSE_ERROR] with the parser's message as
    details, before any file is touched; else, when the demo data cannot
    be loaded, 500 with the load's message; else, when no employee of
    the demo data has the trimmed id of the request as its id, letter
    case aside, 404 [EMPLOYEE_NOT_FOUND] with a message naming the
    trimmed id; else the first such employee is checked: the answer is
    200 with the trimmed firm and id, the parsed ticker and action, the
    trade date and the verdict of [checkCompliance], or 500 with its
    message when [checkCompliance] throws. No rule is run on a request
    that is answered with an error. *)
Theorem compliance_check_responses
  (request_json : Ext -> Outcome (option ComplianceCheckRequest) * Ext)
  (w : World Ext) :
  exists resp w',
    POST request_json w = (Ok resp, w')
    /\ match fst (request_json (ext w)) with
       | Rejects message => resp = unexpected_error message /\ log w' = log w
       | Resolves None =>
           (exists details, resp = unexpected_error details) /\ log w' = log w
       | Resolves (Some request) =>
           ascii_field (cc_firm_name request) = true ->
           ascii_field (cc_employee_id request) = true ->
           ascii_field (cc_query request) = true ->
           let firmName := trimmed (cc_firm_name request) in
           let employeeId := trimmed (cc_employee_id request) in
           let ask :=
             parseQuery (JS.trim <$> cc_query request)
               (Some {| qc_firmName := Some firmName;
                        qc_employeeId := Some employeeId |}) in
           let w1 := snd (await request_json w) in
           if blank (cc_firm_name request) || blank (cc_employee_id request)
              || blank (cc_query request) then
             resp = {| status := 400;
                       body := CheckError "INVALID_REQUEST"
                                 "firm_name, employee_id, and query are required."
                                 None |}
             /\ log w' = log w
           else
             match fst (ask (ext w1)) with
             | Rejects message =>
                 resp = {| status := 400;
                           body := CheckError "PARSE_ERROR"
                                     "Unable to interpret the natural language query."
                                     (Some message) |}
                 /\ log w' = log w
             | Resolves parsedQuery =>
                 match loadDemoData (snd (await ask w1)) with
                 | (Throw message, _) =>
                     resp = unexpected_error message
                     /\ rules_run (log w') = rules_run (log w)
                 | (OutOfFuel, _) => False
                 | (Ok data, w3) =>
                     ascii_ids data ->
                     match demo_employees data
                           ≫= List.find (DemoDataService.id_matches
                                           (JS.toUpperCase employeeId)) with
                     | None =>
                         resp = {| status := 404;
                                   body := CheckError "EMPLOYEE_NOT_FOUND"
                                             ("Employee " +:+ employeeId
                                              +:+ " was not found in demo_data_simple.json.")
                                             None |}
                         /\ rules_run (log w') = rules_run (log w)
                     | Some employeeRecord =>
                         firmName <> "" /\ employeeId <> ""
                         /\ exists restrictions tradeDate w4,
                              getFirmRestrictions w3 = (Ok restrictions, w3)
                              /\ trade_date_of request parsedQuery w3 = (Ok tradeDate, w4)
                              /\ match fst (checkCompliance firmName
                                              (employee_of employeeRecord firmName
                                                 restrictions)
                                              (security_of parsedQuery) tradeDate w4) with
                                 | Ok verdict =>
                                     resp = {| status := 200;
                                               body := CheckSuccess firmName employeeId
                                                         (pq_ticker parsedQuery)
                                                         (pq_action parsedQuery)
                                                         tradeDate verdict |}
                                 | Throw message =>
                                     resp = unexpected_error message
                                     /\ rules_run (log w') = rules_run (log w)
                                 | OutOfFuel => False
                                 end
                     end
                 end
             end
       end.
Proof.
  unfold ComplianceCheck.POST, try_catch, bind at 1, await, blank, trimmed,
    unexpected_error.
  destruct (request_json (ext w)) as [[[request|]|message] e1]; simpl.
  2,3: eexists _, _; (split; [reflexivity|]); split; eauto.
  destruct (JS.truthy_opt (JS.trim <$> cc_firm_name request)) eqn:Hfirm; simpl.
  2:{ eexists _, _. split; [reflexivity|]. intros _ _ _. split; reflexivity. }
  destruct (JS.truthy_opt (JS.trim <$> cc_employee_id request)) eqn:Hemp; simpl.
  2:{ eexists _, _. split; [reflexivity|]. intros _ _ _. split; reflexivity. }
  destruct (JS.truthy_opt (JS.trim <$> cc_query request)) eqn:Hquery; simpl.
  2:{ eexists _, _. split; [reflexivity|]. intros _ _ _. split; reflexivity. }
  destruct (trimmed_field _ Hfirm) as [Hfirm_ne _].
  destruct (trimmed_field _ Hemp) as [Hemp_ne Hemp_trim].
  set (firmName := JS.nullish (JS.trim <$> cc_firm_name request) "") in *.
  set (employeeId := JS.nullish (JS.trim <$> cc_employee_id request) "") in *.
  unfold bind at 1, attempt, try_catch, bind at 1, await. simpl.
  destruct (parseQuery _ _ e1) as [[parsedQuery|message] e2]; simpl.
  2:{ eexists _, _. split; [reflexivity|]. intros _ _ _. split; reflexivity. }
  unfold bind at 1.
  match goal with
  | |- context [getEmployeeById employeeId ?w2] =>
      rewrite (getEmployeeById_nonempty DATA_PATH file_exists file_text JSON_parse_demo
                 employeeId w2 Hemp_ne);
      unfold bind at 1;
      destruct (loadDemoData w2) as [[data|message|] w3] eqn:Hload;
      pose proof (loadDemoData_runs_nothing _ _ _ Hload) as [Hfuel3 Hlog3];
      simpl in Hlog3
  end.
  2:{ eexists _, _. split; [reflexivity|]. intros _ _ _. split; [reflexivity|exact Hlog3]. }
  2:{ contradiction Hfuel3. reflexivity. }
  rewrite Hemp_trim.
  set (found := demo_employees data
                ≫= List.find (DemoDataService.id_matches (JS.toUpperCase employeeId))).
  change (match demo_employees data with
          | Some employees =>
              List.find (DemoDataService.id_matches (JS.toUpperCase employeeId)) employees
          | None => None
          end) with found.
  destruct found as [employeeRecord|]; simpl.
  2:{ eexists _, _. split; [reflexivity|]. intros _ _ _ _.
      split; [reflexivity|exact Hlog3]. }
  destruct (getFirmRestrictions_loaded _ _ _ Hload) as [restrictions Hrestr].
  unfold bind at 1. rewrite Hrestr.
  unfold bind at 1.
  destruct (trade_date_of request parsedQuery w3) as [outd w5] eqn:Hdate.
  pose proof (trade_date_of_cases _ _ _ _ _ Hdate) as (Hlog5 & tradeDate & -> & _ & _).
  unfold bind at 1.
  match goal with
  | |- context [checkCompliance firmName ?e ?s tradeDate w5] =>
      destruct (checkCompliance firmName e s tradeDate w5) as [outc w6] eqn:Hcheck;
      pose proof (checkCompliance_cases _ _ _ _ _ _ _ Hcheck)
        as [(message & -> & Hlog6) | (verdict & invoked & -> & Hlog6 & Hchecked)]
  end.
  - eexists _, _. split; [reflexivity|]. intros _ _ _ _.
    split; [exact Hfirm_ne|]. split; [exact Hemp_ne|].
    exists restrictions, tradeDate, w5.
    split; [reflexivity|]. split; [reflexivity|].
    rewrite Hcheck. simpl. split; [reflexivity|].
    rewrite Hlog6, Hlog5. exact Hlog3.
  - eexists _, _. split; [reflexivity|]. intros _ _ _ _.
    split; [exact Hfirm_ne|]. split; [exact Hemp_ne|].
    exists restrictions, tradeDate, w5.
    split; [reflexivity|]. split; [reflexivity|].
    rewrite Hcheck. reflexivity.
Qed.

(** X24. What a successful check was evaluated with. The trade date is
    the one of the request body if it has one, else the one parsed from
    the query, else the first ten characters of the current time. The
    answer echoes that date and the parsed ticker, and every rule run
    for the request received exactly that date and that ticker, for an
    employee whose [firm] is the trimmed firm name of the request;
    [rules_checked] has one name per rule run. *)
Theorem compliance_check_evaluates_echoed_query
  (request_json : Ext -> Outcome (option ComplianceCheckRequest) * Ext)
  (w w' : World Ext) (resp : Response CheckBody)
  (firm employeeId symbol tradeDate : string) (action : option string)
  (verdict : ComplianceResult) :
  POST request_json w = (Ok resp, w') ->
  body resp = CheckSuccess firm employeeId symbol action tradeDate verdict ->
  exists request payloads,
    fst (request_json (ext w)) = Resolves (Some request)
    /\ firm = JS.nullish (JS.trim <$> cc_firm_name request) ""
    /\ (forall given, cc_trade_date request = Some given -> tradeDate = given)
    /\ rules_run (log w') = rules_run (log w) ++ payloads
    /\ Forall (fun payload =>
                 rp_date payload = tradeDate
                 /\ ticker (rp_security payload) = symbol
                 /\ assoc "firm" (emp_props (rp_employee payload)) = Some (JStr firm))
              payloads
    /\ length (rules_checked verdict) = length payloads.
Proof.
  intros Hrun Hbody.
  destruct (POST_cases request_json w) as (resp0 & w0 & Hrun0 & Hcases).
  rewrite Hrun in Hrun0. injection Hrun0 as <- <-.
  destruct Hcases as [(code & message & details & Herr & _)
                     | (request & parsedQuery & employeeRecord & restrictions & w1
                        & date & verdict0 & invoked & Hreq & _ & Hok & _ & _ & Hdate
                        & Hlog & Hchecked)].
  { rewrite Hbody in Herr. discriminate. }
  rewrite Hbody in Hok. injection Hok as -> -> -> -> -> ->.
  exists request, (payload_for
                     (employee_of employeeRecord
                        (JS.nullish (JS.trim <$> cc_firm_name request) "") restrictions)
                     (security_of parsedQuery) date <$> invoked).
  split; [exact Hreq|]. split; [reflexivity|]. split.
  { intros given Hgiven. rewrite Hdate, Hgiven. reflexivity. }
  split; [exact Hlog|]. split.
  - apply Forall_fmap, Forall_forall. intros r _. simpl.
    split; [reflexivity|]. split; [reflexivity|]. apply employee_of_firm.
  - rewrite Hchecked, !length_fmap. reflexivity.
Qed.

End CheckApi.

(** ** CORS *)

Lemma existsb_eqb_In (x : string) (l : list string) :
  existsb (String.eqb x) l = true <-> In x l.
Proof.
  rewrite existsb_exists. split.
  - intros (y & Hin & Heq). apply String.eqb_eq in Heq as ->. exact Hin.
  - intros Hin. exists x. split; [exact Hin|apply String.eqb_refl].
Qed.

Ltac pick_entry :=
  repeat match goal with
         | H : _ \/ _ |- _ => destruct H
         | H : False |- _ => destruct H
         end;
  simplify_eq.

Lemma allow_origin_set (request : CorsRequest) (options : CorsOptions) (value : string) :
  In ("Access-Control-Allow-Origin", value) (cors_sets request options)
  <-> resolveOrigin (req_origin request) options = Some value /\ value <> "".
Proof.
  unfold cors_sets. rewrite !in_app_iff.
  destruct (cors_exposedHeaders options) as [exposed|];
    [destruct (0 <? length exposed)%nat|];
    destruct (default false (cors_credentials options));
    destruct (resolveOrigin (req_origin request) options) as [[|c resolved]|];
    simpl; split;
    try solve [intros Hin; pick_entry; try (split; [reflexivity|discriminate])];
    try solve [intros [[= <-] Hne]; try contradiction; left; left; reflexivity].
Qed.

(** X25. With a list of allowed origins, [Access-Control-Allow-Origin]
    is set exactly for a request whose [origin] header is non-empty and
    on the list, by string equality, and its value is then the request's
    origin; a request from any other origin, or without one, gets no
    such header. The methods, allowed headers and max age are set
    whatever the origin. *)
Theorem allow_list_admits_listed_origins_only (request : CorsRequest)
  (options : CorsOptions) (allowed : list string) :
  cors_origin options = Some (OriginList allowed) ->
  (forall value,
      In ("Access-Control-Allow-Origin", value) (cors_sets request options)
      <-> req_origin request = Some value /\ value <> "" /\ In value allowed)
  /\ (exists methods headers age,
        In ("Access-Control-Allow-Methods", methods) (cors_sets request options)
        /\ In ("Access-Control-Allow-Headers", headers) (cors_sets request options)
        /\ In ("Access-Control-Max-Age", age) (cors_sets request options)).
Proof.
  intros Hconfig. split.
  - intros value. rewrite allow_origin_set. unfold resolveOrigin. rewrite Hconfig. simpl.
    destruct (req_origin request) as [origin|]; [|split; [intros [[=] _]|intros [[=] _]]].
    destruct (JS.truthy origin) eqn:Htruthy; simpl.
    + destruct (existsb (String.eqb origin) allowed) eqn:Hlisted.
      * apply existsb_eqb_In in Hlisted. split.
        -- intros [[= <-] Hne]. auto.
        -- intros ([= <-] & Hne & _). auto.
      * split; [intros [[=] _]|].
        intros ([= <-] & _ & Hin). apply existsb_eqb_In in Hin. congruence.
    + split; [intros [[=] _]|].
      intros ([= <-] & Hne & _). destruct origin; [contradiction|discriminate].
  - eexists _, _, _. unfold cors_sets. rewrite !in_app_iff. simpl.
    split; [|split]; eauto 10.
Qed.

Section CorsMore.
Context {Ext Headers Body : Type}.
Variable new_Headers : Headers.
Variable headers_set : string -> string -> Headers -> Headers.
Variable headers_forEach : Headers -> list (string * string).

Local Abbreviation HttpResponse := (@Cors.HttpResponse Headers Body).
Local Abbreviation createCorsHeaders := (Cors.createCorsHeaders new_Headers headers_set).
Local Abbreviation withCors :=
  (@Cors.withCors Ext Headers Body new_Headers headers_set headers_forEach).

(** A handler wrapped by [withCors] never sees a preflight: an
    [OPTIONS] request is answered with status 204, no body and the CORS
    headers, whatever the handler is, and the outside world is left
    untouched. For any other method the handler runs once; its
    rejection is passed on, and its response keeps its status and body
    and gets the CORS headers set on top of its own. *)
Lemma withCors_answers_preflight_itself
  (handler : CorsRequest -> Ext -> Outcome HttpResponse * Ext)
  (options : CorsOptions) (request : CorsRequest) (e : Ext) :
  if String.eqb (req_method request) "OPTIONS" then
    withCors handler options request e
    = (Resolves {| Cors.resp_status := 204;
                   Cors.resp_headers := createCorsHeaders request options;
                   Cors.resp_body := None |}, e)
  else
    match handler request e with
    | (Resolves response, e') =>
        exists wrapped,
          withCors handler options request e = (Resolves wrapped, e')
          /\ Cors.resp_status wrapped = Cors.resp_status response
          /\ Cors.resp_body wrapped = Cors.resp_body response
          /\ Cors.resp_headers wrapped
             = Cors.set_all headers_set
                 (headers_forEach (createCorsHeaders request options))
                 (Cors.resp_headers response)
    | (Rejects message, e') =>
        withCors handler options request e = (Rejects message, e')
    end.
Proof.
  unfold Cors.withCors, Cors.handleCorsPreflight.
  destruct (String.eqb (req_method request) "OPTIONS"); simpl; [reflexivity|].
  destruct (handler request e) as [[response|message] e']; [|reflexivity].
  eexists. split; [reflexivity|]. simpl. repeat split.
Qed.

End CorsMore.

(** ** The rule viewer *)






(* ===================================================================== *)
(** * Instances on the simulated services                                *)
(* ===================================================================== *)

(** Instance of X5: the draft that fails once and is then regenerated. *)
Lemma refinement_result_history_witness :
  exists res w',
    Pipeline.validateAndRefineRule Sim.regenerateRule Sim.validateRule 5 Sim.Date_new
      Sim.broken_rule "policy" "Meridian" Sim.w0 = (Ok res, w')
    /\ rule_id (rule res) = rule_id Sim.broken_rule.
Proof.
  eexists _, _.
  refine ((fun H => conj H (proj1 (refinement_result_history
                                     Sim.regenerateRule Sim.validateRule 5 Sim.Date_new
                                     Sim.broken_rule "policy" "Meridian" Sim.w0 _ _ H))) _).
  vm_compute; reflexivity.
Defined.

(** Instance of X6: an ingestion of two drafts. *)
Lemma ingestion_accounting_witness :
  exists data w',
    Sim.processPolicy "policy" "Meridian" Sim.w0 = (Ok data, w')
    /\ total_iterations data
       = Pipeline.validator_calls (log w') - Pipeline.validator_calls (log Sim.w0).
Proof.
  eexists _, _.
  refine ((fun H => conj H (proj1 (ingestion_accounting
                                     Sim.generateRules Sim.regenerateRule Sim.validateRule 5
                                     Sim.Date_new Sim.mkdirSync Sim.is_EEXIST Sim.path_join
                                     Sim.dirname Sim.Bun_write Sim.JSON_stringify_data
                                     Sim.rulesDir "policy" "Meridian" Sim.w0 _ _ H))) _).
  vm_compute; reflexivity.
Defined.


(** Instance of X11: a verdict with one denying rule. *)
Lemma verdict_list_lengths_witness :
  exists verdict w2,
    Sim.checkCompliance "Meridian" Sim.analyst Sim.apple "2025-11-19"
      (Sim.w_cached [Sim.deny_rule; Sim.banker_rule; Sim.failing_rule])
    = (Ok verdict, w2)
    /\ length (reasons verdict) <= length (policy_refs verdict)
       <= length (rules_checked verdict).
Proof.
  eexists _, _.
  refine ((fun H => conj H (verdict_list_lengths Sim.runPythonCode Sim.JSON_parse
                              Sim.loadRules "Meridian" Sim.analyst Sim.apple "2025-11-19"
                              (Sim.w_cached [Sim.deny_rule; Sim.banker_rule;
                                             Sim.failing_rule]) _ _ H)) _).
  vm_compute; reflexivity.
Defined.

(** Instance of X12: a firm nobody has ingested. *)
Lemma unknown_firm_is_allowed_witness :
  cache Sim.w0 !! "Nobody" = None
  /\ fst (Sim.file_exists (Storage.getFilePath Sim.path_join Sim.rulesDir "Nobody")
            (ext Sim.w0)) = Resolves false
  /\ exists w',
      Sim.checkCompliance "Nobody" Sim.analyst Sim.apple "2025-11-19" Sim.w0
      = (Ok empty_response, w')
      /\ log w' = log Sim.w0
                  ++ [EvExists (Storage.getFilePath Sim.path_join Sim.rulesDir "Nobody")]
      /\ rules_run (log w') = rules_run (log Sim.w0)
      /\ cache w' = cache Sim.w0.
Proof.
  refine ((fun Hc Hf => conj Hc (conj Hf (unknown_firm_is_allowed
                          Sim.runPythonCode Sim.JSON_parse Sim.path_join Sim.file_exists
                          Sim.file_text Sim.JSON_parse_data Sim.rulesDir "Nobody"
                          Sim.analyst Sim.apple "2025-11-19" Sim.w0 Hc Hf))) _ _).
  - vm_compute; reflexivity.
  - vm_compute; reflexivity.
Defined.

(** Instance of X13: the first load of the demo data file. *)
Lemma demo_data_settles_once_witness :
  exists w1,
    Sim.loadDemoData Sim.w_demo = (Ok Sim.demo_data, w1)
    /\ Sim.loadDemoData w1 = (Ok Sim.demo_data, w1).
Proof.
  eexists _.
  refine ((fun H => conj H (proj1 (demo_data_settles_once Sim.DATA_PATH Sim.file_exists
                                     Sim.file_text Sim.JSON_parse_demo Sim.w_demo _ _ H)))
            _).
  vm_compute; reflexivity.
Defined.

(** Instance of X14: a process started without the demo data file. *)
Lemma demo_data_failure_is_sticky_witness :
  exists msg w1,
    Sim.loadDemoData Sim.w0 = (Throw msg, w1)
    /\ DemoDataCache.getFirmRestrictions Sim.DATA_PATH Sim.file_exists Sim.file_text
         Sim.JSON_parse_demo w1 = (Throw msg, w1).
Proof.
  eexists _, _.
  refine ((fun H => conj H (proj1 (proj2 (demo_data_failure_is_sticky
                                     Sim.DATA_PATH Sim.file_exists Sim.file_text
                                     Sim.JSON_parse_demo Sim.w0 _ _ H)))) _).
  vm_compute; reflexivity.
Defined.

(** Instance of X15: the timer fires after some output; the [close] of
    the killed child follows. *)
Lemma first_settling_event_wins_witness :
  PythonBridge.settle_child (Some 10000%N)
    ([StdoutData "partial"] ++ TimerFires :: [CloseEvent None])
  = Rejected (PythonBridge.timed_out 10000)
  /\ PythonBridge.settle_child (Some 10000%N) [StdoutData "partial"] = Pending.
Proof.
  apply (first_settling_event_wins (Some 10000%N) [StdoutData "partial"]
           [CloseEvent None] TimerFires).
  - reflexivity.
  - reflexivity.
  - intros _. exists 10000%N. split; [reflexivity|discriminate].
Defined.

(** Instance of X17: the wrapper script fails with exit code 127 and
    the interpreter is started a second time. *)
Lemma failure_mentioning_not_found_is_rerun_witness :
  exists failure q p e2,
    PythonBridge.runPythonCode None BridgeSim.spawn BridgeSim.JSON_stringify
      "print(1)" (Some "{}") (Some 10000%N) 0
    = (p, [("python", Rejected failure); ("python3", q)], e2)
    /\ PythonBridge.executeWithPythonBin BridgeSim.spawn BridgeSim.JSON_stringify
         "python3" "print(1)" (Some "{}") (Some 10000%N) 1 = (q, e2)
    /\ PythonBridge.isNotFound failure = true.
Proof.
  apply (failure_mentioning_not_found_is_rerun None BridgeSim.spawn
           BridgeSim.JSON_stringify "print(1)" (Some "{}") (Some 10000%N) 0 1
           [StderrData "wrapper: Executable not found: pyenv-helper"] []
           (Some 127%Z)).
  - discriminate.
  - reflexivity.
  - reflexivity.
  - discriminate.
  - exists "wrapper: ", ": pyenv-helper". reflexivity.
Defined.

(** Instance of X18: two candidates, of which the complete one becomes a
    draft without its blank role. *)
Lemma generator_returns_fresh_drafts_witness :
  exists drafts e',
    ApiSim.generateRules {| ctx_policy_text := "policy"; ctx_firm_name := "Meridian";
                            previous_attempt := None |} (Sim.disk 0 ∅)
    = (Resolves drafts, e')
    /\ length drafts = 1
    /\ Forall fresh_draft drafts.
Proof.
  eexists _, _.
  split; [vm_compute; reflexivity|].
  split; [reflexivity|].
  refine (generator_returns_fresh_drafts
            ApiSim.model ApiSim.messages_create ApiSim.JSON_parse_rules
            {| ctx_policy_text := "policy"; ctx_firm_name := "Meridian";
               previous_attempt := None |}
            (Sim.disk 0 ∅) _ _ (or_introl _)).
  vm_compute; reflexivity.
Defined.

(** Instance of X20: the draft that fails once and is regenerated. *)
Lemma pipeline_regenerates_with_previous_attempt_witness :
  exists out w',
    Pipeline.validateAndRefineRule Sim.regenerateRule Sim.validateRule 5 Sim.Date_new
      Sim.broken_rule "policy" "Meridian" Sim.w0 = (out, w')
    /\ exists evs,
         log w' = log Sim.w0 ++ evs
         /\ Forall (regeneration_request "policy" "Meridian") evs.
Proof.
  eexists _, _.
  refine ((fun H => conj H (pipeline_regenerates_with_previous_attempt
                              Sim.regenerateRule Sim.validateRule 5 Sim.Date_new
                              Sim.broken_rule "policy" "Meridian" Sim.w0 _ _ H)) _).
  vm_compute; reflexivity.
Defined.

(** Instance of X24: a check of employee [emp002] for firm Meridian with
    a trade date given in the request. *)
Lemma compliance_check_evaluates_echoed_query_witness :
  exists resp w' verdict,
    ApiSim.POST ApiSim.request_json ApiSim.w_ready = (Ok resp, w')
    /\ body resp = CheckSuccess "Meridian" "emp002" "AAPL" (Some "buy") "2025-11-21" verdict
    /\ exists request payloads,
         fst (ApiSim.request_json (ext ApiSim.w_ready)) = Resolves (Some request)
         /\ "Meridian" = JS.nullish (JS.trim <$> cc_firm_name request) ""
         /\ (forall given, cc_trade_date request = Some given -> "2025-11-21" = given)
         /\ rules_run (log w') = rules_run (log ApiSim.w_ready) ++ payloads
         /\ Forall (fun payload =>
                      rp_date payload = "2025-11-21"
                      /\ ticker (rp_security payload) = "AAPL"
                      /\ assoc "firm" (emp_props (rp_employee payload))
                         = Some (JStr "Meridian"))
                   payloads
         /\ length (rules_checked verdict) = length payloads.
Proof.
  eexists _, _, _.
  split; [vm_compute; reflexivity|].
  split; [vm_compute; reflexivity|].
  refine (compliance_check_evaluates_echoed_query
            ApiSim.parseQuery Sim.DATA_PATH Sim.file_exists Sim.file_text
            Sim.JSON_parse_demo Sim.runPythonCode Sim.JSON_parse Sim.path_join
            Sim.JSON_parse_data Sim.rulesDir Sim.Date_new
            ApiSim.request_json ApiSim.w_ready _ _ "Meridian" "emp002" "AAPL"
            "2025-11-21" (Some "buy") _ _ _); vm_compute; reflexivity.
Defined.

(** Instance of X25: a request from a listed origin. *)
Lemma allow_list_admits_listed_origins_only_witness :
  cors_origin ApiSim.allow_list
  = Some (OriginList ["https://app.example"; "https://admin.example"])
  /\ In ("Access-Control-Allow-Origin", "https://admin.example")
        (cors_sets {| req_method := "POST"; req_origin := Some "https://admin.example" |}
           ApiSim.allow_list).
Proof.
  split; [reflexivity|].
  apply (proj1 (allow_list_admits_listed_origins_only
                  {| req_method := "POST"; req_origin := Some "https://admin.example" |}
                  ApiSim.allow_list
                  ["https://app.example"; "https://admin.example"] eq_refl)).
  split; [reflexivity|]. split; [discriminate|]. right. left. reflexivity.
Defined.


(** Witness of X9: the firm name ["  Acme Corp "]. *)
Lemma normalizeFirmName_canonical_witness :
  ascii_only "  Acme Corp " = true
  /\ normalizeFirmName "  Acme Corp " = "acme_corp"
  /\ ascii_only (normalizeFirmName "  Acme Corp ") = true
  /\ all_chars (fun c => negb (JS.is_space c) && negb (JS.is_upper c))
               (normalizeFirmName "  Acme Corp ") = true
  /\ normalizeFirmName (normalizeFirmName "  Acme Corp ") = normalizeFirmName "  Acme Corp "
  /\ normalizeFirmName (JS.toUpperCase "  Acme Corp ") = normalizeFirmName "  Acme Corp "
  /\ normalizeFirmName (JS.toLowerCase "  Acme Corp ") = normalizeFirmName "  Acme Corp "
  /\ normalizeFirmName (JS.trim "  Acme Corp ") = normalizeFirmName "  Acme Corp ".
Proof.
  split; [reflexivity|]. split; [reflexivity|].
  apply (normalizeFirmName_canonical "  Acme Corp "). reflexivity.
Defined.

(** Instance of X22: an ingestion request for firm Meridian is answered
    with the bundle the pipeline returned. *)
Lemma policy_ingest_responses_witness :
  exists resp w' data,
    PolicyIngest.POST Sim.processPolicy
      (fun e => (Resolves (Some {| pi_firm_name := Some " Meridian ";
                                   pi_policy_text := Some "policy" |}), e))
      Sim.w0 = (Ok resp, w')
    /\ fst (Sim.processPolicy "policy" "Meridian" Sim.w0) = Ok data
    /\ resp = {| status := 200;
                 body := IngestSuccess "Meridian" (length (rules data))
                           (total_iterations data) (summarize <$> rules data) |}
    /\ total_iterations data
       = Pipeline.validator_calls (log w') - Pipeline.validator_calls (log Sim.w0)
    /\ Forall (fun s => sum_validated s = true /\ 1 <= sum_attempts s)
              (summarize <$> rules data).
Proof.
  eexists _, _, _.
  split; [vm_compute; reflexivity|].
  split; [vm_compute; reflexivity|].
  destruct (policy_ingest_responses
              Sim.generateRules Sim.regenerateRule Sim.validateRule Sim.Date_new
              Sim.mkdirSync Sim.is_EEXIST Sim.path_join Sim.dirname Sim.Bun_write
              Sim.JSON_stringify_data Sim.rulesDir
              (fun e => (Resolves (Some {| pi_firm_name := Some " Meridian ";
                                           pi_policy_text := Some "policy" |}), e))
              Sim.w0) as (resp & w' & Hrun & Hanswer).
  vm_compute in Hrun. injection Hrun as <- <-.
  vm_compute in Hanswer.
  destruct (Hanswer eq_refl eq_refl) as (Hresp & _ & _ & Htotal & Hsummaries).
  vm_compute.
  split; [exact Hresp|]. split; [exact Htotal | exact Hsummaries].
Defined.

(** Instance of X23: a check for an id no employee of the demo data
    has. *)
Lemma compliance_check_responses_witness :
  exists resp w',
    ApiSim.POST
      (fun e => (Resolves (Some {| cc_firm_name := Some " Meridian ";
                                   cc_employee_id := Some " emp999 ";
                                   cc_query := Some "Can I buy Apple stock?";
                                   cc_trade_date := None |}), e))
      ApiSim.w_ready = (Ok resp, w')
    /\ resp = {| status := 404;
                 body := CheckError "EMPLOYEE_NOT_FOUND"
                           "Employee emp999 was not found in demo_data_simple.json."
                           None |}
    /\ rules_run (log w') = rules_run (log ApiSim.w_ready).
Proof.
  eexists _, _.
  split; [vm_compute; reflexivity|].
  destruct (compliance_check_responses
              ApiSim.parseQuery Sim.DATA_PATH Sim.file_exists Sim.file_text
              Sim.JSON_parse_demo Sim.runPythonCode Sim.JSON_parse Sim.path_join
              Sim.JSON_parse_data Sim.rulesDir Sim.Date_new
              (fun e => (Resolves (Some {| cc_firm_name := Some " Meridian ";
                                           cc_employee_id := Some " emp999 ";
                                           cc_query := Some "Can I buy Apple stock?";
                                           cc_trade_date := None |}), e))
              ApiSim.w_ready) as (resp & w' & Hrun & Hanswer).
  vm_compute in Hrun. injection Hrun as <- <-.
  vm_compute in Hanswer.
  vm_compute.
  refine (Hanswer eq_refl eq_refl eq_refl _).
  repeat constructor.
Defined.
